(** * saas-boilerplate: the chat pipeline, its store and the auth middleware

    A shallow embedding of

    - [server/middleware/auth.js]   ([flexibleAuth], [optionalAuth]),
    - [server/services/aiRouter.js] ([MODELS], [chat], [chatAnthropic],
      [chatOpenAI], [getAvailableModels]),
    - [server/routes/chatRoutes.js] (the chat handlers),
    - [server/routes/authRoutes.js] (register and me),
    - [server/routes/stripeRoutes.js] (checkout and portal),
    - [server/db/database.js]       (the driver, on its SQLite and on its
      PostgreSQL branch),
    - [server/db/init.js]           (the schema the handlers' SQL runs on),

    followed by the properties of the chat pipeline that the specification
    states about them.

    Conventions.  JavaScript numbers are IEEE 754 binary64 values, which is
    what [PrimFloat.float] is, so token counts and costs are computed with the
    very operations the program uses.  A text is the string of its UTF-8
    bytes; where JavaScript counts it, it is counted in UTF-16 code units.
    A table is the list of its rows in rowid (insertion) order.  Everything
    the program obtains from outside (generated identifiers,
    [CURRENT_TIMESTAMP] readings, the vendors' answers) is an explicit
    input. *)

From Stdlib Require Import List String Ascii Bool ZArith Lia Floats.
From Stdlib Require Import Sorting.Sorted Sorting.Permutation.
Import ListNotations.

Set Warnings "-inexact-float".

Open Scope string_scope.
Open Scope bool_scope.

(* ================================================================== *)
(** * JavaScript values *)
(* ================================================================== *)

Module Js.

(** The values a request field or an environment entry can hold.  Arrays and
    plain objects are both [JObject]: the program only ever tests them for
    truthiness and never looks inside. *)
Inductive JsValue : Type :=
| JUndefined
| JNull
| JBool (b : bool)
| JNumber (x : float)
| JString (s : string)
| JObject.

(** ToBoolean. *)
Definition truthy (v : JsValue) : bool :=
  match v with
  | JUndefined | JNull => false
  | JBool b => b
  | JNumber x => negb (PrimFloat.is_zero x || PrimFloat.is_nan x)
  | JString EmptyString => false
  | JString (String _ _) => true
  | JObject => true
  end.

(** [a || b]. *)
Definition js_or (a b : JsValue) : JsValue := if truthy a then a else b.

(** [o?.f]: [undefined] when [o] is nullish. *)
Definition optional_chain {A : Type} (o : option A) (f : A -> JsValue) : JsValue :=
  match o with
  | Some x => f x
  | None => JUndefined
  end.

(** Own-property lookup in an object whose keys are written out. *)
Fixpoint get_prop {A : Type} (k : string) (o : list (string * A)) : option A :=
  match o with
  | [] => None
  | (k', v) :: rest => if String.eqb k k' then Some v else get_prop k rest
  end.

(** An entry of [process.env]: a string or [undefined]. *)
Definition of_env (e : option string) : JsValue :=
  match e with
  | Some s => JString s
  | None => JUndefined
  end.

(** [x || 0] on a number that may be missing. *)
Definition number_or_zero (x : option float) : float :=
  match x with
  | Some f => if PrimFloat.is_zero f || PrimFloat.is_nan f then 0%float else f
  | None => 0%float
  end.

(** [s || ''] and [s || d] on a string that may be missing. *)
Definition string_or (s : option string) (d : string) : string :=
  match s with
  | Some (String a r) => String a r
  | _ => d
  end.

(** ** Strings

    A [string] of the model holds the UTF-8 bytes of a text, which is how
    the store keeps it.  JavaScript counts a string in UTF-16 code units:
    a character of one, two or three bytes is one unit, a character of
    four bytes is two (a surrogate pair), and a continuation byte belongs
    to the character before it. *)
Definition utf16_units (c : ascii) : nat :=
  let n := nat_of_ascii c in
  if Nat.ltb n 128 then 1
  else if Nat.ltb n 192 then 0
  else if Nat.ltb n 240 then 1
  else 2.

(** [s.length] *)
Fixpoint utf16_length (s : string) : nat :=
  match s with
  | EmptyString => 0
  | String c rest => utf16_units c + utf16_length rest
  end.

(** U+FFFD, which takes the place of half a surrogate pair when a string
    is handed to the store. *)
Definition replacement_character : string :=
  String (ascii_of_nat 239)
    (String (ascii_of_nat 191) (String (ascii_of_nat 189) EmptyString)).

(** [s.substring(0, n)], as the store receives it: the characters that
    fit in the first [n] code units; when the cut falls inside a surrogate
    pair the first half is kept and arrives as U+FFFD. *)
Fixpoint substring0 (n : nat) (s : string) : string :=
  match s with
  | EmptyString => EmptyString
  | String c rest =>
      match utf16_units c, n with
      | 0, _ => String c (substring0 n rest)
      | _, 0 => EmptyString
      | 1, S n' => String c (substring0 n' rest)
      | _, 1 => replacement_character
      | _, S (S n') => String c (substring0 n' rest)
      end
  end.

End Js.
Import Js.

(* ================================================================== *)
(** * process.env *)
(* ================================================================== *)

Record ProcessEnv : Type := {
  NODE_ENV : option string;
  DEV_USER_ID : option string;
  ANTHROPIC_API_KEY : option string;
  OPENAI_API_KEY : option string
}.

(** [process.env.NODE_ENV === 'production'] *)
Definition is_production (env : ProcessEnv) : bool :=
  match NODE_ENV env with
  | Some s => String.eqb s "production"
  | None => false
  end.

(* ================================================================== *)
(** * middleware/auth.js *)
(* ================================================================== *)

Module Auth.

Record Session : Type := { session_userId : JsValue }.
Record ClerkAuth : Type := { auth_userId : JsValue }.

(** The parts of an Express request the middleware reads. *)
Record Request : Type := {
  session : option Session;
  auth : option ClerkAuth;
  headers : list (string * string);
  query : list (string * JsValue)
}.

Definition header (req : Request) (name : string) : JsValue :=
  match get_prop name (headers req) with
  | Some s => JString s
  | None => JUndefined
  end.

Definition query_param (req : Request) (name : string) : JsValue :=
  match get_prop name (query req) with
  | Some v => v
  | None => JUndefined
  end.

(** What a middleware does with a request: answer it, or set [req.userId]
    and call [next()]. *)
Inductive Outcome : Type :=
| Responded (status : nat) (error : string)
| Next (userId : JsValue).

(** [req.session?.userId || req.auth?.userId || req.headers['x-user-id']
     || req.query.userId]; [||] associates to the left. *)
Definition resolved_userId (req : Request) : JsValue :=
  js_or (js_or (js_or (optional_chain (session req) session_userId)
                      (optional_chain (auth req) auth_userId))
               (header req "x-user-id"))
        (query_param req "userId").

Definition flexibleAuth (env : ProcessEnv) (req : Request) : Outcome :=
  let userId := resolved_userId req in
  if negb (truthy userId) && is_production env then
    Responded 401 "Unauthorized"
  else if negb (truthy userId) && negb (is_production env) then
    Next (js_or (of_env (DEV_USER_ID env)) (JString "dev-user"))
  else
    Next userId.

Definition optionalAuth (req : Request) : Outcome :=
  Next (js_or (resolved_userId req) JNull).

(** ** The precedence chain, as a specification *)

(** The four places an identity can come from, highest priority first,
    each read off the request directly: the [userId] of the session when
    there is a session, the [userId] Clerk attached when it attached
    anything, the [x-user-id] entry of [req.headers], the [userId] entry
    of [req.query]; [undefined] where there is none. *)
Definition identity_sources (req : Request) : list JsValue :=
  [ match session req with
    | Some s => session_userId s
    | None => JUndefined
    end;
    match auth req with
    | Some a => auth_userId a
    | None => JUndefined
    end;
    match find (fun h => String.eqb (fst h) "x-user-id") (headers req) with
    | Some h => JString (snd h)
    | None => JUndefined
    end;
    match find (fun q => String.eqb (fst q) "userId") (query req) with
    | Some q => snd q
    | None => JUndefined
    end ].

(** A source supplies an identity when its value is truthy. *)
Definition first_supplied (vs : list JsValue) : option JsValue :=
  find truthy vs.

Definition dev_fallback (env : ProcessEnv) : JsValue :=
  JString (string_or (DEV_USER_ID env) "dev-user").

End Auth.

(* ================================================================== *)
(** * db/init.js and db/database.js: the relational store *)
(* ================================================================== *)

Module Db.

(** [CURRENT_TIMESTAMP], in seconds. *)
Definition Timestamp : Type := Z.
Bind Scope Z_scope with Timestamp.

(** The [{role, content}] objects that travel from the store to a vendor. *)
Record ChatMessage : Type := { role : string; content : string }.

(** One record per table of the schema, one field per column. *)
Record UserRow : Type := {
  u_id : string;
  u_email : string;
  u_name : option string;
  u_plan : string;
  u_stripe_customer_id : option string;
  u_created_at : Timestamp;
  u_updated_at : Timestamp
}.

Record ConversationRow : Type := {
  c_id : string;
  c_user_id : string;
  c_title : option string;
  c_created_at : Timestamp;
  c_updated_at : Timestamp
}.

Record MessageRow : Type := {
  m_id : string;
  m_conversation_id : string;
  m_role : string;
  m_content : string;
  m_model : option string;
  m_tokens_used : float;
  m_cost : float;
  m_created_at : Timestamp
}.

(** The database: each table lists its rows in rowid order, oldest insert
    first.  [foreign_keys] says whether the engine enforces the schema's
    [FOREIGN KEY] clauses; the handlers never set it, so nothing below
    depends on its value.  [use_postgres] is the branch [database.js] took
    when the process started ([USE_POSTGRES === 'true']): the [pg] pool
    instead of the SQLite file. *)
Record Database : Type := {
  use_postgres : bool;
  foreign_keys : bool;
  users : list UserRow;
  conversations : list ConversationRow;
  messages : list MessageRow
}.

Inductive SqlError : Type :=
| PrimaryKeyViolation (table : string)
| ForeignKeyViolation (table : string)
| UniqueViolation (table column : string)
| StatementRejected.

(** ** database.js: [db.prepare(sql)]

    On the SQLite branch a prepared statement runs as it is written.  On
    the PostgreSQL branch [run], [get] and [all] hand the same text to
    [pool.query].  Every statement of the routes marks its parameters with
    [?]; PostgreSQL takes [$1], [$2], ... and rejects the text, so the call
    throws before anything is read or written. *)
Definition prepare_run (stmt : Database -> SqlError + Database) (d : Database)
    : SqlError + Database :=
  if use_postgres d then inl StatementRejected else stmt d.

Definition prepare_all {A : Type} (q : Database -> A) (d : Database)
    : SqlError + A :=
  if use_postgres d then inl StatementRejected else inr (q d).

(** ** ORDER BY

    A stable sort of the scanned rows: rows with equal keys stay in rowid
    order. *)
Fixpoint insert_row {A : Type} (le : A -> A -> bool) (x : A) (l : list A) : list A :=
  match l with
  | [] => [x]
  | y :: l' => if le x y then x :: y :: l' else y :: insert_row le x l'
  end.

Definition order_by {A : Type} (le : A -> A -> bool) (l : list A) : list A :=
  fold_right (insert_row le) [] l.

Definition asc {A : Type} (key : A -> Z) (x y : A) : bool := (key x <=? key y)%Z.
Definition desc {A : Type} (key : A -> Z) (x y : A) : bool := (key y <=? key x)%Z.

(** ** The statements the routes prepare *)

(** [INSERT INTO users (id, email, name) VALUES (?, ?, ?)]; [plan] takes
    its default ['free'], both timestamps [CURRENT_TIMESTAMP]. *)
Definition insert_user (now : Timestamp) (id email : string) (name : option string)
    (d : Database) : SqlError + Database :=
  if existsb (fun u => String.eqb (u_id u) id) (users d) then
    inl (PrimaryKeyViolation "users")
  else if existsb (fun u => String.eqb (u_email u) email) (users d) then
    inl (UniqueViolation "users" "email")
  else
    inr {| use_postgres := use_postgres d;
           foreign_keys := foreign_keys d;
           users := users d ++
             [ {| u_id := id; u_email := email; u_name := name;
                  u_plan := "free"; u_stripe_customer_id := None;
                  u_created_at := now; u_updated_at := now |} ];
           conversations := conversations d;
           messages := messages d |}.

(** [UPDATE users SET email = ?, name = ?, updated_at = CURRENT_TIMESTAMP
     WHERE id = ?].  The statement fails when it would give the row an
    email that another row holds. *)
Definition update_user (now : Timestamp) (email : string) (name : option string)
    (id : string) (d : Database) : SqlError + Database :=
  if existsb (fun u => String.eqb (u_id u) id) (users d)
     && existsb (fun u => negb (String.eqb (u_id u) id)
                          && String.eqb (u_email u) email) (users d) then
    inl (UniqueViolation "users" "email")
  else
    inr {| use_postgres := use_postgres d;
           foreign_keys := foreign_keys d;
           users := map (fun u =>
                      if String.eqb (u_id u) id then
                        {| u_id := u_id u; u_email := email; u_name := name;
                           u_plan := u_plan u;
                           u_stripe_customer_id := u_stripe_customer_id u;
                           u_created_at := u_created_at u; u_updated_at := now |}
                      else u) (users d);
           conversations := conversations d;
           messages := messages d |}.

(** [SELECT ... FROM users WHERE id = ?], first row. *)
Definition select_user (id : string) (d : Database) : option UserRow :=
  find (fun u => String.eqb (u_id u) id) (users d).

(** [INSERT INTO conversations (id, user_id, title) VALUES (?, ?, ?)] *)
Definition insert_conversation (now : Timestamp) (id user_id title : string)
    (d : Database) : SqlError + Database :=
  if existsb (fun c => String.eqb (c_id c) id) (conversations d) then
    inl (PrimaryKeyViolation "conversations")
  else if foreign_keys d
          && negb (existsb (fun u => String.eqb (u_id u) user_id) (users d)) then
    inl (ForeignKeyViolation "conversations")
  else
    inr {| use_postgres := use_postgres d;
           foreign_keys := foreign_keys d;
           users := users d;
           conversations := conversations d ++
             [ {| c_id := id; c_user_id := user_id; c_title := Some title;
                  c_created_at := now; c_updated_at := now |} ];
           messages := messages d |}.

(** [INSERT INTO messages (id, conversation_id, role, content, model,
     tokens_used, cost) VALUES (?, ?, ?, ?, ?, ?, ?)].  The four-column
    insert of a user message is the same statement with the column defaults
    ([NULL], [0], [0]) for the last three. *)
Definition insert_message (now : Timestamp) (id conversation_id role content : string)
    (model : option string) (tokens_used cost : float)
    (d : Database) : SqlError + Database :=
  if existsb (fun m => String.eqb (m_id m) id) (messages d) then
    inl (PrimaryKeyViolation "messages")
  else if foreign_keys d
          && negb (existsb (fun c => String.eqb (c_id c) conversation_id)
                           (conversations d)) then
    inl (ForeignKeyViolation "messages")
  else
    inr {| use_postgres := use_postgres d;
           foreign_keys := foreign_keys d;
           users := users d;
           conversations := conversations d;
           messages := messages d ++
             [ {| m_id := id; m_conversation_id := conversation_id;
                  m_role := role; m_content := content; m_model := model;
                  m_tokens_used := tokens_used; m_cost := cost;
                  m_created_at := now |} ] |}.

(** The rows of [WHERE conversation_id = ? ORDER BY created_at ASC]. *)
Definition in_conversation (conversation_id : string) (m : MessageRow) : bool :=
  String.eqb (m_conversation_id m) conversation_id.

Definition messages_of (conversation_id : string) (d : Database) : list MessageRow :=
  order_by (asc m_created_at)
    (filter (in_conversation conversation_id) (messages d)).

(** [SELECT role, content FROM messages WHERE conversation_id = ?
     ORDER BY created_at ASC LIMIT 20] *)
Definition chat_message (m : MessageRow) : ChatMessage :=
  {| role := m_role m; content := m_content m |}.

Definition select_history (conversation_id : string) (d : Database) : list ChatMessage :=
  map chat_message (firstn 20 (messages_of conversation_id d)).

(** [SELECT id, title, created_at, updated_at FROM conversations
     WHERE user_id = ? ORDER BY updated_at DESC LIMIT 50] *)
Record ConversationSummary : Type := {
  s_id : string;
  s_title : option string;
  s_created_at : Timestamp;
  s_updated_at : Timestamp
}.

Definition select_conversations (user_id : string) (d : Database)
    : list ConversationSummary :=
  map (fun c => {| s_id := c_id c; s_title := c_title c;
                   s_created_at := c_created_at c;
                   s_updated_at := c_updated_at c |})
      (firstn 50
         (order_by (desc c_updated_at)
            (filter (fun c => String.eqb (c_user_id c) user_id) (conversations d)))).

(** [SELECT * FROM conversations WHERE id = ? AND user_id = ?], first row. *)
Definition select_conversation (id user_id : string) (d : Database)
    : option ConversationRow :=
  find (fun c => String.eqb (c_id c) id && String.eqb (c_user_id c) user_id)
       (conversations d).

(** [SELECT id, role, content, model, created_at FROM messages
     WHERE conversation_id = ? ORDER BY created_at ASC] *)
Record MessageView : Type := {
  v_id : string;
  v_role : string;
  v_content : string;
  v_model : option string;
  v_created_at : Timestamp
}.

Definition view (m : MessageRow) : MessageView :=
  {| v_id := m_id m; v_role := m_role m; v_content := m_content m;
     v_model := m_model m; v_created_at := m_created_at m |}.

Definition select_messages (conversation_id : string) (d : Database)
    : list MessageView :=
  map view (messages_of conversation_id d).

End Db.

(* ================================================================== *)
(** * What a request can do: state, thrown errors, logged calls *)
(* ================================================================== *)

Module Effects.
Import Db.

(** The static catalogue entries of [MODELS]. *)
Record ModelConfig : Type := {
  provider : string;
  modelId : string;
  maxTokens : Z;
  inputCostPer1k : float;
  outputCostPer1k : float
}.

Inductive Vendor : Type := Anthropic | OpenAI.

(** The argument of [anthropic.messages.create]. *)
Record AnthropicRequest : Type := {
  a_model : string;
  a_max_tokens : Z;
  a_system : string;
  a_messages : list ChatMessage
}.

(** The argument of [openai.chat.completions.create]. *)
Record OpenAIRequest : Type := {
  o_model : string;
  o_max_tokens : Z;
  o_messages : list ChatMessage
}.

(** What the properties below observe of a request: that an adapter
    function was entered, with its arguments, and each invocation of a
    vendor SDK's [create] method.  One invocation is one event, however
    many HTTP requests the SDK sends for it: the clients are built with
    the SDK's defaults, which resend a request that was rejected by the
    server or timed out. *)
Inductive Event : Type :=
| AdapterEntered (v : Vendor) (cfg : ModelConfig)
                 (msgs : list ChatMessage) (systemPrompt : option string)
| AnthropicCall (r : AnthropicRequest)
| OpenAICall (r : OpenAIRequest).

(** The errors the code throws or lets through; [error_message] is the
    text of the [Error] (of a rejected statement: how it starts, the rest
    names the place in the statement). *)
Inductive Exn : Type :=
| UnknownModel (model : string)
| UnsupportedProvider (p : option string)
| ProviderUnconfigured (v : Vendor)
| ProviderError (message : string)
| StorageError (e : SqlError).

Definition error_message (e : Exn) : string :=
  match e with
  | UnknownModel m => "Unknown model: " ++ m
  | UnsupportedProvider (Some p) => "Unsupported provider: " ++ p
  | UnsupportedProvider None => "Unsupported provider: undefined"
  | ProviderUnconfigured Anthropic => "Anthropic API key not configured"
  | ProviderUnconfigured OpenAI => "OpenAI API key not configured"
  | ProviderError m => m
  | StorageError (PrimaryKeyViolation t) => "UNIQUE constraint failed: " ++ t ++ ".id"
  | StorageError (ForeignKeyViolation _) => "FOREIGN KEY constraint failed"
  | StorageError (UniqueViolation t c) =>
      "UNIQUE constraint failed: " ++ t ++ "." ++ c
  | StorageError StatementRejected => "syntax error at"
  end.

Record World : Type := { db : Database; log : list Event }.

(** A computation runs in a world and leaves a world behind, also when it
    throws: nothing is rolled back. *)
Definition M (A : Type) : Type := World -> (Exn + A) * World.

Definition ret {A : Type} (a : A) : M A := fun w => (inr a, w).

Definition throw {A : Type} (e : Exn) : M A := fun w => (inl e, w).

Definition bind {A B : Type} (m : M A) (k : A -> M B) : M B :=
  fun w =>
    match m w with
    | (inr a, w') => k a w'
    | (inl e, w') => (inl e, w')
    end.

(** [try { m } catch (error) { h error }] *)
Definition try_catch {A : Type} (m : M A) (h : Exn -> M A) : M A :=
  fun w =>
    match m w with
    | (inr a, w') => (inr a, w')
    | (inl e, w') => h e w'
    end.

Definition emit (e : Event) : M unit :=
  fun w => (inr tt, {| db := db w; log := log w ++ [e] |}).

(** [await db.prepare(sql).all(...)] and [await db.prepare(sql).get(...)] *)
Definition query {A : Type} (q : Database -> A) : M A :=
  fun w =>
    match prepare_all q (db w) with
    | inr a => (inr a, w)
    | inl e => (inl (StorageError e), w)
    end.

(** [await db.prepare(sql).run(...)] *)
Definition run (stmt : Database -> SqlError + Database) : M unit :=
  fun w =>
    match prepare_run stmt (db w) with
    | inr d' => (inr tt, {| db := d'; log := log w |})
    | inl e => (inl (StorageError e), w)
    end.

(** [await p] for a promise the outside world settles. *)
Definition await {A : Type} (settled : string + A) : M A :=
  match settled with
  | inr a => ret a
  | inl message => throw (ProviderError message)
  end.

End Effects.

Declare Scope js_scope.
Delimit Scope js_scope with js.
Notation "x <- m ;; k" := (Effects.bind m (fun x => k))
  (at level 100, m at next level, right associativity) : js_scope.
Notation "m ;;; k" := (Effects.bind m (fun _ => k))
  (at level 100, right associativity) : js_scope.

(* ================================================================== *)
(** * services/aiRouter.js *)
(* ================================================================== *)

Module AiRouter.
Import Db Effects.
Open Scope js_scope.

(** The SDK clients, present when the key in the environment is truthy. *)
Record Client : Type := { apiKey : string }.

Definition new_client (key : option string) : option Client :=
  match key with
  | Some (String a r) => Some {| apiKey := String a r |}
  | _ => None
  end.

Definition anthropic (env : ProcessEnv) : option Client :=
  new_client (ANTHROPIC_API_KEY env).

Definition openai (env : ProcessEnv) : option Client :=
  new_client (OPENAI_API_KEY env).

(** The own properties of [MODELS], in source order. *)
Definition MODELS : list (string * ModelConfig) :=
  [ ("claude-3-5-sonnet",
     {| provider := "anthropic"; modelId := "claude-3-5-sonnet-20241022";
        maxTokens := 8192;
        inputCostPer1k := 0.003; outputCostPer1k := 0.015 |});
    ("claude-3-haiku",
     {| provider := "anthropic"; modelId := "claude-3-haiku-20240307";
        maxTokens := 4096;
        inputCostPer1k := 0.00025; outputCostPer1k := 0.00125 |});
    ("gpt-4o",
     {| provider := "openai"; modelId := "gpt-4o";
        maxTokens := 4096;
        inputCostPer1k := 0.005; outputCostPer1k := 0.015 |});
    ("gpt-4o-mini",
     {| provider := "openai"; modelId := "gpt-4o-mini";
        maxTokens := 4096;
        inputCostPer1k := 0.00015; outputCostPer1k := 0.0006 |}) ].

(** [MODELS] is written as an object literal, so a property read that finds
    no own property goes on to [Object.prototype]. *)
Definition Object_prototype : list string :=
  [ "constructor"; "__defineGetter__"; "__defineSetter__"; "hasOwnProperty";
    "__lookupGetter__"; "__lookupSetter__"; "isPrototypeOf";
    "propertyIsEnumerable"; "toString"; "valueOf"; "__proto__";
    "toLocaleString" ].

(** What [MODELS[model]] evaluates to when it is not [undefined]: a
    catalogue entry, or a member of [Object.prototype] (a function, or the
    prototype object itself: truthy, and without a [provider] property). *)
Inductive Property : Type :=
| Own (cfg : ModelConfig)
| Inherited (name : string).

(** [MODELS[model]] *)
Definition MODELS_get (model : string) : option Property :=
  match get_prop model MODELS with
  | Some cfg => Some (Own cfg)
  | None =>
      if existsb (String.eqb model) Object_prototype
      then Some (Inherited model)
      else None
  end.

(** The normalised result of a chat call. *)
Record Usage : Type := {
  inputTokens : float;
  outputTokens : float;
  totalTokens : float;
  cost : float
}.

Record ChatResult : Type := {
  result_content : string;
  result_model : string;
  usage : Usage
}.

(** The parts of the vendors' answers the adapters read. *)
Record AnthropicUsage : Type := {
  input_tokens : option float;
  output_tokens : option float
}.

Record AnthropicResponse : Type := {
  a_usage : option AnthropicUsage;
  a_text : option string          (* [content[0]?.text] *)
}.

Record OpenAIUsage : Type := {
  prompt_tokens : option float;
  completion_tokens : option float
}.

Record OpenAIResponse : Type := {
  o_usage : option OpenAIUsage;
  o_text : option string          (* [choices[0]?.message?.content] *)
}.

(** The two vendors as seen from the process: a request is answered or
    rejected with a message. *)
Record Network : Type := {
  anthropic_create : AnthropicRequest -> string + AnthropicResponse;
  openai_create : OpenAIRequest -> string + OpenAIResponse
}.

Definition usage_field {U : Type} (u : option U) (f : U -> option float) : option float :=
  match u with
  | Some x => f x
  | None => None
  end.

(** [(inputTokens / 1000 * inputCostPer1k) +
     (outputTokens / 1000 * outputCostPer1k)] *)
Definition cost_of (cfg : ModelConfig) (inTok outTok : float) : float :=
  (inTok / 1000 * inputCostPer1k cfg + outTok / 1000 * outputCostPer1k cfg)%float.

Definition chatAnthropic (env : ProcessEnv) (net : Network) (modelConfig : ModelConfig)
    (msgs : list ChatMessage) (systemPrompt : option string) : M ChatResult :=
  emit (AdapterEntered Anthropic modelConfig msgs systemPrompt) ;;;
  match anthropic env with
  | None => throw (ProviderUnconfigured Anthropic)
  | Some _ =>
      let request :=
        {| a_model := modelId modelConfig;
           a_max_tokens := maxTokens modelConfig;
           a_system := string_or systemPrompt "You are a helpful assistant.";
           a_messages :=
             map (fun m =>
                    {| role := if String.eqb (role m) "user"
                               then "user" else "assistant";
                       content := content m |}) msgs |} in
      emit (AnthropicCall request) ;;;
      response <- await (anthropic_create net request) ;;
      let inTok := number_or_zero (usage_field (a_usage response) input_tokens) in
      let outTok := number_or_zero (usage_field (a_usage response) output_tokens) in
      let c := cost_of modelConfig inTok outTok in
      ret {| result_content := string_or (a_text response) EmptyString;
             result_model := modelId modelConfig;
             usage := {| inputTokens := inTok; outputTokens := outTok;
                         totalTokens := (inTok + outTok)%float;
                         cost := c |} |}
  end.

Definition chatOpenAI (env : ProcessEnv) (net : Network) (modelConfig : ModelConfig)
    (msgs : list ChatMessage) (systemPrompt : option string) : M ChatResult :=
  emit (AdapterEntered OpenAI modelConfig msgs systemPrompt) ;;;
  match openai env with
  | None => throw (ProviderUnconfigured OpenAI)
  | Some _ =>
      let formattedMessages :=
        ((match systemPrompt with
          | Some (String a r) => [ {| role := "system"; content := String a r |} ]
          | _ => []
          end)
         ++ map (fun m => {| role := role m; content := content m |}) msgs)%list in
      let request :=
        {| o_model := modelId modelConfig;
           o_max_tokens := maxTokens modelConfig;
           o_messages := formattedMessages |} in
      emit (OpenAICall request) ;;;
      response <- await (openai_create net request) ;;
      let inTok := number_or_zero (usage_field (o_usage response) prompt_tokens) in
      let outTok := number_or_zero (usage_field (o_usage response) completion_tokens) in
      let c := cost_of modelConfig inTok outTok in
      ret {| result_content := string_or (o_text response) EmptyString;
             result_model := modelId modelConfig;
             usage := {| inputTokens := inTok; outputTokens := outTok;
                         totalTokens := (inTok + outTok)%float;
                         cost := c |} |}
  end.

(** The default of a destructured [model = 'claude-3-5-sonnet']. *)
Definition requested (model : option string) : string :=
  match model with
  | Some m => m
  | None => "claude-3-5-sonnet"
  end.

(** [modelConfig.provider] *)
Definition provider_of (p : Property) : option string :=
  match p with
  | Own cfg => Some (provider cfg)
  | Inherited _ => None
  end.

(** [chat({ model = 'claude-3-5-sonnet', messages, systemPrompt })]; the
    [stream] option is accepted and never read. *)
Definition chat (env : ProcessEnv) (net : Network) (model : option string)
    (msgs : list ChatMessage) (systemPrompt : option string) : M ChatResult :=
  let model := requested model in
  match MODELS_get model with
  | None => throw (UnknownModel model)
  | Some (Own cfg) =>
      if String.eqb (provider cfg) "anthropic" then
        chatAnthropic env net cfg msgs systemPrompt
      else if String.eqb (provider cfg) "openai" then
        chatOpenAI env net cfg msgs systemPrompt
      else throw (UnsupportedProvider (Some (provider cfg)))
  | Some (Inherited name) =>
      throw (UnsupportedProvider (provider_of (Inherited name)))
  end.

Definition getAvailableModels (env : ProcessEnv) : list string :=
  ((match anthropic env with
    | Some _ => [ "claude-3-5-sonnet"; "claude-3-haiku" ]
    | None => []
    end)
   ++ (match openai env with
       | Some _ => [ "gpt-4o"; "gpt-4o-mini" ]
       | None => []
       end))%list.

End AiRouter.

(* ================================================================== *)
(** * routes/chatRoutes.js and routes/authRoutes.js *)
(* ================================================================== *)

Module Routes.
Import Db Effects AiRouter.
Open Scope js_scope.

Record ChatReply : Type := {
  reply_message : string;
  reply_conversationId : string;
  reply_model : string;
  reply_usage : Usage
}.

(** The JSON bodies the routes send. *)
Inductive Body : Type :=
| ErrorBody (error : string)
| SuccessBody
| ChatBody (r : ChatReply)
| ConversationsBody (l : list ConversationSummary)
| ConversationBody (c : ConversationRow) (msgs : list MessageView).

Record Response : Type := { status : nat; body : Body }.

(** [res.json(b)] and [res.status(n).json(b)] *)
Definition json (b : Body) : Response := {| status := 200; body := b |}.
Definition status_json (n : nat) (b : Body) : Response := {| status := n; body := b |}.

(** [req.body] of [POST /api/chat]. *)
Record ChatRequest : Type := {
  message : option string;
  conversationId : option string;
  model : option string
}.

(** What one [POST /api/chat] draws from outside: the results of its calls
    to [generateId] and the [CURRENT_TIMESTAMP] of each of its inserts. *)
Record Generated : Type := {
  new_convId : string;
  new_userMsgId : string;
  new_assistantMsgId : string;
  at_conversation : Timestamp;
  at_user_message : Timestamp;
  at_assistant_message : Timestamp
}.

(** The conversation a request writes to: the one it names, or a new one. *)
Definition resolve_conversation (gen : Generated) (userId : string)
    (conversationId : option string) (msg : string) : M string :=
  match conversationId with
  | Some (String a r) => ret (String a r)
  | _ =>
      run (insert_conversation (at_conversation gen) (new_convId gen) userId
             (substring0 50 msg)) ;;;
      ret (new_convId gen)
  end.

(** [router.post('/', flexibleAuth, async (req, res) => ...)], after the
    middleware has set [req.userId]. *)
Definition post_chat (env : ProcessEnv) (net : Network) (gen : Generated)
    (userId : string) (req : ChatRequest) : M Response :=
  try_catch
    (match message req with
     | Some (String a r) =>
         let msg := String a r in
         convId <- resolve_conversation gen userId (conversationId req) msg ;;
         history <- query (select_history convId) ;;
         let msgs := (history ++ [ {| role := "user"; content := msg |} ])%list in
         run (insert_message (at_user_message gen) (new_userMsgId gen) convId
                "user" msg None 0 0) ;;;
         response <- chat env net (Some (requested (model req))) msgs
                       (Some "You are a helpful AI assistant.") ;;
         run (insert_message (at_assistant_message gen) (new_assistantMsgId gen)
                convId "assistant" (result_content response)
                (Some (result_model response))
                (totalTokens (usage response)) (cost (usage response))) ;;;
         ret (json (ChatBody {| reply_message := result_content response;
                                reply_conversationId := convId;
                                reply_model := result_model response;
                                reply_usage := usage response |}))
     | _ => ret (status_json 400 (ErrorBody "Message is required"))
     end)
    (fun _ => ret (status_json 500 (ErrorBody "Failed to get AI response"))).

(** [router.get('/conversations', flexibleAuth, ...)] *)
Definition get_conversations (userId : string) : M Response :=
  try_catch
    (convs <- query (select_conversations userId) ;;
     ret (json (ConversationsBody convs)))
    (fun _ => ret (status_json 500 (ErrorBody "Failed to fetch conversations"))).

(** [router.get('/conversations/:id', flexibleAuth, ...)] *)
Definition get_conversation (userId : string) (id : string) : M Response :=
  try_catch
    (conversation <- query (select_conversation id userId) ;;
     match conversation with
     | None => ret (status_json 404 (ErrorBody "Conversation not found"))
     | Some c =>
         msgs <- query (select_messages id) ;;
         ret (json (ConversationBody c msgs))
     end)
    (fun _ => ret (status_json 500 (ErrorBody "Failed to fetch conversation"))).

End Routes.

(* ================================================================== *)
(** * The store operations the specification names *)
(* ================================================================== *)

Module Store.
Import Db Effects AiRouter Routes.

(** [getHistory(conversationId, 20)]: the query [POST /api/chat] loads its
    history with. *)
Definition getHistory (conversation_id : string) (d : Database) : list ChatMessage :=
  select_history conversation_id d.

(** [listConversations(userId, 50)]: what [GET /api/chat/conversations]
    answers. *)
Definition listConversations (userId : string) (d : Database) : Exn + Response :=
  fst (get_conversations userId {| db := d; log := [] |}).

(** [getFullConversation(conversationId, userId)]: what
    [GET /api/chat/conversations/:id] answers. *)
Definition getFullConversation (conversation_id userId : string) (d : Database)
    : Exn + Response :=
  fst (get_conversation userId conversation_id {| db := d; log := [] |}).

(** A row to append, with the timestamp the engine gives it. *)
Definition append (m : MessageRow) (d : Database) : SqlError + Database :=
  prepare_run
    (insert_message (m_created_at m) (m_id m) (m_conversation_id m) (m_role m)
       (m_content m) (m_model m) (m_tokens_used m) (m_cost m)) d.

(** Appending one row after the other; the first failure stops the run. *)
Fixpoint append_all (rows : list MessageRow) (d : Database) : SqlError + Database :=
  match rows with
  | [] => inr d
  | m :: rest =>
      match append m d with
      | inr d' => append_all rest d'
      | inl e => inl e
      end
  end.

(** The vendor a catalogue entry's [provider] tag stands for, and the
    credential the process holds for a vendor. *)
Definition vendor_of_tag (tag : string) : option Vendor :=
  if String.eqb tag "anthropic" then Some Anthropic
  else if String.eqb tag "openai" then Some OpenAI
  else None.

Definition credential (env : ProcessEnv) (v : Vendor) : option string :=
  match v with
  | Anthropic => ANTHROPIC_API_KEY env
  | OpenAI => OPENAI_API_KEY env
  end.

Definition configured (env : ProcessEnv) (v : Vendor) : bool :=
  truthy (of_env (credential env v)).

(** The cost of a response as the specification words it: a function of
    the model identifier and the two token counts, priced by the model's
    catalogue entry. *)
Definition registry_cost (model : string) (inTok outTok : float) : option float :=
  match get_prop model MODELS with
  | Some cfg =>
      Some ((inTok / 1000) * inputCostPer1k cfg
            + (outTok / 1000) * outputCostPer1k cfg)%float
  | None => None
  end.

(** The role mapping of the Anthropic adapter, one message at a time. *)
Definition anthropic_role (stored : string) : string :=
  if String.eqb stored "user" then "user" else "assistant".

(** Oldest first: the order of [ORDER BY key ASC]. *)
Definition no_later {A : Type} (key : A -> Z) (x y : A) : Prop :=
  (key x <= key y)%Z.

(** The events a computation adds when it starts from store [d]. *)
Definition events_of {A : Type} (m : M A) (d : Database) : list Event :=
  log (snd (m {| db := d; log := [] |})).

(** The turn [POST /api/chat] adds to the history it loaded, and the row
    it stores for it. *)
Definition user_turn (msg : string) : ChatMessage :=
  {| role := "user"; content := msg |}.

Definition user_row (gen : Generated) (convId msg : string) : MessageRow :=
  {| m_id := new_userMsgId gen; m_conversation_id := convId;
     m_role := "user"; m_content := msg; m_model := None;
     m_tokens_used := 0; m_cost := 0;
     m_created_at := at_user_message gen |}.

Definition server_error : Response :=
  status_json 500 (ErrorBody "Failed to get AI response").

Definition not_found : Response :=
  status_json 404 (ErrorBody "Conversation not found").

(** The answers of the two reading routes when a statement throws. *)
Definition fetch_failed : Response :=
  status_json 500 (ErrorBody "Failed to fetch conversation").

Definition list_failed : Response :=
  status_json 500 (ErrorBody "Failed to fetch conversations").


Definition system_prompt : option string :=
  Some "You are a helpful AI assistant.".

(** The adapter entries and the vendor calls in a log. *)
Definition adapter_entries (l : list Event) : list Event :=
  filter (fun e => match e with AdapterEntered _ _ _ _ => true | _ => false end) l.

Definition network_calls (l : list Event) : list Event :=
  filter (fun e => match e with AdapterEntered _ _ _ _ => false | _ => true end) l.

End Store.

(* ================================================================== *)
(** * routes/authRoutes.js *)
(* ================================================================== *)

Module AuthRoutes.
Import Db.

(** The columns [GET /api/auth/me] selects. *)
Record Profile : Type := {
  p_id : string;
  p_email : string;
  p_name : option string;
  p_plan : string;
  p_created_at : Timestamp
}.

Definition profile (u : UserRow) : Profile :=
  {| p_id := u_id u; p_email := u_email u; p_name := u_name u;
     p_plan := u_plan u; p_created_at := u_created_at u |}.

Inductive Body : Type :=
| ErrorBody (error : string)
| SuccessBody
| ProfileBody (p : Profile).

Record Response : Type := { status : nat; body : Body }.

Definition json (b : Body) : Response := {| status := 200; body := b |}.
Definition status_json (n : nat) (b : Body) : Response := {| status := n; body := b |}.

(** [req.body] of [POST /api/auth/register]; a missing [name] is bound as
    [NULL]. *)
Record RegisterRequest : Type := {
  reg_id : option string;
  reg_email : option string;
  reg_name : option string
}.

(** [router.get('/me', flexibleAuth, ...)], after the middleware has set
    [req.userId].  The handler only reads. *)
Definition get_me (userId : string) (d : Database) : Response :=
  match prepare_all (select_user userId) d with
  | inr None => status_json 404 (ErrorBody "User not found")
  | inr (Some u) => json (ProfileBody (profile u))
  | inl _ => status_json 500 (ErrorBody "Failed to fetch user")
  end.

(** [router.post('/register', ...)].  Whatever a statement throws is
    caught and answered with the 500; a statement that failed wrote
    nothing. *)
Definition post_register (now : Timestamp) (req : RegisterRequest) (d : Database)
    : Response * Database :=
  match reg_id req, reg_email req with
  | Some (String a r), Some (String b t) =>
      let id := String a r in
      let email := String b t in
      match prepare_all (select_user id) d with
      | inr (Some _) =>
          match prepare_run (update_user now email (reg_name req) id) d with
          | inr d' => (json SuccessBody, d')
          | inl _ => (status_json 500 (ErrorBody "Failed to register user"), d)
          end
      | inr None =>
          match prepare_run (insert_user now id email (reg_name req)) d with
          | inr d' => (json SuccessBody, d')
          | inl _ => (status_json 500 (ErrorBody "Failed to register user"), d)
          end
      | inl _ => (status_json 500 (ErrorBody "Failed to register user"), d)
      end
  | _, _ => (status_json 400 (ErrorBody "Missing id or email"), d)
  end.

(** [!id || !email] *)
Definition present (field : option string) : option string :=
  match field with
  | Some (String a r) => Some (String a r)
  | _ => None
  end.

(** The row an update writes in place of [u]. *)
Definition updated (now : Timestamp) (email : string) (name : option string)
    (u : UserRow) : UserRow :=
  {| u_id := u_id u; u_email := email; u_name := name; u_plan := u_plan u;
     u_stripe_customer_id := u_stripe_customer_id u;
     u_created_at := u_created_at u; u_updated_at := now |}.

End AuthRoutes.

(* ================================================================== *)
(** * routes/stripeRoutes.js: checkout and portal *)
(* ================================================================== *)

Module StripeRoutes.
Import Db.

(** The entries of [process.env] this file reads. *)
Record StripeEnv : Type := {
  STRIPE_SECRET_KEY : option string;
  STRIPE_PRICE_STARTER : option string;
  STRIPE_PRICE_PRO : option string;
  STRIPE_PRICE_ENTERPRISE : option string;
  FRONTEND_URL : option string
}.

(** [stripe]: the SDK client, [null] without a truthy secret key. *)
Definition stripe (env : StripeEnv) : bool :=
  match STRIPE_SECRET_KEY env with
  | Some (String _ _) => true
  | _ => false
  end.

Record Plan : Type := {
  plan_name : string;
  priceId : option string;
  price : Z;
  features : list string
}.

(** The own properties of [PLANS]; the price identifiers are read from the
    environment when the module is loaded. *)
Definition PLANS (env : StripeEnv) : list (string * Plan) :=
  [ ("starter",
     {| plan_name := "Starter"; priceId := STRIPE_PRICE_STARTER env; price := 29;
        features := [ "1,000 AI messages/month"; "Email support" ] |});
    ("pro",
     {| plan_name := "Pro"; priceId := STRIPE_PRICE_PRO env; price := 99;
        features := [ "10,000 AI messages/month"; "Priority support";
                      "API access" ] |});
    ("enterprise",
     {| plan_name := "Enterprise"; priceId := STRIPE_PRICE_ENTERPRISE env;
        price := 299;
        features := [ "Unlimited AI messages"; "24/7 support";
                      "Custom integrations" ] |}) ].

(** [planConfig.priceId] for [planConfig = PLANS[plan]], when both are
    truthy.  [PLANS] is an object literal: a name it does not own is looked
    up in [Object.prototype], whose members have no [priceId]; a missing
    [plan] is the key ['undefined']. *)
Definition valid_price (env : StripeEnv) (plan : option string) : option string :=
  match plan with
  | None => None
  | Some p =>
      match get_prop p (PLANS env) with
      | Some cfg =>
          match priceId cfg with
          | Some (String a r) => Some (String a r)
          | _ => None
          end
      | None => None
      end
  end.

(** The arguments of the three SDK calls. *)
Record CustomerRequest : Type := {
  customer_email : option string;
  customer_userId : string
}.

Record CheckoutRequest : Type := {
  checkout_customer : string;
  checkout_price : string;
  checkout_success_url : string;
  checkout_cancel_url : string;
  checkout_userId : string;
  checkout_plan : string
}.

Record PortalRequest : Type := {
  portal_customer : string;
  portal_return_url : string
}.

Record CheckoutSession : Type := { session_id : string; session_url : string }.

(** Stripe as seen from the process: each call is answered or rejected
    with a message. *)
Record StripeApi : Type := {
  customers_create : CustomerRequest -> string + string;
  checkout_sessions_create : CheckoutRequest -> string + CheckoutSession;
  portal_sessions_create : PortalRequest -> string + string
}.

Inductive StripeCall : Type :=
| CreateCustomer (r : CustomerRequest)
| CreateCheckout (r : CheckoutRequest)
| CreatePortal (r : PortalRequest).

Inductive Body : Type :=
| ErrorBody (error : string)
| CheckoutBody (sessionId url : string)
| PortalBody (url : string).

Record Response : Type := { status : nat; body : Body }.

Definition json (b : Body) : Response := {| status := 200; body := b |}.
Definition status_json (n : nat) (b : Body) : Response := {| status := n; body := b |}.

(** What a handler leaves behind: its answer, the store, the calls it
    made. *)
Record Outcome : Type := {
  answer : Response;
  store_after : Database;
  calls : list StripeCall
}.

(** A template literal over an environment entry: an unset entry prints
    as [undefined]. *)
Definition template (e : option string) (rest : string) : string :=
  match e with
  | Some v => v ++ rest
  | None => "undefined" ++ rest
  end.

(** [UPDATE users SET stripe_customer_id = ? WHERE id = ?] *)
Definition set_customer (customerId userId : string) (d : Database) : Database :=
  {| use_postgres := use_postgres d;
     foreign_keys := foreign_keys d;
     users := map (fun u =>
                if String.eqb (u_id u) userId then
                  {| u_id := u_id u; u_email := u_email u; u_name := u_name u;
                     u_plan := u_plan u;
                     u_stripe_customer_id := Some customerId;
                     u_created_at := u_created_at u;
                     u_updated_at := u_updated_at u |}
                else u) (users d);
     conversations := conversations d;
     messages := messages d |}.

(** [user?.stripe_customer_id], when truthy. *)
Definition customer_of (user : option UserRow) : option string :=
  match user with
  | Some u =>
      match u_stripe_customer_id u with
      | Some (String a r) => Some (String a r)
      | _ => None
      end
  | None => None
  end.

(** The customer identifier the users table holds for [userId]. *)
Definition known_customer (userId : string) (d : Database) : option string :=
  customer_of (select_user userId d).

Definition checkout_request (env : StripeEnv) (userId customerId priceId plan : string)
    : CheckoutRequest :=
  {| checkout_customer := customerId;
     checkout_price := priceId;
     checkout_success_url :=
       template (FRONTEND_URL env) "/dashboard?session_id={CHECKOUT_SESSION_ID}";
     checkout_cancel_url := template (FRONTEND_URL env) "/pricing";
     checkout_userId := userId;
     checkout_plan := plan |}.

Definition checkout_failed : Response :=
  status_json 500 (ErrorBody "Failed to create checkout session").

(** The tail of the checkout handler, once the customer is known. *)
Definition create_session (env : StripeEnv) (api : StripeApi)
    (userId customerId priceId plan : string) (d : Database)
    (made : list StripeCall) : Outcome :=
  let request := checkout_request env userId customerId priceId plan in
  match checkout_sessions_create api request with
  | inr session =>
      {| answer := json (CheckoutBody (session_id session) (session_url session));
         store_after := d;
         calls := made ++ [CreateCheckout request] |}
  | inl _ =>
      {| answer := checkout_failed; store_after := d;
         calls := made ++ [CreateCheckout request] |}
  end.

(** [router.post('/create-checkout', flexibleAuth, ...)], after the
    middleware has set [req.userId]; [plan] is [req.body.plan]. *)
Definition post_create_checkout (env : StripeEnv) (api : StripeApi)
    (userId : string) (plan : option string) (d : Database) : Outcome :=
  if negb (stripe env) then
    {| answer := status_json 500 (ErrorBody "Stripe not configured");
       store_after := d; calls := [] |}
  else
    match valid_price env plan, plan with
    | Some priceId, Some planName =>
        match prepare_all (select_user userId) d with
        | inl _ =>
            {| answer := checkout_failed; store_after := d; calls := [] |}
        | inr user =>
            match customer_of user with
            | Some customerId =>
                create_session env api userId customerId priceId planName d []
            | None =>
                let request :=
                  {| customer_email := option_map u_email user;
                     customer_userId := userId |} in
                match customers_create api request with
                | inr customerId =>
                    match prepare_run
                            (fun d0 => inr (set_customer customerId userId d0)) d with
                    | inr d' =>
                        create_session env api userId customerId priceId
                          planName d' [CreateCustomer request]
                    | inl _ =>
                        {| answer := checkout_failed; store_after := d;
                           calls := [CreateCustomer request] |}
                    end
                | inl _ =>
                    {| answer := checkout_failed; store_after := d;
                       calls := [CreateCustomer request] |}
                end
            end
        end
    | _, _ =>
        {| answer := status_json 400 (ErrorBody "Invalid plan");
           store_after := d; calls := [] |}
    end.

Definition portal_failed : Response :=
  status_json 500 (ErrorBody "Failed to create portal session").

(** [router.post('/create-portal', flexibleAuth, ...)] *)
Definition post_create_portal (env : StripeEnv) (api : StripeApi)
    (userId : string) (d : Database) : Outcome :=
  if negb (stripe env) then
    {| answer := status_json 500 (ErrorBody "Stripe not configured");
       store_after := d; calls := [] |}
  else
    match prepare_all (select_user userId) d with
    | inl _ =>
        {| answer := portal_failed; store_after := d; calls := [] |}
    | inr user =>
        match customer_of user with
        | None =>
            {| answer := status_json 400 (ErrorBody "No subscription found");
               store_after := d; calls := [] |}
        | Some customerId =>
            let request :=
              {| portal_customer := customerId;
                 portal_return_url :=
                   template (FRONTEND_URL env) "/dashboard" |} in
            match portal_sessions_create api request with
            | inr url =>
                {| answer := json (PortalBody url); store_after := d;
                   calls := [CreatePortal request] |}
            | inl _ =>
                {| answer := portal_failed; store_after := d;
                   calls := [CreatePortal request] |}
            end
        end
    end.

(** The plans a checkout can be opened for. *)
Definition plan_names : list string := [ "starter"; "pro"; "enterprise" ].

Definition is_customer_call (c : StripeCall) : bool :=
  match c with
  | CreateCustomer _ => true
  | _ => false
  end.

End StripeRoutes.

(* ================================================================== *)
(** * What the schema promises about a store *)
(* ================================================================== *)

Module Integrity.
Import Db Effects AiRouter Routes.

(** [PRIMARY KEY] on the three tables. *)
Definition unique_ids (d : Database) : Prop :=
  NoDup (map u_id (users d))
  /\ NoDup (map c_id (conversations d))
  /\ NoDup (map m_id (messages d)).

(** [email TEXT UNIQUE]. *)
Definition unique_emails (d : Database) : Prop :=
  NoDup (map u_email (users d)).

(** The two [FOREIGN KEY] clauses the chat routes touch. *)
Definition conversation_exists (d : Database) (id : string) : bool :=
  existsb (fun c => String.eqb (c_id c) id) (conversations d).

Definition user_exists (d : Database) (id : string) : bool :=
  existsb (fun u => String.eqb (u_id u) id) (users d).

Definition references_hold (d : Database) : Prop :=
  Forall (fun m => conversation_exists d (m_conversation_id m) = true) (messages d)
  /\ Forall (fun c => user_exists d (c_user_id c) = true) (conversations d).

(** The conversation row and the assistant row a successful
    [POST /api/chat] stores. *)
Definition conversation_row (gen : Generated) (userId msg : string) : ConversationRow :=
  {| c_id := new_convId gen; c_user_id := userId;
     c_title := Some (substring0 50 msg);
     c_created_at := at_conversation gen;
     c_updated_at := at_conversation gen |}.

Definition assistant_row (gen : Generated) (reply : ChatReply) : MessageRow :=
  {| m_id := new_assistantMsgId gen;
     m_conversation_id := reply_conversationId reply;
     m_role := "assistant";
     m_content := reply_message reply;
     m_model := Some (reply_model reply);
     m_tokens_used := totalTokens (reply_usage reply);
     m_cost := cost (reply_usage reply);
     m_created_at := at_assistant_message gen |}.

(** [!message]: the body has no message, or an empty one. *)
Definition no_message (req : ChatRequest) : bool :=
  match message req with
  | Some (String _ _) => false
  | _ => true
  end.

(** [!conversationId] *)
Definition names_conversation (req : ChatRequest) : option string :=
  match conversationId req with
  | Some (String a r) => Some (String a r)
  | _ => None
  end.


(** One line of the conversation list. *)
Definition summary (c : ConversationRow) : ConversationSummary :=
  {| s_id := c_id c; s_title := c_title c;
     s_created_at := c_created_at c; s_updated_at := c_updated_at c |}.

Definition owned_by (userId : string) (c : ConversationRow) : bool :=
  String.eqb (c_user_id c) userId.

(** Newest first: the order of [ORDER BY key DESC]. *)
Definition no_earlier {A : Type} (key : A -> Z) (x y : A) : Prop :=
  (key y <= key x)%Z.

Definition zero_usage : Usage :=
  {| inputTokens := 0; outputTokens := 0; totalTokens := 0; cost := 0 |}.

End Integrity.

(* ================================================================== *)
(** * Concrete environments, stores and requests *)
(* ================================================================== *)

Module Scenario.
Import Db Effects AiRouter Routes Store.
Local Open Scope Z_scope.

Definition env_without_keys : ProcessEnv :=
  {| NODE_ENV := None; DEV_USER_ID := None;
     ANTHROPIC_API_KEY := None; OPENAI_API_KEY := Some EmptyString |}.

Definition silent_network : Network :=
  {| anthropic_create := fun _ => inl "unreachable";
     openai_create := fun _ => inl "unreachable" |}.

Definition gpt_4o : ModelConfig :=
  {| provider := "openai"; modelId := "gpt-4o"; maxTokens := 4096;
     inputCostPer1k := 0.005; outputCostPer1k := 0.015 |}.

Definition empty_world : World :=
  {| db := {| use_postgres := false; foreign_keys := true;
              users := []; conversations := [];
              messages := [] |};
     log := [] |}.

Definition env_with_keys : ProcessEnv :=
  {| NODE_ENV := None; DEV_USER_ID := None;
     ANTHROPIC_API_KEY := Some "sk-ant"; OPENAI_API_KEY := Some "sk-oai" |}.

(** A vendor that answers every request, reporting 1200 tokens in and 350
    out. *)
Definition answering_network : Network :=
  {| anthropic_create := fun _ =>
       inr {| a_usage := Some {| input_tokens := Some 1200%float;
                                 output_tokens := Some 350%float |};
              a_text := Some "hello" |};
     openai_create := fun _ =>
       inr {| o_usage := Some {| prompt_tokens := Some 1200%float;
                                 completion_tokens := Some 350%float |};
              o_text := Some "hello" |} |}.

Definition stored_turns : list ChatMessage :=
  [ {| role := "system"; content := "be brief" |};
    {| role := "user"; content := "hi" |};
    {| role := "assistant"; content := "hello" |};
    {| role := "user"; content := "bye" |} ].

Definition sonnet_request : AnthropicRequest :=
  {| a_model := "claude-3-5-sonnet-20241022"; a_max_tokens := 8192;
     a_system := "You are a helpful AI assistant.";
     a_messages :=
       [ {| role := "assistant"; content := "be brief" |};
         {| role := "user"; content := "hi" |};
         {| role := "assistant"; content := "hello" |};
         {| role := "user"; content := "bye" |} ] |}.

(** A vendor that answers without a usage object. *)
Definition bare_network : Network :=
  {| anthropic_create := fun _ => inr {| a_usage := None; a_text := Some "hello" |};
     openai_create := fun _ => inr {| o_usage := None; o_text := Some "hello" |} |}.

(** A vendor that rejects every request. *)
Definition failing_network : Network :=
  {| anthropic_create := fun _ => inl "overloaded";
     openai_create := fun _ => inl "overloaded" |}.

Definition sonnet : ModelConfig :=
  {| provider := "anthropic"; modelId := "claude-3-5-sonnet-20241022";
     maxTokens := 8192;
     inputCostPer1k := 0.003; outputCostPer1k := 0.015 |}.

Definition user (id : string) : UserRow :=
  {| u_id := id; u_email := id ++ "@example.org"; u_name := None;
     u_plan := "free"; u_stripe_customer_id := None;
     u_created_at := 1; u_updated_at := 1 |}.

Definition conversation (id owner : string) (t : Timestamp) : ConversationRow :=
  {| c_id := id; c_user_id := owner; c_title := Some "a thread";
     c_created_at := t; c_updated_at := t |}.

(** The [n]-th stored turn of conversation [conv_a]: identifiers
    [msg_A], [msg_B], ..., one second apart, user and assistant in turn. *)
Definition letter (n : nat) : string :=
  String (ascii_of_nat (65 + n)) EmptyString.

Definition turn (n : nat) : MessageRow :=
  {| m_id := "msg_" ++ letter n;
     m_conversation_id := "conv_a";
     m_role := if Nat.even n then "user" else "assistant";
     m_content := "turn " ++ letter n;
     m_model := if Nat.even n then None else Some "claude-3-5-sonnet-20241022";
     m_tokens_used := 0; m_cost := 0;
     m_created_at := 100 + Z.of_nat n |}.

(** Two users; [u1] owns [conv_a] (older) and [conv_b] (newer), [u2] owns
    [conv_z]; [conv_a] holds [n] turns. *)
Definition store (n : nat) : Database :=
  {| use_postgres := false;
     foreign_keys := true;
     users := [ user "u1"; user "u2" ];
     conversations := [ conversation "conv_a" "u1" 100;
                        conversation "conv_b" "u1" 200;
                        conversation "conv_z" "u2" 250 ];
     messages := map turn (seq 0 n) |}.

(** The same store when [conv_b] already holds a message, stamped between
    the first two turns of [conv_a]. *)
Definition note_b : MessageRow :=
  {| m_id := "msg_b1"; m_conversation_id := "conv_b"; m_role := "user";
     m_content := "elsewhere"; m_model := None;
     m_tokens_used := 0; m_cost := 0; m_created_at := 101 |}.

Definition store_with_note (n : nat) : Database :=
  {| use_postgres := false;
     foreign_keys := true;
     users := users (store 0);
     conversations := conversations (store 0);
     messages := note_b :: map turn (seq 0 n) |}.

Definition fresh : Generated :=
  {| new_convId := "msg_conv"; new_userMsgId := "msg_user";
     new_assistantMsgId := "msg_assistant";
     at_conversation := 300; at_user_message := 300;
     at_assistant_message := 301 |}.

(** [POST /api/chat] with [{message: 'one more', conversationId: 'conv_a'}] *)
Definition ask_a : ChatRequest :=
  {| message := Some "one more"; conversationId := Some "conv_a";
     model := None |}.

(** A Stripe account with prices for two of the three plans, and a Stripe
    that answers every call. *)
Definition billing_env : StripeRoutes.StripeEnv :=
  {| StripeRoutes.STRIPE_SECRET_KEY := Some "sk_test";
     StripeRoutes.STRIPE_PRICE_STARTER := Some "price_starter";
     StripeRoutes.STRIPE_PRICE_PRO := Some "price_pro";
     StripeRoutes.STRIPE_PRICE_ENTERPRISE := None;
     StripeRoutes.FRONTEND_URL := Some "https://app.example.org" |}.

Definition billing_api : StripeRoutes.StripeApi :=
  {| StripeRoutes.customers_create := fun _ => inr "cus_1";
     StripeRoutes.checkout_sessions_create := fun _ =>
       inr {| StripeRoutes.session_id := "cs_1";
              StripeRoutes.session_url := "https://checkout.example.org/cs_1" |};
     StripeRoutes.portal_sessions_create := fun _ =>
       inr "https://portal.example.org/1" |}.

(** The store in which [u1] already is a Stripe customer. *)
Definition store_with_customer : Database :=
  StripeRoutes.set_customer "cus_9" "u1" (store 0).

(** The answer to [ask_a] when the vendor reports 1200 tokens in and 350
    out. *)
Definition hello_reply : ChatReply :=
  {| reply_message := "hello"; reply_conversationId := "conv_a";
     reply_model := "claude-3-5-sonnet-20241022";
     reply_usage := {| inputTokens := 1200; outputTokens := 350;
                       totalTokens := 1550;
                       cost := (1200 / 1000 * 0.003 + 350 / 1000 * 0.015)%float |} |}.

(** Texts outside ASCII: the Cyrillic letter U+0434 (two bytes, one
    UTF-16 code unit) and the emoji U+1F600 (four bytes, two code
    units). *)
Definition cyrillic_de : string :=
  String (ascii_of_nat 208) (String (ascii_of_nat 180) EmptyString).

Definition grinning_face : string :=
  String (ascii_of_nat 240)
    (String (ascii_of_nat 159)
       (String (ascii_of_nat 152) (String (ascii_of_nat 128) EmptyString))).

Fixpoint times (n : nat) (s : string) : string :=
  match n with
  | O => EmptyString
  | S n' => s ++ times n' s
  end.

(** [POST /api/chat] with a message of sixty Cyrillic letters and no
    conversation identifier. *)
Definition ask_cyrillic : ChatRequest :=
  {| message := Some (times 60 cyrillic_de); conversationId := None;
     model := None |}.

(** The same rows behind the PostgreSQL pool: the process was started
    with [USE_POSTGRES=true]. *)
Definition on_postgres (d : Database) : Database :=
  {| use_postgres := true; foreign_keys := foreign_keys d; users := users d;
     conversations := conversations d; messages := messages d |}.

(** Two environments of the middleware. *)
Definition production : ProcessEnv :=
  {| NODE_ENV := Some "production"; DEV_USER_ID := Some "qa";
     ANTHROPIC_API_KEY := None; OPENAI_API_KEY := None |}.

Definition development : ProcessEnv :=
  {| NODE_ENV := Some "development"; DEV_USER_ID := None;
     ANTHROPIC_API_KEY := None; OPENAI_API_KEY := None |}.

Definition staging : ProcessEnv :=
  {| NODE_ENV := Some "staging"; DEV_USER_ID := Some "qa";
     ANTHROPIC_API_KEY := None; OPENAI_API_KEY := None |}.

(** Requests that name their caller in four, three, two, one and none of
    the places the middleware looks at.  A session without [userId], an
    empty header and an empty query parameter name nobody. *)
Definition signed_in : Auth.Request :=
  {| Auth.session := Some {| Auth.session_userId := JString "alice" |};
     Auth.auth := Some {| Auth.auth_userId := JString "bob" |};
     Auth.headers := [ ("x-user-id", "carol") ];
     Auth.query := [ ("userId", JString "dave") ] |}.

Definition clerk_user : Auth.Request :=
  {| Auth.session := Some {| Auth.session_userId := JUndefined |};
     Auth.auth := Some {| Auth.auth_userId := JString "bob" |};
     Auth.headers := [ ("x-user-id", "carol") ];
     Auth.query := [ ("userId", JString "dave") ] |}.

Definition header_user : Auth.Request :=
  {| Auth.session := None;
     Auth.auth := Some {| Auth.auth_userId := JNull |};
     Auth.headers := [ ("accept", "*/*"); ("x-user-id", "carol") ];
     Auth.query := [ ("userId", JString "dave") ] |}.

Definition query_user : Auth.Request :=
  {| Auth.session := None; Auth.auth := None;
     Auth.headers := [ ("x-user-id", EmptyString) ];
     Auth.query := [ ("page", JString "2"); ("userId", JString "dave") ] |}.

Definition anonymous : Auth.Request :=
  {| Auth.session := Some {| Auth.session_userId := JUndefined |};
     Auth.auth := None;
     Auth.headers := [ ("accept", "*/*"); ("x-user-id", EmptyString) ];
     Auth.query := [ ("userId", JString EmptyString) ] |}.

(** [POST /api/chat] with [{message: 'a new thread'}] *)
Definition ask_new : ChatRequest :=
  {| message := Some "a new thread"; conversationId := None; model := None |}.

Definition new_reply : ChatReply :=
  {| reply_message := "hello"; reply_conversationId := "msg_conv";
     reply_model := "claude-3-5-sonnet-20241022";
     reply_usage := {| inputTokens := 1200; outputTokens := 350;
                       totalTokens := 1550;
                       cost := (1200 / 1000 * 0.003 + 350 / 1000 * 0.015)%float |} |}.

End Scenario.

(* ================================================================== *)
(** * Properties of the middleware *)
(* ================================================================== *)

Module AuthFacts.
Import Auth.

Lemma js_or_falsy a b : truthy a = false -> js_or a b = b.
Proof. unfold js_or. now intros ->. Qed.

Lemma js_or_truthy a b : truthy a = true -> js_or a b = a.
Proof. unfold js_or. now intros ->. Qed.

Lemma dev_fallback_eq env :
  js_or (of_env (DEV_USER_ID env)) (JString "dev-user") = dev_fallback env.
Proof.
  unfold dev_fallback. destruct (DEV_USER_ID env) as [[|c s]|]; reflexivity.
Qed.

Lemma dev_fallback_truthy env : truthy (dev_fallback env) = true.
Proof.
  unfold dev_fallback. destruct (DEV_USER_ID env) as [[|c s]|]; reflexivity.
Qed.

(** A property read finds the first entry under the name. *)
Lemma get_prop_first {A : Type} (k : string) (o : list (string * A)) :
  get_prop k o
  = match find (fun kv => String.eqb (fst kv) k) o with
    | Some kv => Some (snd kv)
    | None => None
    end.
Proof.
  induction o as [|[k' v] o IH]; simpl; [reflexivity|].
  rewrite (String.eqb_sym k' k). now destruct (String.eqb k k').
Qed.

(** The accessors of the middleware read the four sources. *)
Lemma sources_read req :
  identity_sources req
  = [ optional_chain (session req) session_userId;
      optional_chain (auth req) auth_userId;
      header req "x-user-id";
      query_param req "userId" ].
Proof.
  unfold identity_sources, header, query_param. rewrite !get_prop_first.
  destruct (session req), (auth req); simpl;
    destruct (find _ (headers req)); destruct (find _ (query req));
    reflexivity.
Qed.

(** The left-nested [||] chain picks the first truthy source; when there is
    none its value is falsy. *)
Lemma resolved_first_supplied req :
  match first_supplied (identity_sources req) with
  | Some v => resolved_userId req = v /\ truthy v = true
  | None => truthy (resolved_userId req) = false
  end.
Proof.
  rewrite sources_read. unfold first_supplied, resolved_userId. simpl.
  set (s := optional_chain (session req) session_userId).
  set (c := optional_chain (auth req) auth_userId).
  set (h := header req "x-user-id").
  set (q := query_param req "userId").
  destruct (truthy s) eqn:Hs.
  { rewrite (js_or_truthy s c Hs), (js_or_truthy s h Hs), (js_or_truthy s q Hs).
    now split. }
  rewrite (js_or_falsy s c Hs).
  destruct (truthy c) eqn:Hc.
  { rewrite (js_or_truthy c h Hc), (js_or_truthy c q Hc). now split. }
  rewrite (js_or_falsy c h Hc).
  destruct (truthy h) eqn:Hh.
  { rewrite (js_or_truthy h q Hh). now split. }
  rewrite (js_or_falsy h q Hh).
  destruct (truthy q) eqn:Hq; [now split | reflexivity].
Qed.

(** C9.  [flexibleAuth] takes the identity from the first of session,
    Clerk auth, [x-user-id] header and [userId] query parameter that
    supplies one.  In production it answers 401 exactly when none of the
    four does; outside production a request without identity gets
    [DEV_USER_ID] or ['dev-user'].  Whenever the handler runs, the
    [userId] it receives is truthy (for a string: not empty). *)
Theorem flexibleAuth_precedence (env : ProcessEnv) (req : Request) :
  flexibleAuth env req =
    match first_supplied (identity_sources req) with
    | Some v => Next v
    | None => if is_production env
              then Responded 401 "Unauthorized"
              else Next (dev_fallback env)
    end
  /\ (is_production env = true ->
      ((exists st e, flexibleAuth env req = Responded st e)
       <-> flexibleAuth env req = Responded 401 "Unauthorized")
      /\ (flexibleAuth env req = Responded 401 "Unauthorized"
          <-> Forall (fun v => truthy v = false) (identity_sources req)))
  /\ (forall v, flexibleAuth env req = Next v -> truthy v = true).
Proof.
  assert (Hshape :
    flexibleAuth env req =
      match first_supplied (identity_sources req) with
      | Some v => Next v
      | None => if is_production env
                then Responded 401 "Unauthorized"
                else Next (dev_fallback env)
      end).
  { pose proof (resolved_first_supplied req) as H.
    unfold flexibleAuth.
    destruct (first_supplied (identity_sources req)) as [v|].
    - destruct H as [-> Hv]. rewrite Hv. reflexivity.
    - rewrite H. simpl. destruct (is_production env); simpl.
      + reflexivity.
      + now rewrite dev_fallback_eq. }
  split; [exact Hshape|]. split.
  - intros Hprod. rewrite Hshape, Hprod. unfold first_supplied.
    destruct (find truthy (identity_sources req)) as [v|] eqn:Hf.
    + apply find_some in Hf. destruct Hf as [Hin Hv]. split.
      * split; [intros (st & e & H); discriminate | discriminate].
      * split; [discriminate|]. intros Hall.
        rewrite Forall_forall in Hall. rewrite (Hall v Hin) in Hv. discriminate.
    + split.
      * split; [reflexivity | intros _; now exists 401, "Unauthorized"].
      * split; [|reflexivity]. intros _. apply Forall_forall. intros v Hin.
        pose proof (find_none _ _ Hf v Hin) as Hn. exact Hn.
  - intros v. rewrite Hshape.
    pose proof (resolved_first_supplied req) as H.
    destruct (first_supplied (identity_sources req)) as [w|].
    + destruct H as [_ Hw]. now intros [= <-].
    + destruct (is_production env); [discriminate|].
      intros [= <-]. apply dev_fallback_truthy.
Qed.

Lemma flexibleAuth_precedence_witness :
  flexibleAuth Scenario.production Scenario.signed_in = Next (JString "alice")
  /\ flexibleAuth Scenario.production Scenario.clerk_user = Next (JString "bob")
  /\ flexibleAuth Scenario.production Scenario.header_user
     = Next (JString "carol")
  /\ flexibleAuth Scenario.production Scenario.query_user = Next (JString "dave")
  /\ flexibleAuth Scenario.production Scenario.anonymous
     = Responded 401 "Unauthorized"
  /\ flexibleAuth Scenario.development Scenario.anonymous
     = Next (JString "dev-user")
  /\ flexibleAuth Scenario.staging Scenario.anonymous = Next (JString "qa")
  /\ (flexibleAuth Scenario.production Scenario.anonymous
      = Responded 401 "Unauthorized"
      <-> Forall (fun v => truthy v = false)
            [ JUndefined; JUndefined; JString EmptyString; JString EmptyString ]).
Proof.
  split; [exact (proj1 (flexibleAuth_precedence Scenario.production
                          Scenario.signed_in))|].
  split; [exact (proj1 (flexibleAuth_precedence Scenario.production
                          Scenario.clerk_user))|].
  split; [exact (proj1 (flexibleAuth_precedence Scenario.production
                          Scenario.header_user))|].
  split; [exact (proj1 (flexibleAuth_precedence Scenario.production
                          Scenario.query_user))|].
  split; [exact (proj1 (flexibleAuth_precedence Scenario.production
                          Scenario.anonymous))|].
  split; [exact (proj1 (flexibleAuth_precedence Scenario.development
                          Scenario.anonymous))|].
  split; [exact (proj1 (flexibleAuth_precedence Scenario.staging
                          Scenario.anonymous))|].
  exact (proj2 (proj1 (proj2 (flexibleAuth_precedence Scenario.production
                                Scenario.anonymous)) eq_refl)).
Defined.

End AuthFacts.

(* ================================================================== *)
(** * Properties of the AI router *)
(* ================================================================== *)

Module AiRouterFacts.
Import Db Effects AiRouter Routes Store Scenario.

Lemma get_prop_In {A : Type} (k : string) (o : list (string * A)) (v : A) :
  get_prop k o = Some v -> In (k, v) o.
Proof.
  induction o as [|[k' v'] o IH]; simpl; [discriminate|].
  destruct (String.eqb k k') eqn:E.
  - apply String.eqb_eq in E. intros [= ->]. left. now subst.
  - intros H. right. now apply IH.
Qed.

(** Every catalogue entry belongs to one of the two vendors. *)
Lemma MODELS_vendor model cfg :
  get_prop model MODELS = Some cfg ->
  provider cfg = "anthropic" \/ provider cfg = "openai".
Proof.
  intros H. apply get_prop_In in H. unfold MODELS in H. simpl in H.
  repeat (destruct H as [H|H]; [inversion H; subst; simpl; auto|]).
  contradiction.
Qed.

Lemma MODELS_get_own model cfg :
  get_prop model MODELS = Some cfg -> MODELS_get model = Some (Own cfg).
Proof. unfold MODELS_get. now intros ->. Qed.

Lemma network_calls_app l1 l2 :
  network_calls (l1 ++ l2) = (network_calls l1 ++ network_calls l2)%list.
Proof. apply filter_app. Qed.

Lemma adapter_entries_app l1 l2 :
  adapter_entries (l1 ++ l2) = (adapter_entries l1 ++ adapter_entries l2)%list.
Proof. apply filter_app. Qed.

Ltac run_m :=
  unfold chatAnthropic, chatOpenAI, bind, emit, throw, ret, await in *;
  simpl in *.

(** The router never writes to the store. *)
Lemma chat_db env net model msgs sys w :
  db (snd (chat env net model msgs sys w)) = db w.
Proof.
  unfold chat. destruct (MODELS_get (requested model)) as [[cfg|name]|];
    [|reflexivity|reflexivity].
  destruct (String.eqb (provider cfg) "anthropic").
  - run_m. destruct (anthropic env); [|reflexivity]. simpl.
    destruct (anthropic_create net _); reflexivity.
  - destruct (String.eqb (provider cfg) "openai"); [|reflexivity].
    run_m. destruct (openai env); [|reflexivity]. simpl.
    destruct (openai_create net _); reflexivity.
Qed.

(** A model without a catalogue entry of its own stops the router before
    either adapter is entered and before any call leaves the process. *)
Lemma unregistered_stops_before_adapters env net model msgs sys w :
  get_prop (requested model) MODELS = None ->
  exists e, chat env net model msgs sys w = (inl e, w).
Proof.
  intros H. unfold chat, MODELS_get. rewrite H.
  destruct (existsb _ Object_prototype); eexists; reflexivity.
Qed.

(** When the identifier is not a member of [Object.prototype] either, the
    error is the one the catalogue lookup throws. *)
Lemma unregistered_plain_UnknownModel env net model msgs sys w :
  get_prop (requested model) MODELS = None ->
  existsb (String.eqb (requested model)) Object_prototype = false ->
  chat env net model msgs sys w = (inl (UnknownModel (requested model)), w).
Proof.
  intros H Hp. unfold chat, MODELS_get. now rewrite H, Hp.
Qed.

(** C6, at the input that breaks it.  [toString] has no entry in the
    catalogue; the lookup [MODELS[model]] finds [Object.prototype.toString],
    so the [Unknown model] guard is passed and the request fails with
    [Unsupported provider: undefined] instead.  No adapter is entered and
    no call is made. *)
Theorem chat_inherited_key_passes_unknown_guard
    (env : ProcessEnv) (net : Network) (msgs : list ChatMessage)
    (sys : option string) (w : World) :
  get_prop "toString" MODELS = None
  /\ chat env net (Some "toString") msgs sys w = (inl (UnsupportedProvider None), w)
  /\ error_message (UnsupportedProvider None) = "Unsupported provider: undefined"
  /\ UnsupportedProvider None <> UnknownModel "toString".
Proof. repeat split. discriminate. Qed.

(** C7.  A registered model whose vendor has no credential (the key is
    unset or empty) fails with [ProviderUnconfigured]; the store is
    untouched and no call to a vendor is added to the log. *)
Theorem chat_unconfigured_provider
    (env : ProcessEnv) (net : Network) (model : option string)
    (msgs : list ChatMessage) (sys : option string) (w : World)
    (cfg : ModelConfig) (v : Vendor) :
  get_prop (requested model) MODELS = Some cfg ->
  vendor_of_tag (provider cfg) = Some v ->
  configured env v = false ->
  exists w',
    chat env net model msgs sys w = (inl (ProviderUnconfigured v), w')
    /\ db w' = db w
    /\ network_calls (log w') = network_calls (log w).
Proof.
  intros Hcfg Hv Hkey. unfold chat. rewrite (MODELS_get_own _ _ Hcfg).
  unfold vendor_of_tag in Hv. unfold configured in Hkey.
  destruct (String.eqb (provider cfg) "anthropic").
  - injection Hv as <-. simpl in Hkey. run_m. unfold anthropic.
    destruct (ANTHROPIC_API_KEY env) as [[|a k]|]; try discriminate;
      (eexists; split; [reflexivity|]; simpl; split; [reflexivity|];
       rewrite network_calls_app; simpl; apply app_nil_r).
  - destruct (String.eqb (provider cfg) "openai"); [|discriminate].
    injection Hv as <-. simpl in Hkey. run_m. unfold openai.
    destruct (OPENAI_API_KEY env) as [[|a k]|]; try discriminate;
      (eexists; split; [reflexivity|]; simpl; split; [reflexivity|];
       rewrite network_calls_app; simpl; apply app_nil_r).
Qed.

Lemma chat_unconfigured_provider_witness :
  exists w',
    chat env_without_keys silent_network (Some "gpt-4o") [] None empty_world
      = (inl (ProviderUnconfigured OpenAI), w')
    /\ db w' = db empty_world
    /\ network_calls (log w') = network_calls (log empty_world).
Proof.
  apply (chat_unconfigured_provider env_without_keys silent_network
           (Some "gpt-4o") [] None empty_world gpt_4o OpenAI);
    reflexivity.
Defined.

(** What a successful run of the router returns. *)
Lemma chat_success env net model msgs sys w r w' :
  chat env net model msgs sys w = (inr r, w') ->
  exists cfg,
    get_prop (requested model) MODELS = Some cfg
    /\ result_model r = modelId cfg
    /\ cost (usage r)
       = cost_of cfg (inputTokens (usage r)) (outputTokens (usage r))
    /\ totalTokens (usage r)
       = (inputTokens (usage r) + outputTokens (usage r))%float.
Proof.
  unfold chat, MODELS_get.
  destruct (get_prop (requested model) MODELS) as [cfg|] eqn:Hcfg.
  - intros H. exists cfg. split; [reflexivity|].
    destruct (String.eqb (provider cfg) "anthropic").
    + run_m. destruct (anthropic env); [|discriminate]. simpl in H.
      destruct (anthropic_create net _); [discriminate|].
      injection H as <- _. repeat split.
    + destruct (String.eqb (provider cfg) "openai"); [|discriminate].
      run_m. destruct (openai env); [|discriminate]. simpl in H.
      destruct (openai_create net _); [discriminate|].
      injection H as <- _. repeat split.
  - destruct (existsb _ Object_prototype); discriminate.
Qed.

(** C3.  The cost of a successful dispatch is the catalogue's input price
    times a thousandth of the input tokens plus its output price times a
    thousandth of the output tokens: a function of the model identifier and
    the two token counts, whatever else the vendor answered.  The total is
    the sum of the two counts. *)
Theorem chat_cost_from_registry
    (env : ProcessEnv) (net : Network) (model : option string)
    (msgs : list ChatMessage) (sys : option string) (w w' : World)
    (r : ChatResult) :
  chat env net model msgs sys w = (inr r, w') ->
  registry_cost (requested model)
    (inputTokens (usage r)) (outputTokens (usage r)) = Some (cost (usage r))
  /\ totalTokens (usage r)
     = (inputTokens (usage r) + outputTokens (usage r))%float.
Proof.
  intros H. apply chat_success in H.
  destruct H as (cfg & Hcfg & _ & Hcost & Htotal).
  unfold registry_cost. rewrite Hcfg, Hcost. now split.
Qed.

Lemma chat_cost_from_registry_witness :
  let r := {| result_content := "hello";
              result_model := "claude-3-haiku-20240307";
              usage := {| inputTokens := 1200; outputTokens := 350;
                          totalTokens := 1550;
                          cost := (1200 / 1000 * 0.00025
                                   + 350 / 1000 * 0.00125)%float |} |} in
  registry_cost "claude-3-haiku" 1200 350 = Some (cost (usage r))
  /\ totalTokens (usage r) = (1200 + 350)%float.
Proof.
  intro r.
  apply (chat_cost_from_registry env_with_keys answering_network
           (Some "claude-3-haiku") [] None empty_world
           (snd (chat env_with_keys answering_network
                   (Some "claude-3-haiku") [] None empty_world)) r).
  vm_compute. reflexivity.
Defined.

(** Two successful dispatches of one model with the same token counts cost
    the same, whichever vendor answers they came from. *)
Lemma chat_cost_deterministic env1 net1 msgs1 sys1 w1 w1' r1
                              env2 net2 msgs2 sys2 w2 w2' r2 model :
  chat env1 net1 model msgs1 sys1 w1 = (inr r1, w1') ->
  chat env2 net2 model msgs2 sys2 w2 = (inr r2, w2') ->
  inputTokens (usage r1) = inputTokens (usage r2) ->
  outputTokens (usage r1) = outputTokens (usage r2) ->
  cost (usage r1) = cost (usage r2).
Proof.
  intros H1 H2 Hin Hout.
  apply chat_success in H1. apply chat_success in H2.
  destruct H1 as (c1 & Hc1 & _ & -> & _). destruct H2 as (c2 & Hc2 & _ & -> & _).
  rewrite Hc1 in Hc2. injection Hc2 as <-. now rewrite Hin, Hout.
Qed.

(** The adapter entries a run of the router logs carry the router's own
    arguments and a catalogue entry. *)
Lemma chat_adapter_entry env net model msgs sys d v cfg ms sy :
  In (AdapterEntered v cfg ms sy) (events_of (chat env net model msgs sys) d) ->
  ms = msgs /\ sy = sys /\ get_prop (requested model) MODELS = Some cfg.
Proof.
  unfold events_of, chat, MODELS_get.
  destruct (get_prop (requested model) MODELS) as [c|] eqn:Hcfg.
  - destruct (String.eqb (provider c) "anthropic").
    + run_m. destruct (anthropic env); simpl.
      * destruct (anthropic_create net _); simpl;
          intros [H|[H|[]]]; try discriminate; now injection H as _ <- <- <-.
      * intros [H|[]]. now injection H as _ <- <- <-.
    + destruct (String.eqb (provider c) "openai"); [|intros []].
      run_m. destruct (openai env); simpl.
      * destruct (openai_create net _); simpl;
          intros [H|[H|[]]]; try discriminate; now injection H as _ <- <- <-.
      * intros [H|[]]. now injection H as _ <- <- <-.
  - destruct (existsb _ Object_prototype); intros [].
Qed.

(** C10.  Whatever the Anthropic adapter sends carries the stored
    messages in order with each role mapped to ['user'] (when it was
    ['user']) or ['assistant'] (anything else, a stored ['system'] role
    included); no message is added for the system prompt, which travels in
    the request's [system] field. *)
Theorem anthropic_call_roles
    (env : ProcessEnv) (net : Network) (model : option string)
    (msgs : list ChatMessage) (sys : option string) (d : Database)
    (r : AnthropicRequest) :
  In (AnthropicCall r) (events_of (chat env net model msgs sys) d) ->
  a_messages r
    = map (fun m => {| role := anthropic_role (role m); content := content m |}) msgs
  /\ Forall (fun m => role m = "user" \/ role m = "assistant") (a_messages r)
  /\ map content (a_messages r) = map content msgs
  /\ a_system r = string_or sys "You are a helpful assistant.".
Proof.
  intros H.
  assert (Hr : a_messages r
               = map (fun m => {| role := anthropic_role (role m);
                                  content := content m |}) msgs
               /\ a_system r = string_or sys "You are a helpful assistant.").
  { revert H. unfold events_of, chat.
    destruct (MODELS_get (requested model)) as [[cfg|name]|]; [|intros []|intros []].
    destruct (String.eqb (provider cfg) "anthropic").
    - run_m. destruct (anthropic env); simpl.
      + destruct (anthropic_create net _); simpl;
          intros [H|[H|[]]]; try discriminate; injection H as <-; now split.
      + intros [H|[]]. discriminate.
    - destruct (String.eqb (provider cfg) "openai"); [|intros []].
      run_m. destruct (openai env); simpl.
      + destruct (openai_create net _); simpl;
          intros [H|[H|[]]]; discriminate.
      + intros [H|[]]. discriminate. }
  destruct Hr as [Hm Hs]. rewrite Hm. repeat split; try assumption.
  - apply Forall_forall. intros m Hin. apply in_map_iff in Hin.
    destruct Hin as (m0 & <- & _). simpl. unfold anthropic_role.
    destruct (String.eqb (role m0) "user"); auto.
  - rewrite map_map. reflexivity.
Qed.

Lemma anthropic_call_roles_witness :
  a_messages sonnet_request
    = map (fun m => {| role := anthropic_role (role m); content := content m |})
          stored_turns
  /\ Forall (fun m => role m = "user" \/ role m = "assistant")
            (a_messages sonnet_request)
  /\ map content (a_messages sonnet_request) = map content stored_turns
  /\ a_system sonnet_request
     = string_or system_prompt "You are a helpful assistant.".
Proof.
  apply (anthropic_call_roles env_with_keys answering_network None
           stored_turns system_prompt (db empty_world) sonnet_request).
  vm_compute. right. left. reflexivity.
Defined.

End AiRouterFacts.

(* ================================================================== *)
(** * Properties of the store *)
(* ================================================================== *)

Module DbFacts.
Import Db Effects AiRouter Routes Store.

Section OrderBy.
Context {A : Type}.
Variable key : A -> Z.

Lemma insert_row_perm le (x : A) l : Permutation (insert_row le x l) (x :: l).
Proof.
  induction l as [|y l IH]; simpl; [reflexivity|].
  destruct (le x y); [reflexivity|].
  rewrite IH. apply perm_swap.
Qed.

Lemma order_by_perm le (l : list A) : Permutation (order_by le l) l.
Proof.
  induction l as [|x l IH]; simpl; [reflexivity|].
  rewrite insert_row_perm. now constructor.
Qed.

Lemma order_by_length le (l : list A) :
  List.length (order_by le l) = List.length l.
Proof. apply Permutation_length, order_by_perm. Qed.

Lemma order_by_In le (l : list A) x : In x (order_by le l) <-> In x l.
Proof.
  split; apply Permutation_in;
    [apply order_by_perm | apply Permutation_sym, order_by_perm].
Qed.

Lemma insert_row_sorted x l :
  StronglySorted (no_later key) l -> StronglySorted (no_later key) (insert_row (asc key) x l).
Proof.
  induction 1 as [|y l Hl IH Hy]; simpl.
  - repeat constructor.
  - unfold asc at 1. destruct (key x <=? key y)%Z eqn:E.
    + apply Z.leb_le in E. constructor; [now constructor|].
      constructor; [exact E|].
      eapply Forall_impl; [|exact Hy]. unfold no_later. intros; lia.
    + apply Z.leb_gt in E. constructor; [exact IH|].
      eapply Permutation_Forall; [symmetry; apply insert_row_perm|].
      constructor; [unfold no_later; lia | exact Hy].
Qed.

(** [ORDER BY key ASC] yields the rows oldest first. *)
Lemma order_by_sorted (l : list A) : StronglySorted (no_later key) (order_by (asc key) l).
Proof.
  induction l as [|x l IH]; simpl; [constructor|].
  now apply insert_row_sorted.
Qed.

(** Rows that were inserted in key order come back as they were
    inserted. *)
Lemma order_by_sorted_id (l : list A) :
  StronglySorted (no_later key) l -> order_by (asc key) l = l.
Proof.
  induction 1 as [|x l Hl IH Hx]; simpl; [reflexivity|].
  rewrite IH. destruct l as [|y l']; [reflexivity|]. simpl.
  inversion Hx as [|? ? Hxy _]; subst. unfold asc.
  unfold no_later in Hxy. apply Z.leb_le in Hxy. now rewrite Hxy.
Qed.

Lemma StronglySorted_firstn n (l : list A) :
  StronglySorted (no_later key) l -> StronglySorted (no_later key) (firstn n l).
Proof.
  intros H. revert n. induction H as [|x l Hl IH Hx]; intros [|n]; simpl;
    try constructor.
  - apply IH.
  - rewrite Forall_forall in *. intros y Hy. apply Hx.
    rewrite <- (firstn_skipn n l). apply in_or_app. now left.
Qed.

(** When no two keys are equal there is one oldest-first arrangement of
    the rows, so the answer does not depend on how an engine orders
    ties. *)
Lemma oldest_first_unique (l l' : list A) :
  Permutation l l' ->
  StronglySorted (no_later key) l ->
  StronglySorted (fun x y => (key x < key y)%Z) l' ->
  l = l'.
Proof.
  intros Hp Hl Hl'. revert l Hp Hl.
  induction Hl' as [|x t' Ht' IH Hx]; intros l Hp Hl.
  - apply Permutation_sym, Permutation_nil in Hp. now subst.
  - destruct l as [|y t].
    + apply Permutation_nil in Hp. discriminate.
    + inversion Hl as [|? ? Ht Hy]; subst.
      assert (y = x) as ->.
      { assert (In x (y :: t)) as Hxin
          by (eapply Permutation_in; [symmetry; exact Hp | now left]).
        assert (In y (x :: t')) as Hyin
          by (eapply Permutation_in; [exact Hp | now left]).
        destruct Hyin as [Heq|Hyin]; [now symmetry|].
        destruct Hxin as [Heq|Hxin]; [exact Heq|].
        rewrite Forall_forall in Hx, Hy.
        pose proof (Hx y Hyin). pose proof (Hy x Hxin).
        unfold no_later in *. lia. }
      f_equal. apply IH; [|exact Ht].
      now apply Permutation_cons_inv in Hp.
Qed.

End OrderBy.

(** ** The driver *)

Lemma prepare_run_inv stmt d d' :
  prepare_run stmt d = inr d' -> use_postgres d = false /\ stmt d = inr d'.
Proof. unfold prepare_run. destruct (use_postgres d); [discriminate|auto]. Qed.

Lemma prepare_all_inv {A : Type} (q : Database -> A) d a :
  prepare_all q d = inr a -> use_postgres d = false /\ a = q d.
Proof.
  unfold prepare_all. destruct (use_postgres d); [discriminate|].
  intros [= <-]. auto.
Qed.

Lemma prepare_run_sqlite stmt d :
  use_postgres d = false -> prepare_run stmt d = stmt d.
Proof. unfold prepare_run. now intros ->. Qed.

Lemma prepare_all_sqlite {A : Type} (q : Database -> A) d :
  use_postgres d = false -> prepare_all q d = inr (q d).
Proof. unfold prepare_all. now intros ->. Qed.

Lemma prepare_run_postgres stmt d :
  use_postgres d = true -> prepare_run stmt d = inl StatementRejected.
Proof. unfold prepare_run. now intros ->. Qed.

Lemma prepare_all_postgres {A : Type} (q : Database -> A) d :
  use_postgres d = true -> prepare_all q d = inl StatementRejected.
Proof. unfold prepare_all. now intros ->. Qed.

Lemma insert_message_driver now id c role content model tok cst d d' :
  insert_message now id c role content model tok cst d = inr d' ->
  use_postgres d' = use_postgres d.
Proof.
  unfold insert_message.
  destruct (existsb _ (messages d)); [discriminate|].
  destruct (foreign_keys d && _); [discriminate|].
  now intros [= <-].
Qed.

Lemma insert_conversation_driver now id uid title d d' :
  insert_conversation now id uid title d = inr d' ->
  use_postgres d' = use_postgres d.
Proof.
  unfold insert_conversation.
  destruct (existsb _ (conversations d)); [discriminate|].
  destruct (foreign_keys d && _); [discriminate|].
  now intros [= <-].
Qed.

(** ** Appending *)

Lemma append_messages m d d' :
  append m d = inr d' ->
  messages d' = (messages d ++ [m])%list
  /\ conversations d' = conversations d
  /\ users d' = users d
  /\ foreign_keys d' = foreign_keys d
  /\ use_postgres d = false
  /\ use_postgres d' = false.
Proof.
  unfold append. intros H. apply prepare_run_inv in H. destruct H as (Hd & H).
  pose proof (insert_message_driver _ _ _ _ _ _ _ _ _ _ H) as Hd'.
  rewrite Hd in Hd'. revert H. unfold insert_message.
  destruct (existsb _ (messages d)); [discriminate|].
  destruct (foreign_keys d && _); [discriminate|].
  intros [= <-]. simpl. destruct m; auto 10.
Qed.

Lemma append_all_messages rows : forall d d',
  append_all rows d = inr d' ->
  messages d' = (messages d ++ rows)%list
  /\ conversations d' = conversations d.
Proof.
  induction rows as [|m rows IH]; simpl; intros d d' H.
  - injection H as <-. now rewrite app_nil_r.
  - destruct (append m d) as [e|d1] eqn:E; [discriminate|].
    apply append_messages in E. destruct E as (Em & Ec & _).
    apply IH in H. destruct H as (-> & ->). rewrite Em, Ec.
    now rewrite <- app_assoc.
Qed.

Lemma insert_message_messages now id c role content model tok cst d d' :
  insert_message now id c role content model tok cst d = inr d' ->
  messages d' =
    (messages d ++ [ {| m_id := id; m_conversation_id := c; m_role := role;
                        m_content := content; m_model := model;
                        m_tokens_used := tok; m_cost := cst;
                        m_created_at := now |} ])%list
  /\ conversations d' = conversations d
  /\ existsb (fun m => String.eqb (m_id m) id) (messages d) = false.
Proof.
  unfold insert_message.
  destruct (existsb _ (messages d)); [discriminate|].
  destruct (foreign_keys d && _); [discriminate|].
  intros [= <-]. simpl. auto.
Qed.

(** Rows with fresh, pairwise distinct identifiers can always be appended
    to a conversation that exists. *)
Lemma append_all_succeeds rows : forall d c,
  use_postgres d = false ->
  existsb (fun x => String.eqb (c_id x) c) (conversations d) = true ->
  Forall (fun m => m_conversation_id m = c) rows ->
  NoDup (map m_id rows) ->
  (forall m, In m rows -> ~ In (m_id m) (map m_id (messages d))) ->
  exists d', append_all rows d = inr d'.
Proof.
  induction rows as [|m rows IH]; simpl; intros d c Hlite Hc Hconv Hnd Hfresh.
  - now exists d.
  - inversion Hconv as [|? ? Hm Hrest]; subst.
    inversion Hnd as [|? ? Hnotin Hnd']; subst.
    assert (Hins : exists d1, append m d = inr d1).
    { unfold append. rewrite (prepare_run_sqlite _ _ Hlite). unfold insert_message.
      destruct (existsb (fun m0 => String.eqb (m_id m0) (m_id m)) (messages d)) eqn:E.
      - apply existsb_exists in E. destruct E as (m0 & Hin & Heq).
        apply String.eqb_eq in Heq. exfalso.
        apply (Hfresh m (or_introl eq_refl)). rewrite <- Heq. now apply in_map.
      - rewrite Hc. rewrite andb_false_r. eexists; reflexivity. }
    destruct Hins as (d1 & Hd1). rewrite Hd1.
    pose proof (append_messages _ _ _ Hd1) as (Em & Ec & _ & _ & _ & Hlite1).
    apply (IH d1 (m_conversation_id m)); auto.
    + now rewrite Ec.
    + intros m' Hin' Hbad. rewrite Em, map_app in Hbad.
      apply in_app_or in Hbad. destruct Hbad as [Hbad|Hbad].
      * apply (Hfresh m' (or_intror Hin')). exact Hbad.
      * simpl in Hbad. destruct Hbad as [Hbad|[]].
        apply Hnotin. rewrite Hbad. now apply in_map.
Qed.

Lemma filter_all {A : Type} (f : A -> bool) l :
  Forall (fun x => f x = true) l -> filter f l = l.
Proof.
  induction 1 as [|x l Hx _ IH]; simpl; [reflexivity|]. now rewrite Hx, IH.
Qed.

End DbFacts.

(* ================================================================== *)
(** * Properties of the chat routes *)
(* ================================================================== *)

Module RoutesFacts.
Import Db Effects AiRouter Routes Store Scenario DbFacts.

(** ** The handler of [POST /api/chat], step by step *)

Lemma resolve_named gen userId c msg w :
  c <> EmptyString ->
  resolve_conversation gen userId (Some c) msg w = (inr c, w).
Proof. destruct c; [congruence|reflexivity]. Qed.

Lemma post_chat_steps env net gen userId req w msg :
  message req = Some msg -> msg <> EmptyString ->
  post_chat env net gen userId req w =
    match resolve_conversation gen userId (conversationId req) msg w with
    | (inl _, w0) => (inr server_error, w0)
    | (inr convId, w0) =>
        if use_postgres (db w0) then (inr server_error, w0) else
        match insert_message (at_user_message gen) (new_userMsgId gen) convId
                "user" msg None 0 0 (db w0) with
        | inl _ => (inr server_error, w0)
        | inr d1 =>
            match chat env net (Some (requested (model req)))
                    (getHistory convId (db w0) ++ [user_turn msg]) system_prompt
                    {| db := d1; log := log w0 |} with
            | (inl _, w2) => (inr server_error, w2)
            | (inr response, w2) =>
                match insert_message (at_assistant_message gen)
                        (new_assistantMsgId gen) convId "assistant"
                        (result_content response) (Some (result_model response))
                        (totalTokens (usage response)) (cost (usage response))
                        (db w2) with
                | inl _ => (inr server_error, w2)
                | inr d3 =>
                    (inr (json (ChatBody
                                  {| reply_message := result_content response;
                                     reply_conversationId := convId;
                                     reply_model := result_model response;
                                     reply_usage := usage response |})),
                     {| db := d3; log := log w2 |})
                end
            end
        end
    end.
Proof.
  intros Hm Hne. destruct msg as [|a r]; [congruence|].
  unfold post_chat, try_catch, bind. rewrite Hm.
  destruct (resolve_conversation _ _ _ _ w) as [[e|convId] w0]; [reflexivity|].
  destruct w0 as [d0 l0]. unfold query, run, prepare_all, prepare_run. simpl.
  destruct (use_postgres d0) eqn:Hlite; [reflexivity|]. simpl. rewrite Hlite.
  destruct (insert_message _ _ convId "user" _ _ _ _ d0) as [e|d1] eqn:Hins;
    [reflexivity|].
  unfold getHistory, user_turn, system_prompt.
  pose proof (AiRouterFacts.chat_db env net (Some (requested (model req)))
                (select_history convId d0
                 ++ [ {| role := "user"; content := String a r |} ])
                (Some "You are a helpful AI assistant.")
                {| db := d1; log := l0 |}) as Hdb.
  destruct (chat _ _ _ _ _ _) as [[e|response] w2]; [reflexivity|].
  simpl in Hdb. apply insert_message_driver in Hins.
  rewrite Hdb, Hins, Hlite.
  destruct (insert_message _ _ convId "assistant" _ _ _ _ d1) as [e|d3];
    [destruct w2; reflexivity|reflexivity].
Qed.

(** The events of a request that names its conversation are those of its
    dispatch. *)
Lemma post_chat_named_events env net gen userId req d c msg e :
  message req = Some msg -> msg <> EmptyString ->
  conversationId req = Some c -> c <> EmptyString ->
  In e (events_of (post_chat env net gen userId req) d) ->
  exists d1,
    insert_message (at_user_message gen) (new_userMsgId gen) c "user" msg
      None 0 0 d = inr d1
    /\ In e (events_of (chat env net (Some (requested (model req)))
                          (getHistory c d ++ [user_turn msg]) system_prompt) d1).
Proof.
  intros Hm Hne Hc Hcne. unfold events_of.
  rewrite (post_chat_steps _ _ _ _ _ _ msg Hm Hne), Hc.
  rewrite (resolve_named _ _ _ _ _ Hcne). simpl.
  destruct (use_postgres d); [intros []|].
  destruct (insert_message _ _ c "user" _ _ _ _ d) as [err|d1]; [intros []|].
  intros H. exists d1. split; [reflexivity|].
  destruct (chat _ _ _ _ _ _) as [[err|response] w2]; [exact H|].
  destruct (insert_message _ _ c "assistant" _ _ _ _ (db w2)); exact H.
Qed.

Lemma existsb_id_false id (l : list MessageRow) :
  existsb (fun m => String.eqb (m_id m) id) l = false ->
  Forall (fun m => m_id m <> id) l.
Proof.
  intros H. apply Forall_forall. intros m Hin Heq.
  assert (existsb (fun m => String.eqb (m_id m) id) l = true) as Ht.
  { apply existsb_exists. exists m. split; [exact Hin|]. now apply String.eqb_eq. }
  congruence.
Qed.

Lemma messages_of_In c d m :
  In m (messages_of c d) <-> In m (messages d) /\ m_conversation_id m = c.
Proof.
  unfold messages_of. rewrite order_by_In, filter_In. unfold in_conversation.
  now rewrite String.eqb_eq.
Qed.

(** What an adapter receives, for every store.  When a request names its
    conversation, the message list is the conversation's stored messages,
    oldest first and cut after the twentieth, followed by the new user
    message.  The stored part was read before the new message was stored,
    so the new row is not in it. *)
Lemma post_chat_history_passed_to_adapter
    (env : ProcessEnv) (net : Network) (gen : Generated) (userId : string)
    (req : ChatRequest) (d : Database) (c msg : string)
    (v : Vendor) (cfg : ModelConfig) (msgs : list ChatMessage)
    (sys : option string) :
  message req = Some msg ->
  conversationId req = Some c -> c <> EmptyString ->
  In (AdapterEntered v cfg msgs sys)
     (events_of (post_chat env net gen userId req) d) ->
  let stored := messages_of c d in
  let rows := firstn 20 stored in
  msgs = (map chat_message rows ++ [user_turn msg])%list
  /\ Permutation stored (filter (in_conversation c) (messages d))
  /\ StronglySorted (no_later m_created_at) stored
  /\ List.length rows
     = Nat.min 20 (List.length (filter (in_conversation c) (messages d)))
  /\ Forall (fun m => m_id m <> new_userMsgId gen) rows.
Proof.
  intros Hm Hc Hcne Hin stored rows.
  assert (Hne : msg <> EmptyString).
  { intros ->. revert Hin. unfold events_of, post_chat, try_catch.
    rewrite Hm. simpl. intros []. }
  destruct (post_chat_named_events _ _ _ _ _ _ _ _ _ Hm Hne Hc Hcne Hin)
    as (d1 & Hins & Hev).
  apply AiRouterFacts.chat_adapter_entry in Hev. destruct Hev as (-> & _ & _).
  repeat split.
  - apply order_by_perm.
  - apply order_by_sorted.
  - unfold rows, stored, messages_of.
    now rewrite length_firstn, order_by_length.
  - apply insert_message_messages in Hins. destruct Hins as (_ & _ & Hfresh).
    apply existsb_id_false in Hfresh. rewrite Forall_forall in *.
    intros m Hrow. apply Hfresh.
    assert (In m stored) as Hst.
    { unfold rows in Hrow. rewrite <- (firstn_skipn 20 stored).
      apply in_or_app. now left. }
    now apply messages_of_In in Hst.
Qed.

Lemma post_chat_history_of_three_turns :
  let stored := messages_of "conv_a" (store 3) in
  let rows := firstn 20 stored in
  [ chat_message (turn 0); chat_message (turn 1); chat_message (turn 2);
    user_turn "one more" ]
    = (map chat_message rows ++ [user_turn "one more"])%list
  /\ Permutation stored (filter (in_conversation "conv_a") (messages (store 3)))
  /\ StronglySorted (no_later m_created_at) stored
  /\ List.length rows
     = Nat.min 20 (List.length (filter (in_conversation "conv_a")
                                       (messages (store 3))))
  /\ Forall (fun m => m_id m <> new_userMsgId fresh) rows.
Proof.
  apply (post_chat_history_passed_to_adapter env_with_keys answering_network
           fresh "u1" ask_a (store 3) "conv_a" "one more" Anthropic sonnet
           [ chat_message (turn 0); chat_message (turn 1);
             chat_message (turn 2); user_turn "one more" ]
           system_prompt).
  - reflexivity.
  - reflexivity.
  - discriminate.
  - vm_compute. left. reflexivity.
Defined.

(** The window is cut at the old end: the twenty-first stored message and
    everything after it never reaches a vendor. *)
Lemma history_keeps_the_oldest_twenty :
  getHistory "conv_a" (store 21) = map chat_message (map turn (seq 0 20))
  /\ ~ In (chat_message (turn 20)) (getHistory "conv_a" (store 21)).
Proof.
  split; [reflexivity|].
  vm_compute. intros H.
  repeat (destruct H as [H|H]; [discriminate|]). exact H.
Qed.

(** C1, at the input that breaks it.  Conversation [conv_a] holds
    twenty-five messages, [turn 0] the oldest and [turn 24] the latest.  A
    request that names it is answered with 200, and the one adapter call
    it makes receives [turn 0] to [turn 19] and the new user message: the
    twenty oldest messages, not the twenty latest.  The five latest turns
    are stored in the conversation and are not in the list. *)
Theorem history_window_misses_latest_turns :
  let run := post_chat env_with_keys answering_network fresh "u1" ask_a
               {| db := store 25; log := [] |} in
  let sent := (map chat_message (map turn (seq 0 20))
               ++ [user_turn "one more"])%list in
  fst run = inr (json (ChatBody hello_reply))
  /\ adapter_entries (log (snd run))
     = [ AdapterEntered Anthropic sonnet sent system_prompt ]
  /\ sent <> (map chat_message (map turn (seq 5 20))
              ++ [user_turn "one more"])%list
  /\ Forall (fun n => In (turn n) (messages_of "conv_a" (store 25))
                      /\ ~ In (chat_message (turn n)) sent)
            (seq 20 5).
Proof.
  cbv zeta. split; [vm_compute; reflexivity|].
  split; [vm_compute; reflexivity|].
  split; [vm_compute; intros H; discriminate H|].
  repeat (apply Forall_cons;
          [split;
           [vm_compute; repeat (first [left; reflexivity | right])
           |vm_compute; intros H;
            repeat (destruct H as [H|H]; [discriminate H|]); exact H]|]).
  apply Forall_nil.
Qed.

(** ** A dispatch that fails *)

(** C2, at the input that breaks it.  Conversation [conv_a] holds twenty
    messages; the request's user message is stored, the vendor rejects the
    call, the answer is the generic 500 and the stored user message stays;
    yet [getHistory] on the conversation, which returns the twenty oldest
    messages, does not contain it. *)
Theorem failed_dispatch_long_conversation :
  let run := post_chat env_with_keys failing_network fresh "u1" ask_a
               {| db := store 20; log := [] |} in
  fst run = inr server_error
  /\ (exists r, In (AnthropicCall r) (log (snd run)))
  /\ In (user_row fresh "conv_a" "one more") (messages (db (snd run)))
  /\ ~ In (user_turn "one more") (getHistory "conv_a" (db (snd run))).
Proof.
  cbv zeta. repeat split.
  - eexists. vm_compute. right. left. reflexivity.
  - vm_compute. do 20 right. left. reflexivity.
  - vm_compute. intros H.
    repeat (destruct H as [H|H]; [discriminate|]). exact H.
Qed.

Lemma firstn_all_short {A : Type} (n : nat) (l : list A) :
  List.length l <= n -> firstn n l = l.
Proof. apply firstn_all2. Qed.

(** The user turn is not rolled back, in any store.  When the dispatch
    fails after the user message was stored, the request is answered with
    the generic 500 and the store is left as it was after that insert: the
    user message is in the messages table and among the messages of the
    conversation read in full, and [getHistory] contains it whenever the
    conversation held fewer than twenty messages before the request. *)
Lemma failed_dispatch_keeps_user_message
    (env : ProcessEnv) (net : Network) (gen : Generated) (userId : string)
    (req : ChatRequest) (w w0 w2 : World) (msg convId : string)
    (d1 : Database) (e : Exn) :
  message req = Some msg -> msg <> EmptyString ->
  resolve_conversation gen userId (conversationId req) msg w = (inr convId, w0) ->
  prepare_run
    (insert_message (at_user_message gen) (new_userMsgId gen) convId "user" msg
       None 0 0) (db w0) = inr d1 ->
  chat env net (Some (requested (model req)))
    (getHistory convId (db w0) ++ [user_turn msg]) system_prompt
    {| db := d1; log := log w0 |} = (inl e, w2) ->
  post_chat env net gen userId req w = (inr server_error, w2)
  /\ db w2 = d1
  /\ In (user_row gen convId msg) (messages (db w2))
  /\ In (view (user_row gen convId msg)) (select_messages convId (db w2))
  /\ (List.length (messages_of convId (db w0)) < 20 ->
      In (user_turn msg) (getHistory convId (db w2))).
Proof.
  intros Hm Hne Hres Hins Hchat.
  apply prepare_run_inv in Hins. destruct Hins as (Hlite & Hins).
  assert (Hdb : db w2 = d1).
  { pose proof (AiRouterFacts.chat_db env net (Some (requested (model req)))
                  (getHistory convId (db w0) ++ [user_turn msg]) system_prompt
                  {| db := d1; log := log w0 |}) as H.
    now rewrite Hchat in H. }
  pose proof (insert_message_messages _ _ _ _ _ _ _ _ _ _ Hins) as (Hmsgs & _ & _).
  assert (Hrow : In (user_row gen convId msg) (messages (db w2))).
  { rewrite Hdb, Hmsgs. apply in_or_app. right. left. reflexivity. }
  assert (Hall : In (user_row gen convId msg) (messages_of convId (db w2))).
  { apply messages_of_In. split; [exact Hrow|reflexivity]. }
  split.
  { rewrite (post_chat_steps _ _ _ _ _ _ msg Hm Hne), Hres, Hlite, Hins, Hchat.
    reflexivity. }
  split; [exact Hdb|]. split; [exact Hrow|]. split.
  - unfold select_messages. now apply in_map.
  - intros Hshort. unfold getHistory, select_history.
    change (user_turn msg) with (chat_message (user_row gen convId msg)).
    apply in_map. rewrite firstn_all_short; [exact Hall|].
    unfold messages_of in *. rewrite order_by_length in *.
    rewrite Hdb, Hmsgs, filter_app, length_app. simpl.
    unfold in_conversation at 2. simpl. rewrite String.eqb_refl. simpl. lia.
Qed.

Lemma failed_dispatch_short_conversation :
  let w := {| db := store 3; log := [] |} in
  let w2 := snd (post_chat env_with_keys failing_network fresh "u1" ask_a w) in
  post_chat env_with_keys failing_network fresh "u1" ask_a w
    = (inr server_error, w2)
  /\ db w2 = db w2
  /\ In (user_row fresh "conv_a" "one more") (messages (db w2))
  /\ In (view (user_row fresh "conv_a" "one more"))
        (select_messages "conv_a" (db w2))
  /\ (List.length (messages_of "conv_a" (db w)) < 20 ->
      In (user_turn "one more") (getHistory "conv_a" (db w2))).
Proof.
  intros w w2.
  apply (failed_dispatch_keeps_user_message env_with_keys failing_network
           fresh "u1" ask_a w w w2 "one more" "conv_a" (db w2)
           (ProviderError "overloaded")).
  - reflexivity.
  - discriminate.
  - reflexivity.
  - vm_compute. reflexivity.
  - vm_compute. reflexivity.
Defined.

(** ** Reading one conversation *)

Lemma get_conversation_run userId id w :
  get_conversation userId id w =
    if use_postgres (db w) then (inr fetch_failed, w) else
    match select_conversation id userId (db w) with
    | None => (inr not_found, w)
    | Some c => (inr (json (ConversationBody c (select_messages id (db w)))), w)
    end.
Proof.
  unfold get_conversation, try_catch, bind, query, ret, prepare_all.
  destruct (use_postgres (db w)) eqn:Hlite; [reflexivity|].
  destruct (select_conversation id userId (db w)); [|reflexivity].
  now rewrite Hlite.
Qed.

(** No row matches both keys: on the SQLite branch the answer is the
    404. *)
Lemma get_conversation_no_match userId id d :
  use_postgres d = false ->
  (forall c, In c (conversations d) -> c_id c = id -> c_user_id c <> userId) ->
  getFullConversation id userId d = inr not_found.
Proof.
  intros Hlite H. unfold getFullConversation. rewrite get_conversation_run.
  simpl. rewrite Hlite.
  destruct (select_conversation id userId d) as [c|] eqn:E; [|reflexivity].
  unfold select_conversation in E. apply find_some in E.
  destruct E as (Hin & Hb). apply andb_prop in Hb. destruct Hb as (Hi & Hu).
  apply String.eqb_eq in Hi, Hu. exfalso. exact (H c Hin Hi Hu).
Qed.

(** On the PostgreSQL branch the first statement of the handler is
    rejected and the answer is the 500 of its [catch], whatever the store
    holds. *)
Lemma get_conversation_postgres userId id d :
  use_postgres d = true ->
  getFullConversation id userId d = inr fetch_failed.
Proof.
  intros Hpg. unfold getFullConversation. rewrite get_conversation_run.
  simpl. now rewrite Hpg.
Qed.

(** Asking for a conversation that exists and belongs to somebody else is
    answered exactly as asking for one that does not exist, on either
    branch of the driver: never with a 403, and without touching the
    store.  On the SQLite branch the common answer is the 404 body
    [Conversation not found]; on the PostgreSQL branch it is the 500. *)
Lemma get_conversation_hides_foreign
    (userId id : string) (theirs absent : Database) :
  use_postgres theirs = use_postgres absent ->
  (forall c, In c (conversations theirs) -> c_id c = id -> c_user_id c <> userId) ->
  (forall c, In c (conversations absent) -> c_id c <> id) ->
  getFullConversation id userId theirs = getFullConversation id userId absent
  /\ (use_postgres theirs = false ->
      getFullConversation id userId theirs = inr not_found)
  /\ (use_postgres theirs = true ->
      getFullConversation id userId theirs = inr fetch_failed)
  /\ (forall r, getFullConversation id userId theirs = inr r -> status r <> 403)
  /\ (forall l, snd (get_conversation userId id {| db := theirs; log := l |})
                = {| db := theirs; log := l |}).
Proof.
  intros Hsame Hforeign Habsent.
  assert (Habsent' : forall c, In c (conversations absent) -> c_id c = id ->
                               c_user_id c <> userId).
  { intros c Hin Hid. now apply Habsent in Hin. }
  destruct (use_postgres theirs) eqn:Hd; symmetry in Hsame.
  - rewrite (get_conversation_postgres userId id theirs Hd).
    rewrite (get_conversation_postgres userId id absent Hsame).
    repeat split; try discriminate.
    + intros r [= <-]. discriminate.
    + intros l. rewrite get_conversation_run. simpl. now rewrite Hd.
  - rewrite (get_conversation_no_match userId id theirs Hd Hforeign).
    rewrite (get_conversation_no_match userId id absent Hsame Habsent').
    repeat split; try discriminate.
    + intros r [= <-]. discriminate.
    + intros l. rewrite get_conversation_run. simpl. rewrite Hd.
      destruct (select_conversation _ _ _); reflexivity.
Qed.

Lemma get_conversation_hides_foreign_on_sqlite :
  getFullConversation "conv_z" "u1" (store 3)
    = getFullConversation "conv_z" "u1" (db empty_world)
  /\ getFullConversation "conv_z" "u1" (store 3) = inr not_found
  /\ status not_found = 404.
Proof. repeat split. Qed.


(** ** Appending and reading back *)

Lemma append_all_driver rows : forall d d',
  append_all rows d = inr d' -> use_postgres d' = use_postgres d.
Proof.
  induction rows as [|m rows IH]; simpl; intros d d'.
  - now intros [= <-].
  - destruct (append m d) as [e|d1] eqn:E; [discriminate|]. intros H.
    apply IH in H. apply append_messages in E.
    destruct E as (_ & _ & _ & _ & H0 & H1). congruence.
Qed.

(** On the PostgreSQL branch no row can be appended. *)
Lemma append_on_postgres m d :
  use_postgres d = true -> append m d = inl StatementRejected.
Proof. intros H. unfold append. now apply prepare_run_postgres. Qed.

Lemma messages_of_appended c d d' rows :
  filter (in_conversation c) (messages d) = [] ->
  Forall (fun m => m_conversation_id m = c) rows ->
  append_all rows d = inr d' ->
  messages_of c d' = order_by (asc m_created_at) rows.
Proof.
  intros Hempty Hconv Happ. apply append_all_messages in Happ.
  destruct Happ as (Hm & _). unfold messages_of.
  rewrite Hm, filter_app, Hempty. simpl. f_equal. apply filter_all.
  eapply Forall_impl; [|exact Hconv]. intros m <-. unfold in_conversation.
  apply String.eqb_refl.
Qed.

Lemma select_conversation_appended c userId d d' rows :
  append_all rows d = inr d' ->
  select_conversation c userId d' = select_conversation c userId d.
Proof.
  intros Happ. apply append_all_messages in Happ. destruct Happ as (_ & Hc).
  unfold select_conversation. now rewrite Hc.
Qed.

(** A conversation that reads as empty is one the caller owns, on the
    SQLite branch, with no message stored under it. *)
Lemma reads_as_empty c userId d conv :
  getFullConversation c userId d = inr (json (ConversationBody conv [])) ->
  use_postgres d = false
  /\ select_conversation c userId d = Some conv
  /\ filter (in_conversation c) (messages d) = [].
Proof.
  unfold getFullConversation. rewrite get_conversation_run. simpl.
  destruct (use_postgres d); [discriminate|].
  destruct (select_conversation c userId d) as [conv'|]; [|discriminate].
  simpl. intros [= -> Hm]. repeat split.
  unfold select_messages, messages_of in Hm. apply map_eq_nil in Hm.
  apply length_zero_iff_nil. apply (f_equal (@List.length _)) in Hm.
  now rewrite order_by_length in Hm.
Qed.

(** C8.  Take a conversation that reads as the caller's and empty, and
    append [rows] to it, one insert after the other.  Reading the
    conversation in full then returns the conversation with exactly these
    rows, each shown by its id, role, content, model and timestamp,
    oldest first by timestamp; when the timestamps do not go backwards
    from one insert to the next, that is the order in which the rows were
    appended. *)
Theorem append_then_getFullConversation
    (d d' : Database) (c userId : string) (conv : ConversationRow)
    (rows : list MessageRow) :
  getFullConversation c userId d = inr (json (ConversationBody conv [])) ->
  Forall (fun m => m_conversation_id m = c) rows ->
  append_all rows d = inr d' ->
  exists read,
    getFullConversation c userId d'
      = inr (json (ConversationBody conv
                     (map (fun m => {| v_id := m_id m; v_role := m_role m;
                                       v_content := m_content m;
                                       v_model := m_model m;
                                       v_created_at := m_created_at m |})
                          read)))
    /\ Permutation read rows
    /\ StronglySorted (no_later m_created_at) read
    /\ (StronglySorted (no_later m_created_at) rows -> read = rows).
Proof.
  intros Hread Hrows Happ.
  apply reads_as_empty in Hread. destruct Hread as (Hlite & Hconv & Hempty).
  exists (order_by (asc m_created_at) rows).
  split; [|split; [apply order_by_perm
                  |split; [apply order_by_sorted | apply order_by_sorted_id]]].
  unfold getFullConversation. rewrite get_conversation_run. simpl.
  rewrite (append_all_driver _ _ _ Happ), Hlite.
  rewrite (select_conversation_appended _ _ _ _ _ Happ), Hconv.
  unfold select_messages.
  rewrite (messages_of_appended _ _ _ _ Hempty Hrows Happ).
  reflexivity.
Qed.

Lemma append_then_getFullConversation_witness :
  exists read,
    getFullConversation "conv_a" "u1" (store_with_note 3)
      = inr (json (ConversationBody (conversation "conv_a" "u1" 100)
                     (map (fun m => {| v_id := m_id m; v_role := m_role m;
                                       v_content := m_content m;
                                       v_model := m_model m;
                                       v_created_at := m_created_at m |})
                          read)))
    /\ Permutation read [turn 0; turn 1; turn 2]
    /\ StronglySorted (no_later m_created_at) read
    /\ (StronglySorted (no_later m_created_at) [turn 0; turn 1; turn 2]
        -> read = [turn 0; turn 1; turn 2]).
Proof.
  apply (append_then_getFullConversation (store_with_note 0)
           (store_with_note 3) "conv_a" "u1"
           (conversation "conv_a" "u1" 100) [turn 0; turn 1; turn 2]).
  - reflexivity.
  - repeat constructor.
  - reflexivity.
Defined.

(** The read-back of the three turns, written out: the message stored
    under [conv_b] is not among them. *)
Lemma three_turns_read_back :
  append_all [turn 0; turn 1; turn 2] (store_with_note 0)
  = inr (store_with_note 3)
  /\ getFullConversation "conv_a" "u1" (store_with_note 3)
  = inr {| status := 200;
           body := ConversationBody
             {| c_id := "conv_a"; c_user_id := "u1"; c_title := Some "a thread";
                c_created_at := 100; c_updated_at := 100 |}
             [ {| v_id := "msg_A"; v_role := "user"; v_content := "turn A";
                  v_model := None; v_created_at := 100 |};
               {| v_id := "msg_B"; v_role := "assistant"; v_content := "turn B";
                  v_model := Some "claude-3-5-sonnet-20241022";
                  v_created_at := 101 |};
               {| v_id := "msg_C"; v_role := "user"; v_content := "turn C";
                  v_model := None; v_created_at := 102 |} ] |}.
Proof. split; reflexivity. Qed.

(** The three turns above are in timestamp order, so they are read back
    as appended. *)
Lemma three_turns_in_order :
  StronglySorted (no_later m_created_at) [turn 0; turn 1; turn 2].
Proof. repeat constructor; unfold no_later; simpl; lia. Qed.

(** Two rows appended against the clock come back in timestamp order, not
    in the order of their inserts. *)
Lemma backwards_clock_reorders :
  append_all [turn 1; turn 0] (store 0) = inr
    {| use_postgres := false; foreign_keys := true; users := users (store 0);
       conversations := conversations (store 0);
       messages := [turn 1; turn 0] |}
  /\ messages_of "conv_a"
       {| use_postgres := false; foreign_keys := true; users := users (store 0);
          conversations := conversations (store 0);
          messages := [turn 1; turn 0] |} = [turn 0; turn 1].
Proof. split; reflexivity. Qed.

(** ** Dispatch happens once *)

Lemma post_chat_named_enters_adapter_once env net gen userId req d d1 c msg cfg :
  message req = Some msg -> msg <> EmptyString ->
  conversationId req = Some c -> c <> EmptyString ->
  prepare_run
    (insert_message (at_user_message gen) (new_userMsgId gen) c "user" msg
       None 0 0) d = inr d1 ->
  get_prop (requested (model req)) MODELS = Some cfg ->
  exists v,
    vendor_of_tag (provider cfg) = Some v
    /\ adapter_entries (events_of (post_chat env net gen userId req) d)
       = [ AdapterEntered v cfg (getHistory c d ++ [user_turn msg]) system_prompt ].
Proof.
  intros Hm Hne Hc Hcne Hins Hcfg. unfold events_of.
  apply prepare_run_inv in Hins. destruct Hins as (Hlite & Hins).
  rewrite (post_chat_steps _ _ _ _ _ _ msg Hm Hne), Hc.
  rewrite (resolve_named _ _ _ _ _ Hcne). simpl. rewrite Hlite, Hins.
  set (msgs := (getHistory c d ++ [user_turn msg])%list).
  assert (Hlog : exists v,
             vendor_of_tag (provider cfg) = Some v
             /\ adapter_entries
                  (log (snd (chat env net (Some (requested (model req))) msgs
                               system_prompt {| db := d1; log := [] |})))
                = [AdapterEntered v cfg msgs system_prompt]).
  { unfold chat.
    change (requested (Some (requested (model req))))
      with (requested (model req)).
    rewrite (AiRouterFacts.MODELS_get_own _ _ Hcfg).
    destruct (AiRouterFacts.MODELS_vendor _ _ Hcfg) as [Hp|Hp];
      unfold vendor_of_tag; rewrite Hp; simpl.
    - exists Anthropic. split; [reflexivity|].
      unfold chatAnthropic, bind, emit, throw, ret, await. simpl.
      destruct (anthropic env); simpl; [|reflexivity].
      destruct (anthropic_create net _); reflexivity.
    - exists OpenAI. split; [reflexivity|].
      unfold chatOpenAI, bind, emit, throw, ret, await. simpl.
      destruct (openai env); simpl; [|reflexivity].
      destruct (openai_create net _); reflexivity. }
  destruct Hlog as (v & Hv & Hlog). exists v. split; [exact Hv|].
  destruct (chat _ _ _ _ _ _) as [[e|response] w2]; simpl in *; [exact Hlog|].
  destruct (insert_message _ _ c "assistant" _ _ _ _ (db w2)); exact Hlog.
Qed.

(** ** The sibling write: registering a user again bumps [updated_at] *)

Lemma register_again_bumps_updated_at :
  map u_updated_at
      (users (snd (AuthRoutes.post_register 400
                     {| AuthRoutes.reg_id := Some "u1";
                        AuthRoutes.reg_email := Some "new@example.org";
                        AuthRoutes.reg_name := None |} (store 0))))
  = [400; 1]%Z.
Proof. reflexivity. Qed.

(** ** The order of the conversation list *)

(** A request that names its conversation leaves the conversations table,
    and with it every [updated_at], as it found it. *)
Lemma post_chat_named_keeps_conversations env net gen userId req w c :
  conversationId req = Some c -> c <> EmptyString ->
  conversations (db (snd (post_chat env net gen userId req w)))
    = conversations (db w).
Proof.
  intros Hc Hcne.
  destruct (message req) as [[|a r]|] eqn:Hm;
    try (unfold post_chat, try_catch; rewrite Hm; reflexivity).
  rewrite (post_chat_steps _ _ _ _ _ _ (String a r) Hm) by discriminate.
  rewrite Hc, (resolve_named _ _ _ _ _ Hcne).
  destruct (use_postgres (db w)); [reflexivity|].
  destruct (insert_message _ _ c "user" _ _ _ _ (db w)) as [e|d1] eqn:Hins;
    [reflexivity|].
  apply insert_message_messages in Hins. destruct Hins as (_ & Hc1 & _).
  pose proof (AiRouterFacts.chat_db env net (Some (requested (model req)))
                (getHistory c (db w) ++ [user_turn (String a r)]) system_prompt
                {| db := d1; log := log w |}) as Hdb.
  destruct (chat _ _ _ _ _ _) as [[e|response] w2]; simpl in Hdb.
  - simpl. now rewrite Hdb.
  - destruct (insert_message _ _ c "assistant" _ _ _ _ (db w2)) as [e|d3] eqn:Hins3;
      simpl.
    + now rewrite Hdb.
    + apply insert_message_messages in Hins3. destruct Hins3 as (_ & Hc3 & _).
      now rewrite Hc3, Hdb.
Qed.

(** C5, at the input that breaks it.  [u1] owns [conv_a] (updated at 100)
    and [conv_b] (updated at 200).  A request at time 300 adds a user and
    an assistant message to [conv_a] and is answered with 200.  Afterwards
    [conv_a] still carries [updated_at] 100, and the conversation list
    still shows [conv_b] first. *)
Theorem chat_leaves_updated_at :
  let run := post_chat env_with_keys answering_network fresh "u1" ask_a
               {| db := store 3; log := [] |} in
  (exists reply, fst run = inr (json (ChatBody reply)))
  /\ messages (db (snd run))
     = (messages (store 3)
        ++ [ user_row fresh "conv_a" "one more";
             {| m_id := "msg_assistant"; m_conversation_id := "conv_a";
                m_role := "assistant"; m_content := "hello";
                m_model := Some "claude-3-5-sonnet-20241022";
                m_tokens_used := 1550;
                m_cost := (1200 / 1000 * 0.003 + 350 / 1000 * 0.015)%float;
                m_created_at := 301 |} ])%list
  /\ conversations (db (snd run)) = conversations (store 3)
  /\ listConversations "u1" (db (snd run))
     = inr (json (ConversationsBody
                    [ {| s_id := "conv_b"; s_title := Some "a thread";
                         s_created_at := 200; s_updated_at := 200 |};
                      {| s_id := "conv_a"; s_title := Some "a thread";
                         s_created_at := 100; s_updated_at := 100 |} ])).
Proof.
  cbv zeta. split; [eexists; vm_compute; reflexivity|].
  repeat split; vm_compute; reflexivity.
Qed.

End RoutesFacts.

(* ================================================================== *)
(** * More on the middleware: optionalAuth *)
(* ================================================================== *)

Module OptionalAuthFacts.
Import Auth.

(** X1.  [optionalAuth] never answers the request itself: it hands on the
    identity of the first source that supplies one, or [null] when none
    does.  Whenever some source supplies an identity, [flexibleAuth] and
    [optionalAuth] hand on the same one, in production and outside it. *)
Theorem optionalAuth_first_supplied (env : ProcessEnv) (req : Request) :
  optionalAuth req =
    Next (match first_supplied (identity_sources req) with
          | Some v => v
          | None => JNull
          end)
  /\ (first_supplied (identity_sources req) <> None ->
      flexibleAuth env req = optionalAuth req).
Proof.
  pose proof (AuthFacts.resolved_first_supplied req) as H.
  unfold optionalAuth, flexibleAuth.
  destruct (first_supplied (identity_sources req)) as [v|].
  - destruct H as [-> Hv]. rewrite (AuthFacts.js_or_truthy _ _ Hv), Hv.
    split; reflexivity.
  - rewrite (AuthFacts.js_or_falsy _ _ H). split; [reflexivity|congruence].
Qed.

Lemma optionalAuth_first_supplied_witness :
  optionalAuth Scenario.signed_in = Next (JString "alice")
  /\ optionalAuth Scenario.clerk_user = Next (JString "bob")
  /\ optionalAuth Scenario.header_user = Next (JString "carol")
  /\ optionalAuth Scenario.query_user = Next (JString "dave")
  /\ optionalAuth Scenario.anonymous = Next JNull
  /\ flexibleAuth Scenario.production Scenario.header_user
     = optionalAuth Scenario.header_user.
Proof.
  split; [exact (proj1 (optionalAuth_first_supplied Scenario.production
                          Scenario.signed_in))|].
  split; [exact (proj1 (optionalAuth_first_supplied Scenario.production
                          Scenario.clerk_user))|].
  split; [exact (proj1 (optionalAuth_first_supplied Scenario.production
                          Scenario.header_user))|].
  split; [exact (proj1 (optionalAuth_first_supplied Scenario.production
                          Scenario.query_user))|].
  split; [exact (proj1 (optionalAuth_first_supplied Scenario.production
                          Scenario.anonymous))|].
  apply (proj2 (optionalAuth_first_supplied Scenario.production
                  Scenario.header_user)).
  simpl. discriminate.
Defined.

End OptionalAuthFacts.

(* ================================================================== *)
(** * More on the router: the catalogue, the calls, the usage *)
(* ================================================================== *)

Module CatalogueFacts.
Import Db Effects AiRouter Routes Store Integrity Scenario.

(** The four identifiers of the catalogue. *)
Lemma MODELS_entries model cfg :
  get_prop model MODELS = Some cfg ->
  In (model, cfg) MODELS.
Proof. apply AiRouterFacts.get_prop_In. Qed.

Ltac split_entries H :=
  apply MODELS_entries in H; unfold MODELS in H; simpl in H;
  repeat (destruct H as [H|H]; [inversion H; subst; clear H|]);
  [ .. | contradiction ].

Ltac split_keys env :=
  unfold configured, credential, anthropic, openai, new_client in *;
  destruct (ANTHROPIC_API_KEY env) as [[|? ?]|];
  destruct (OPENAI_API_KEY env) as [[|? ?]|];
  simpl in *.

(** X2.  [getAvailableModels] lists exactly the catalogue entries whose
    vendor has a credential: a listed identifier is registered and its
    vendor is configured, and every such identifier is listed. *)
Theorem getAvailableModels_registered_and_configured
    (env : ProcessEnv) (m : string) :
  In m (getAvailableModels env) <->
  exists cfg v,
    get_prop m MODELS = Some cfg
    /\ vendor_of_tag (provider cfg) = Some v
    /\ configured env v = true.
Proof.
  split.
  - unfold getAvailableModels. intros H.
    split_keys env;
      repeat (destruct H as [H|H];
              [subst m; eexists; eexists;
               (split; [reflexivity|]); split; reflexivity|]);
      contradiction.
  - intros (cfg & v & Hcfg & Hv & Hconf). unfold getAvailableModels.
    split_entries Hcfg; simpl in Hv; injection Hv as <-;
      split_keys env; try discriminate; simpl; auto 10.
Qed.

Ltac run_chat :=
  unfold events_of, chat, chatAnthropic, chatOpenAI, bind, emit, throw, ret,
         await; simpl.

(** X3.  One run of the router invokes a vendor SDK's [create] method
    once when the requested model is in [getAvailableModels], and not at
    all otherwise: the router itself does not call again after a
    rejection, and it hands nothing to an SDK for a model that is unknown
    or whose vendor has no credential.  How many HTTP requests the SDK
    sends for one invocation is the SDK's retry policy, which the clients
    leave at its default. *)
Theorem sdk_create_invoked_once_iff_available
    (env : ProcessEnv) (net : Network) (model : option string)
    (msgs : list ChatMessage) (sys : option string) (d : Database) :
  (In (requested model) (getAvailableModels env) ->
   exists e, network_calls (events_of (chat env net model msgs sys) d) = [e])
  /\ (~ In (requested model) (getAvailableModels env) ->
      network_calls (events_of (chat env net model msgs sys) d) = []).
Proof.
  split.
  - intros H. apply getAvailableModels_registered_and_configured in H.
    destruct H as (cfg & v & Hcfg & Hv & Hconf).
    unfold events_of, chat. rewrite (AiRouterFacts.MODELS_get_own _ _ Hcfg).
    split_entries Hcfg; simpl in Hv; injection Hv as <-; simpl;
      unfold chatAnthropic, chatOpenAI, bind, emit, throw, ret, await;
      split_keys env; try discriminate;
      match goal with
      | |- context [anthropic_create net ?q] => destruct (anthropic_create net q)
      | |- context [openai_create net ?q] => destruct (openai_create net q)
      end; simpl; eexists; reflexivity.
  - intros Hnot. unfold events_of, chat, MODELS_get.
    destruct (get_prop (requested model) MODELS) as [cfg|] eqn:Hcfg.
    + assert (Hunconf : forall v, vendor_of_tag (provider cfg) = Some v ->
                                  configured env v = false).
      { intros v Hv. destruct (configured env v) eqn:E; [|reflexivity].
        exfalso. apply Hnot.
        apply getAvailableModels_registered_and_configured. now exists cfg, v. }
      clear Hnot.
      split_entries Hcfg; simpl in *;
        (specialize (Hunconf _ eq_refl));
        unfold chatAnthropic, chatOpenAI, bind, emit, throw, ret, await;
        split_keys env; try discriminate; reflexivity.
    + destruct (existsb _ Object_prototype); reflexivity.
Qed.

Lemma map_chat_message_id (msgs : list ChatMessage) :
  map (fun m => {| role := role m; content := content m |}) msgs = msgs.
Proof.
  induction msgs as [|[r c] msgs IH]; simpl; [reflexivity|]. now rewrite IH.
Qed.

(** X4.  A call goes to the vendor the requested model's catalogue entry
    names, and carries that entry's vendor model identifier and token
    ceiling: an Anthropic call is only made for an ['anthropic'] entry, an
    OpenAI call only for an ['openai'] entry. *)
Theorem vendor_call_follows_catalogue
    (env : ProcessEnv) (net : Network) (model : option string)
    (msgs : list ChatMessage) (sys : option string) (d : Database) (e : Event) :
  In e (network_calls (events_of (chat env net model msgs sys) d)) ->
  exists cfg,
    get_prop (requested model) MODELS = Some cfg
    /\ match e with
       | AnthropicCall r =>
           provider cfg = "anthropic"
           /\ a_model r = modelId cfg /\ a_max_tokens r = maxTokens cfg
       | OpenAICall r =>
           provider cfg = "openai"
           /\ o_model r = modelId cfg /\ o_max_tokens r = maxTokens cfg
       | AdapterEntered _ _ _ _ => False
       end.
Proof.
  unfold events_of, chat, MODELS_get.
  destruct (get_prop (requested model) MODELS) as [cfg|] eqn:Hcfg.
  - intros H. exists cfg. split; [reflexivity|]. revert H.
    destruct (String.eqb (provider cfg) "anthropic") eqn:Ea.
    + apply String.eqb_eq in Ea.
      unfold chatAnthropic, bind, emit, throw, ret, await. simpl.
      destruct (anthropic env); simpl; [|intros []].
      destruct (anthropic_create net _); simpl;
        intros [<-|[]]; simpl; auto.
    + destruct (String.eqb (provider cfg) "openai") eqn:Eo; [|intros []].
      apply String.eqb_eq in Eo.
      unfold chatOpenAI, bind, emit, throw, ret, await. simpl.
      destruct (openai env); simpl; [|intros []].
      destruct (openai_create net _); simpl;
        intros [<-|[]]; simpl; auto.
  - destruct (existsb _ Object_prototype); intros [].
Qed.

Lemma vendor_call_follows_catalogue_witness :
  exists cfg,
    get_prop "gpt-4o" MODELS = Some cfg
    /\ provider cfg = "openai"
    /\ o_model {| o_model := "gpt-4o"; o_max_tokens := 4096; o_messages := [] |}
       = modelId cfg
    /\ o_max_tokens {| o_model := "gpt-4o"; o_max_tokens := 4096;
                       o_messages := [] |} = maxTokens cfg.
Proof.
  apply (vendor_call_follows_catalogue env_with_keys answering_network
           (Some "gpt-4o") [] None (db empty_world)
           (OpenAICall {| o_model := "gpt-4o"; o_max_tokens := 4096;
                          o_messages := [] |})).
  vm_compute. left. reflexivity.
Defined.

(** X5.  The OpenAI adapter sends the messages it was given unchanged and
    in order, roles included (a stored role is not mapped as it is for
    Anthropic); a non-empty system prompt is put in front of them as one
    message of role ['system'], an empty or missing one adds nothing. *)
Theorem openai_call_messages
    (env : ProcessEnv) (net : Network) (model : option string)
    (msgs : list ChatMessage) (sys : option string) (d : Database)
    (r : OpenAIRequest) :
  In (OpenAICall r) (events_of (chat env net model msgs sys) d) ->
  o_messages r =
    (match sys with
     | Some (String a t) => [ {| role := "system"; content := String a t |} ]
     | _ => []
     end ++ msgs)%list.
Proof.
  unfold events_of, chat.
  destruct (MODELS_get (requested model)) as [[cfg|name]|]; [|intros []|intros []].
  destruct (String.eqb (provider cfg) "anthropic").
  - unfold chatAnthropic, bind, emit, throw, ret, await. simpl.
    destruct (anthropic env); simpl.
    + destruct (anthropic_create net _); simpl;
        intros [H|[H|[]]]; discriminate.
    + intros [H|[]]. discriminate.
  - destruct (String.eqb (provider cfg) "openai"); [|intros []].
    unfold chatOpenAI, bind, emit, throw, ret, await. simpl.
    destruct (openai env); simpl.
    + destruct (openai_create net _); simpl;
        intros [H|[H|[]]]; try discriminate; injection H as <-; simpl;
        now rewrite map_chat_message_id.
    + intros [H|[]]. discriminate.
Qed.

Lemma openai_call_messages_witness :
  o_messages
    {| o_model := "gpt-4o-mini"; o_max_tokens := 4096;
       o_messages := {| role := "system"; content := "You are a helpful AI assistant." |}
                     :: stored_turns |}
  = ([ {| role := "system"; content := "You are a helpful AI assistant." |} ]
     ++ stored_turns)%list.
Proof.
  apply (openai_call_messages env_with_keys answering_network
           (Some "gpt-4o-mini") stored_turns system_prompt (db empty_world)).
  vm_compute. right. left. reflexivity.
Defined.

(** The price of nothing is nothing, for every entry of the catalogue. *)
Lemma cost_of_zero model cfg :
  get_prop model MODELS = Some cfg -> cost_of cfg 0 0 = 0%float.
Proof. intros H. split_entries H; reflexivity. Qed.

(** X6.  When the vendor's answer carries no usage object, the result
    counts no tokens and costs nothing: input, output and total tokens and
    the cost are all 0. *)
Theorem missing_usage_costs_nothing
    (env : ProcessEnv) (net : Network) (model : option string)
    (msgs : list ChatMessage) (sys : option string) (w w' : World)
    (r : ChatResult) :
  (forall q a, anthropic_create net q = inr a -> a_usage a = None) ->
  (forall q a, openai_create net q = inr a -> o_usage a = None) ->
  chat env net model msgs sys w = (inr r, w') ->
  usage r = zero_usage.
Proof.
  intros Ha Ho. unfold chat, MODELS_get.
  destruct (get_prop (requested model) MODELS) as [cfg|] eqn:Hcfg.
  - pose proof (cost_of_zero _ _ Hcfg) as Hzero.
    destruct (String.eqb (provider cfg) "anthropic").
    + unfold chatAnthropic, bind, emit, throw, ret, await. simpl.
      destruct (anthropic env); [|discriminate]. simpl.
      destruct (anthropic_create net _) as [|a] eqn:E; [discriminate|].
      intros H. injection H as <- _. simpl.
      rewrite (Ha _ _ E). simpl. rewrite Hzero. reflexivity.
    + destruct (String.eqb (provider cfg) "openai"); [|discriminate].
      unfold chatOpenAI, bind, emit, throw, ret, await. simpl.
      destruct (openai env); [|discriminate]. simpl.
      destruct (openai_create net _) as [|a] eqn:E; [discriminate|].
      intros H. injection H as <- _. simpl.
      rewrite (Ho _ _ E). simpl. rewrite Hzero. reflexivity.
  - destruct (existsb _ Object_prototype); discriminate.
Qed.

Lemma missing_usage_costs_nothing_witness :
  usage {| result_content := "hello"; result_model := "gpt-4o";
           usage := zero_usage |} = zero_usage.
Proof.
  apply (missing_usage_costs_nothing env_with_keys bare_network (Some "gpt-4o")
           [] None empty_world
           (snd (chat env_with_keys bare_network (Some "gpt-4o") [] None
                   empty_world))).
  - intros q a H. injection H as <-. reflexivity.
  - intros q a H. injection H as <-. reflexivity.
  - vm_compute. reflexivity.
Defined.

End CatalogueFacts.

(* ================================================================== *)
(** * More on [POST /api/chat] *)
(* ================================================================== *)

Module ChatHandlerFacts.
Import Db Effects AiRouter Routes Store Integrity Scenario DbFacts.

(** ** What each step leaves behind *)

Lemma insert_conversation_inv now id uid title d d' :
  insert_conversation now id uid title d = inr d' ->
  conversations d' =
    (conversations d ++
     [ {| c_id := id; c_user_id := uid; c_title := Some title;
          c_created_at := now; c_updated_at := now |} ])%list
  /\ messages d' = messages d
  /\ users d' = users d
  /\ foreign_keys d' = foreign_keys d
  /\ conversation_exists d id = false
  /\ (foreign_keys d = true -> user_exists d uid = true).
Proof.
  unfold insert_conversation, conversation_exists, user_exists.
  destruct (existsb _ (conversations d)); [discriminate|].
  destruct (foreign_keys d); simpl.
  - destruct (existsb _ (users d)); [|discriminate].
    intros [= <-]. simpl. auto 10.
  - intros [= <-]. simpl. repeat split; auto. discriminate.
Qed.

Lemma insert_message_inv now id c role content model tok cst d d' :
  insert_message now id c role content model tok cst d = inr d' ->
  messages d' =
    (messages d ++ [ {| m_id := id; m_conversation_id := c; m_role := role;
                        m_content := content; m_model := model;
                        m_tokens_used := tok; m_cost := cst;
                        m_created_at := now |} ])%list
  /\ conversations d' = conversations d
  /\ users d' = users d
  /\ foreign_keys d' = foreign_keys d
  /\ ~ In id (map m_id (messages d))
  /\ (foreign_keys d = true -> conversation_exists d c = true).
Proof.
  unfold insert_message, conversation_exists.
  destruct (existsb _ (messages d)) eqn:E; [discriminate|].
  assert (Hfresh : ~ In id (map m_id (messages d))).
  { intros Hin. apply in_map_iff in Hin. destruct Hin as (m & Hid & Hin).
    assert (existsb (fun m0 => String.eqb (m_id m0) id) (messages d) = true) as Ht.
    { apply existsb_exists. exists m. split; [exact Hin|]. now apply String.eqb_eq. }
    congruence. }
  destruct (foreign_keys d); simpl.
  - destruct (existsb _ (conversations d)); [|discriminate].
    intros [= <-]. simpl. auto 10.
  - intros [= <-]. simpl. repeat split; auto. discriminate.
Qed.

(** The conversation a request resolves to: the one it names, untouched,
    or the new one, appended. *)
Lemma resolve_conversation_inv gen userId req msg w convId w0 :
  resolve_conversation gen userId (conversationId req) msg w = (inr convId, w0) ->
  log w0 = log w
  /\ ((names_conversation req = Some convId /\ w0 = w)
      \/ (names_conversation req = None
          /\ convId = new_convId gen
          /\ insert_conversation (at_conversation gen) (new_convId gen) userId
               (substring0 50 msg) (db w) = inr (db w0)
          /\ use_postgres (db w) = false
          /\ use_postgres (db w0) = false)).
Proof.
  unfold resolve_conversation, names_conversation, bind, run, ret, prepare_run.
  destruct (conversationId req) as [[|a r]|].
  - destruct (use_postgres (db w)) eqn:Hlite; [discriminate|].
    destruct (insert_conversation _ _ _ _ (db w)) as [e|d'] eqn:E; [discriminate|].
    intros [= <- <-]. simpl. split; [reflexivity|]. right.
    apply insert_conversation_driver in E. rewrite Hlite in E. auto 10.
  - intros [= <- <-]. split; [reflexivity|]. left. auto.
  - destruct (use_postgres (db w)) eqn:Hlite; [discriminate|].
    destruct (insert_conversation _ _ _ _ (db w)) as [e|d'] eqn:E; [discriminate|].
    intros [= <- <-]. simpl. split; [reflexivity|]. right.
    apply insert_conversation_driver in E. rewrite Hlite in E. auto 10.
Qed.

Lemma resolve_conversation_failed gen userId cid msg w e w0 :
  resolve_conversation gen userId cid msg w = (inl e, w0) -> w0 = w.
Proof.
  unfold resolve_conversation, bind, run, ret, prepare_run.
  destruct cid as [[|a r]|]; try discriminate;
    destruct (use_postgres (db w)); try (now intros [= _ <-]);
    destruct (insert_conversation _ _ _ _ (db w)); try discriminate;
    now intros [= _ <-].
Qed.

Lemma chat_keeps_db env net model msgs sys w r w2 :
  chat env net model msgs sys w = (r, w2) -> db w2 = db w.
Proof.
  intros H. pose proof (AiRouterFacts.chat_db env net model msgs sys w) as Hd.
  now rewrite H in Hd.
Qed.

(** ** The request without a message *)

Lemma post_chat_no_message env net gen userId req w :
  no_message req = true ->
  post_chat env net gen userId req w
    = (inr (status_json 400 (ErrorBody "Message is required")), w).
Proof.
  unfold no_message, post_chat, try_catch.
  destruct (message req) as [[|a r]|]; try discriminate; reflexivity.
Qed.

Lemma has_message req :
  no_message req = false ->
  exists msg, message req = Some msg /\ msg <> EmptyString.
Proof.
  unfold no_message. destruct (message req) as [[|a r]|]; try discriminate.
  intros _. exists (String a r). split; [reflexivity|discriminate].
Qed.

Ltac walk Hm Hne :=
  rewrite (RoutesFacts.post_chat_steps _ _ _ _ _ _ _ Hm Hne);
  let e := fresh "e" in
  destruct (resolve_conversation _ _ _ _ _) as [[e|?convId] ?w0] eqn:?Hres;
  [ | destruct (use_postgres (db _)) eqn:?Hlite;
      [ | destruct (insert_message _ _ _ "user" _ _ _ _ _) as [e|?d1] eqn:?Hins1;
          [ | destruct (chat _ _ _ _ _ _) as [[e|?response] ?w2] eqn:?Hchat;
              [ | destruct (insert_message _ _ _ "assistant" _ _ _ _ _)
                    as [e|?d3] eqn:?Hins3 ] ] ] ].

(** X7.  [POST /api/chat] always answers.  It answers 400 exactly when the
    body has no message or an empty one, and then nothing is stored and
    nothing is sent.  Every answer that is neither the 200 nor that 400 is
    the same 500 with the fixed text [Failed to get AI response]: no
    detail of a storage or vendor failure reaches the caller. *)
Theorem post_chat_answers
    (env : ProcessEnv) (net : Network) (gen : Generated) (userId : string)
    (req : ChatRequest) (w : World) :
  exists resp,
    fst (post_chat env net gen userId req w) = inr resp
    /\ (status resp = 400 <-> no_message req = true)
    /\ (no_message req = true ->
        resp = status_json 400 (ErrorBody "Message is required")
        /\ snd (post_chat env net gen userId req w) = w)
    /\ (status resp <> 200 -> status resp <> 400 -> resp = server_error).
Proof.
  destruct (no_message req) eqn:Hno.
  - rewrite (post_chat_no_message _ _ _ _ _ _ Hno). eexists. split; [reflexivity|].
    simpl. repeat split; auto. congruence.
  - destruct (has_message _ Hno) as (msg & Hm & Hne).
    assert (Hsplit : forall resp : Response,
               status resp = 200 \/ resp = server_error ->
               (status resp = 400 <-> false = true)
               /\ (false = true ->
                   resp = status_json 400 (ErrorBody "Message is required")
                   /\ snd (post_chat env net gen userId req w) = w)
               /\ (status resp <> 200 -> status resp <> 400 -> resp = server_error)).
    { intros resp [H|H].
      - repeat split; try discriminate; try congruence.
      - subst resp. repeat split; try discriminate. }
    revert Hsplit. walk Hm Hne; intros Hsplit; eexists;
      (split; [reflexivity|]); apply Hsplit; simpl; auto.
Qed.

(** ** Everything a request writes *)

Ltac split8 :=
  refine (conj _ (conj _ (conj _ (conj _ (conj _ (conj _ (conj _ _))))))).

(** The rows one request adds to the two tables, with what the engine
    checked before it accepted them. *)
Lemma post_chat_writes env net gen userId req w :
  let d := db w in
  let d' := db (snd (post_chat env net gen userId req w)) in
  exists cs ms,
    users d' = users d
    /\ foreign_keys d' = foreign_keys d
    /\ conversations d' = (conversations d ++ cs)%list
    /\ messages d' = (messages d ++ ms)%list
    /\ (cs = []
        \/ (exists msg, cs = [conversation_row gen userId msg])
           /\ conversation_exists d (new_convId gen) = false
           /\ (foreign_keys d = true -> user_exists d userId = true))
    /\ (ms = []
        \/ (exists m, ms = [m] /\ m_id m = new_userMsgId gen)
        \/ (exists m a, ms = [m; a] /\ m_id m = new_userMsgId gen
                        /\ m_id a = new_assistantMsgId gen
                        /\ m_id m <> m_id a))
    /\ Forall (fun m => ~ In (m_id m) (map m_id (messages d))) ms
    /\ Forall (fun m => foreign_keys d = true ->
                        existsb (fun c => String.eqb (c_id c) (m_conversation_id m))
                                (conversations d ++ cs) = true) ms.
Proof.
  cbv zeta. destruct (no_message req) eqn:Hno.
  { rewrite (post_chat_no_message _ _ _ _ _ _ Hno). simpl.
    exists [], []. rewrite !app_nil_r. split8; auto. }
  destruct (has_message _ Hno) as (msg & Hm & Hne).
  walk Hm Hne.
  - (* the conversation could not be created *)
    apply resolve_conversation_failed in Hres. subst w0. simpl.
    exists [], []. rewrite !app_nil_r. split8; auto.
  - (* the history could not be read *)
    simpl. apply resolve_conversation_inv in Hres. destruct Hres as (_ & Hres).
    destruct Hres as [(_ & ->)|(_ & _ & _ & _ & Hl0)]; [|congruence].
    exists [], []. rewrite !app_nil_r. split8; auto.
  - (* the user message was refused *)
    simpl. apply resolve_conversation_inv in Hres. destruct Hres as (_ & Hres).
    destruct Hres as [(_ & ->)|(_ & _ & Hconv & _)].
    + exists [], []. rewrite !app_nil_r. split8; auto.
    + apply insert_conversation_inv in Hconv.
      destruct Hconv as (Hc & Hms & Hu & Hfk & Hnew & Huser).
      exists [conversation_row gen userId msg], []. rewrite app_nil_r.
      split8;
        [ congruence | congruence | exact Hc | exact Hms
        | right; repeat split; eauto
        | left; reflexivity | constructor | constructor ].
  - (* the dispatch failed *)
    simpl. apply chat_keeps_db in Hchat. simpl in Hchat. rewrite Hchat.
    apply insert_message_inv in Hins1.
    destruct Hins1 as (Hm1 & Hc1 & Hu1 & Hfk1 & Hfresh1 & Hex1).
    apply resolve_conversation_inv in Hres. destruct Hres as (_ & Hres).
    destruct Hres as [(_ & ->)|(_ & _ & Hconv & _)].
    + exists [], [user_row gen convId msg]. rewrite app_nil_r.
      split8;
        [ congruence | congruence | congruence | exact Hm1
        | left; reflexivity
        | right; left; eexists; split; reflexivity
        | constructor; [exact Hfresh1|constructor]
        | constructor; [exact Hex1|constructor] ].
    + apply insert_conversation_inv in Hconv.
      destruct Hconv as (Hc & Hms & Hu & Hfk & Hnew & Huser).
      exists [conversation_row gen userId msg], [user_row gen convId msg].
      split8;
        [ congruence | congruence | rewrite Hc1, Hc; reflexivity
        | rewrite Hm1, Hms; reflexivity
        | right; repeat split; eauto
        | right; left; eexists; split; reflexivity
        | constructor; [rewrite <- Hms; exact Hfresh1|constructor]
        | constructor; [|constructor]; simpl; intros Hon;
          unfold conversation_exists in Hex1; rewrite Hc in Hex1;
          apply Hex1; now rewrite Hfk ].
  - (* the assistant message was refused *)
    simpl. apply chat_keeps_db in Hchat. simpl in Hchat. rewrite Hchat.
    apply insert_message_inv in Hins1.
    destruct Hins1 as (Hm1 & Hc1 & Hu1 & Hfk1 & Hfresh1 & Hex1).
    apply resolve_conversation_inv in Hres. destruct Hres as (_ & Hres).
    destruct Hres as [(_ & ->)|(_ & _ & Hconv & _)].
    + exists [], [user_row gen convId msg]. rewrite app_nil_r.
      split8;
        [ congruence | congruence | congruence | exact Hm1
        | left; reflexivity
        | right; left; eexists; split; reflexivity
        | constructor; [exact Hfresh1|constructor]
        | constructor; [exact Hex1|constructor] ].
    + apply insert_conversation_inv in Hconv.
      destruct Hconv as (Hc & Hms & Hu & Hfk & Hnew & Huser).
      exists [conversation_row gen userId msg], [user_row gen convId msg].
      split8;
        [ congruence | congruence | rewrite Hc1, Hc; reflexivity
        | rewrite Hm1, Hms; reflexivity
        | right; repeat split; eauto
        | right; left; eexists; split; reflexivity
        | constructor; [rewrite <- Hms; exact Hfresh1|constructor]
        | constructor; [|constructor]; simpl; intros Hon;
          unfold conversation_exists in Hex1; rewrite Hc in Hex1;
          apply Hex1; now rewrite Hfk ].
  - (* everything was stored *)
    simpl. apply chat_keeps_db in Hchat. simpl in Hchat.
    apply insert_message_inv in Hins3. rewrite Hchat in Hins3.
    destruct Hins3 as (Hm3 & Hc3 & Hu3 & Hfk3 & Hfresh3 & Hex3).
    apply insert_message_inv in Hins1.
    destruct Hins1 as (Hm1 & Hc1 & Hu1 & Hfk1 & Hfresh1 & Hex1).
    set (a := {| m_id := new_assistantMsgId gen; m_conversation_id := convId;
                 m_role := "assistant"; m_content := result_content response;
                 m_model := Some (result_model response);
                 m_tokens_used := totalTokens (usage response);
                 m_cost := cost (usage response);
                 m_created_at := at_assistant_message gen |}) in *.
    assert (Hdiff : new_userMsgId gen <> new_assistantMsgId gen).
    { intros Heq. apply Hfresh3. rewrite Hm1, map_app. apply in_or_app.
      right. left. exact Heq. }
    assert (Hfresh3' : ~ In (new_assistantMsgId gen) (map m_id (messages (db w0)))).
    { intros Hin. apply Hfresh3. rewrite Hm1, map_app. apply in_or_app. now left. }
    apply resolve_conversation_inv in Hres. destruct Hres as (_ & Hres).
    destruct Hres as [(_ & ->)|(_ & _ & Hconv & _)].
    + exists [], [user_row gen convId msg; a]. rewrite app_nil_r.
      split8;
        [ congruence | congruence | congruence
        | rewrite Hm3, Hm1, <- app_assoc; reflexivity
        | left; reflexivity
        | right; right; exists (user_row gen convId msg), a; repeat split; auto
        | repeat constructor; auto
        | repeat constructor; simpl; exact Hex1 ].
    + apply insert_conversation_inv in Hconv.
      destruct Hconv as (Hc & Hms & Hu & Hfk & Hnew & Huser).
      exists [conversation_row gen userId msg], [user_row gen convId msg; a].
      split8;
        [ congruence | congruence | rewrite Hc3, Hc1, Hc; reflexivity
        | rewrite Hm3, Hm1, Hms, <- app_assoc; reflexivity
        | right; repeat split; eauto
        | right; right; exists (user_row gen convId msg), a; repeat split; auto
        | repeat constructor; simpl; rewrite <- Hms; auto
        | repeat constructor; simpl; intros Hon;
          unfold conversation_exists in Hex1; rewrite Hc in Hex1;
          apply Hex1; now rewrite Hfk ].
Qed.

(** X8.  A request only appends.  Whatever happens to it, the users
    table and the engine setting are as before, the conversations table
    is the old one followed by at most one row, and the messages table is
    the old one followed by at most two rows: no stored row is changed or
    removed. *)
Theorem post_chat_only_appends
    (env : ProcessEnv) (net : Network) (gen : Generated) (userId : string)
    (req : ChatRequest) (w : World) :
  let d := db w in
  let d' := db (snd (post_chat env net gen userId req w)) in
  users d' = users d
  /\ foreign_keys d' = foreign_keys d
  /\ (exists cs, conversations d' = (conversations d ++ cs)%list
                 /\ List.length cs <= 1)
  /\ (exists ms, messages d' = (messages d ++ ms)%list
                 /\ List.length ms <= 2).
Proof.
  cbv zeta.
  destruct (post_chat_writes env net gen userId req w)
    as (cs & ms & Hu & Hfk & Hc & Hm & Hcs & Hms & _ & _).
  split; [exact Hu|]. split; [exact Hfk|]. split.
  - exists cs. split; [exact Hc|].
    destruct Hcs as [->|((msg & ->) & _)]; simpl; lia.
  - exists ms. split; [exact Hm|].
    destruct Hms as [->|[(m & -> & _)|(m & a & -> & _)]]; simpl; lia.
Qed.

Lemma not_exists_not_In {A : Type} (f : A -> string) (id : string) (l : list A) :
  existsb (fun x => String.eqb (f x) id) l = false -> ~ In id (map f l).
Proof.
  intros H Hin. apply in_map_iff in Hin. destruct Hin as (x & Hx & Hin).
  assert (existsb (fun x => String.eqb (f x) id) l = true) as Ht.
  { apply existsb_exists. exists x. split; [exact Hin|]. now apply String.eqb_eq. }
  congruence.
Qed.

(** X9.  A request keeps identifiers unique: in a store where no two
    users, no two conversations and no two messages share an identifier,
    the same holds after the request, whatever identifiers [generateId]
    produced (a colliding insert is refused and answered with the 500). *)
Theorem post_chat_keeps_ids_unique
    (env : ProcessEnv) (net : Network) (gen : Generated) (userId : string)
    (req : ChatRequest) (w : World) :
  unique_ids (db w) ->
  unique_ids (db (snd (post_chat env net gen userId req w))).
Proof.
  intros (Hu0 & Hc0 & Hm0).
  destruct (post_chat_writes env net gen userId req w)
    as (cs & ms & Hu & Hfk & Hc & Hm & Hcs & Hms & Hfresh & _).
  unfold unique_ids. rewrite Hu, Hc, Hm, !map_app.
  split; [exact Hu0|]. split.
  - apply NoDup_app; [exact Hc0| |].
    + destruct Hcs as [->|((msg & ->) & _)]; simpl; repeat constructor; auto.
    + intros id Hold Hnew.
      destruct Hcs as [->|((msg & ->) & Hnone & _)]; [exact Hnew|].
      simpl in Hnew. destruct Hnew as [<-|[]].
      exact (not_exists_not_In c_id _ _ Hnone Hold).
  - apply NoDup_app; [exact Hm0| |].
    + destruct Hms as [->|[(m & -> & _)|(m & a & -> & _ & _ & Hdiff)]];
        simpl; repeat constructor; simpl; auto.
      intros [H|[]]. congruence.
    + intros id Hold Hnew. apply in_map_iff in Hnew.
      destruct Hnew as (m & <- & Hin). rewrite Forall_forall in Hfresh.
      exact (Hfresh m Hin Hold).
Qed.

Lemma post_chat_keeps_ids_unique_witness :
  unique_ids (db (snd (post_chat env_with_keys answering_network fresh "u1"
                         ask_a {| db := store 3; log := [] |}))).
Proof.
  apply (post_chat_keeps_ids_unique env_with_keys answering_network fresh "u1"
           ask_a {| db := store 3; log := [] |}).
  unfold unique_ids. simpl.
  repeat split; repeat constructor; simpl; intuition discriminate.
Defined.

(** X10.  With an engine that enforces foreign keys a request keeps the
    references intact: if every stored message points to a stored
    conversation and every conversation to a stored user, that is still so
    after the request. *)
Theorem post_chat_keeps_references
    (env : ProcessEnv) (net : Network) (gen : Generated) (userId : string)
    (req : ChatRequest) (w : World) :
  foreign_keys (db w) = true ->
  references_hold (db w) ->
  references_hold (db (snd (post_chat env net gen userId req w))).
Proof.
  intros Hon (Hm0 & Hc0).
  destruct (post_chat_writes env net gen userId req w)
    as (cs & ms & Hu & Hfk & Hc & Hm & Hcs & Hms & _ & Hrefs).
  unfold references_hold, conversation_exists, user_exists.
  rewrite Hu, Hc, Hm. split.
  - apply Forall_app. split.
    + eapply Forall_impl; [|exact Hm0]. intros m Hex.
      unfold conversation_exists in Hex. rewrite existsb_app, Hex. reflexivity.
    + eapply Forall_impl; [|exact Hrefs]. intros m Hex. now apply Hex.
  - apply Forall_app. split; [exact Hc0|].
    destruct Hcs as [->|((msg & ->) & _ & Huser)]; constructor; [|constructor].
    simpl. now apply Huser.
Qed.

Lemma post_chat_keeps_references_witness :
  references_hold (db (snd (post_chat env_with_keys answering_network fresh "u1"
                              ask_a {| db := store 3; log := [] |}))).
Proof.
  apply (post_chat_keeps_references env_with_keys answering_network fresh "u1"
           ask_a {| db := store 3; log := [] |}).
  - reflexivity.
  - unfold references_hold. simpl. split; repeat constructor.
Defined.

(** X11.  With an engine that enforces foreign keys, a request that names
    a conversation which does not exist is answered with the 500 and
    leaves no trace: nothing is stored and no adapter is entered. *)
Theorem post_chat_unknown_conversation
    (env : ProcessEnv) (net : Network) (gen : Generated) (userId : string)
    (req : ChatRequest) (w : World) (c : string) :
  foreign_keys (db w) = true ->
  no_message req = false ->
  names_conversation req = Some c ->
  conversation_exists (db w) c = false ->
  post_chat env net gen userId req w = (inr server_error, w).
Proof.
  intros Hon Hno Hc Hnone.
  destruct (has_message _ Hno) as (msg & Hm & Hne).
  rewrite (RoutesFacts.post_chat_steps _ _ _ _ _ _ _ Hm Hne).
  unfold names_conversation in Hc.
  destruct (conversationId req) as [[|a r]|]; try discriminate.
  injection Hc as <-. simpl.
  destruct (use_postgres (db w)); [reflexivity|].
  unfold insert_message. unfold conversation_exists in Hnone.
  rewrite Hon, Hnone. simpl.
  destruct (existsb _ (messages (db w))); reflexivity.
Qed.

Lemma post_chat_unknown_conversation_witness :
  post_chat env_with_keys answering_network fresh "u1"
    {| message := Some "hi"; conversationId := Some "conv_q"; model := None |}
    {| db := store 3; log := [] |}
  = (inr server_error, {| db := store 3; log := [] |}).
Proof.
  apply (post_chat_unknown_conversation env_with_keys answering_network fresh
           "u1" _ {| db := store 3; log := [] |} "conv_q");
    reflexivity.
Defined.

(** X12.  For a request that names its conversation the caller's identity
    plays no part: two callers sending the same request to the same store
    get the same answer and leave the same store and the same calls
    behind.  The handler does not test who owns the conversation it reads
    the history of and appends to. *)
Theorem post_chat_named_ignores_caller
    (env : ProcessEnv) (net : Network) (gen : Generated)
    (caller other : string) (req : ChatRequest) (w : World) (c : string) :
  names_conversation req = Some c ->
  post_chat env net gen caller req w = post_chat env net gen other req w.
Proof.
  unfold names_conversation, post_chat, resolve_conversation.
  destruct (conversationId req) as [[|a r]|]; try discriminate.
  intros _. reflexivity.
Qed.

Lemma post_chat_named_ignores_caller_witness :
  post_chat env_with_keys answering_network fresh "u1" ask_a
    {| db := store 3; log := [] |}
  = post_chat env_with_keys answering_network fresh "u2" ask_a
      {| db := store 3; log := [] |}.
Proof.
  apply (post_chat_named_ignores_caller env_with_keys answering_network fresh
           "u1" "u2" ask_a {| db := store 3; log := [] |} "conv_a").
  reflexivity.
Defined.

(** ** The request that succeeds *)

Lemma post_chat_success_inv env net gen userId req w reply w' :
  post_chat env net gen userId req w = (inr (json (ChatBody reply)), w') ->
  exists msg w0 d1 response w2,
    message req = Some msg /\ msg <> EmptyString
    /\ resolve_conversation gen userId (conversationId req) msg w
       = (inr (reply_conversationId reply), w0)
    /\ insert_message (at_user_message gen) (new_userMsgId gen)
         (reply_conversationId reply) "user" msg None 0 0 (db w0) = inr d1
    /\ chat env net (Some (requested (model req)))
         (getHistory (reply_conversationId reply) (db w0) ++ [user_turn msg])
         system_prompt {| db := d1; log := log w0 |} = (inr response, w2)
    /\ reply = {| reply_message := result_content response;
                  reply_conversationId := reply_conversationId reply;
                  reply_model := result_model response;
                  reply_usage := usage response |}
    /\ messages (db w')
       = (messages (db w0)
          ++ [user_row gen (reply_conversationId reply) msg;
              assistant_row gen reply])%list
    /\ conversations (db w') = conversations (db w0)
    /\ users (db w') = users (db w0)
    /\ log w' = log w2
    /\ use_postgres (db w') = false.
Proof.
  destruct (no_message req) eqn:Hno.
  { rewrite (post_chat_no_message _ _ _ _ _ _ Hno). discriminate. }
  destruct (has_message _ Hno) as (msg & Hm & Hne).
  walk Hm Hne; try discriminate.
  intros H. injection H as Hreply Hw'. subst reply w'. simpl.
  exists msg, w0, d1, response, w2.
  pose proof (chat_keeps_db _ _ _ _ _ _ _ _ Hchat) as Hdb. simpl in Hdb.
  pose proof (insert_message_inv _ _ _ _ _ _ _ _ _ _ Hins1)
    as (Hm1 & Hc1 & Hu1 & _).
  pose proof (insert_message_inv _ _ _ _ _ _ _ _ _ _ Hins3)
    as (Hm3 & Hc3 & Hu3 & _).
  rewrite Hdb in Hm3, Hc3, Hu3.
  assert (Hlite3 : use_postgres d3 = false).
  { apply insert_message_driver in Hins3, Hins1. rewrite Hdb in Hins3.
    congruence. }
  repeat split; auto; try congruence.
  rewrite Hm3, Hm1, <- app_assoc. reflexivity.
Qed.

(** X13.  A request answered with the 200 has stored exactly two rows
    behind the ones that were there, the user's message and then the
    assistant's, both under the conversation the answer names; the
    assistant row carries the text, the vendor model identifier, the total
    token count and the cost that the answer reports.  The conversation is
    the one the request named, or else the one just generated. *)
Theorem post_chat_success_rows
    (env : ProcessEnv) (net : Network) (gen : Generated) (userId : string)
    (req : ChatRequest) (w w' : World) (reply : ChatReply) :
  post_chat env net gen userId req w = (inr (json (ChatBody reply)), w') ->
  exists msg,
    message req = Some msg
    /\ messages (db w')
       = (messages (db w)
          ++ [user_row gen (reply_conversationId reply) msg;
              assistant_row gen reply])%list
    /\ match names_conversation req with
       | Some c =>
           reply_conversationId reply = c
           /\ conversations (db w') = conversations (db w)
       | None =>
           reply_conversationId reply = new_convId gen
           /\ conversations (db w')
              = (conversations (db w) ++ [conversation_row gen userId msg])%list
       end.
Proof.
  intros H. apply post_chat_success_inv in H.
  destruct H as (msg & w0 & d1 & response & w2 & Hm & Hne & Hres & _ & _ & _
                 & Hmsgs & Hconvs & _ & _ & _).
  exists msg. split; [exact Hm|].
  apply resolve_conversation_inv in Hres. destruct Hres as (_ & Hres).
  destruct Hres as [(Hnamed & ->)|(Hnone & Hid & Hconv & _)].
  - rewrite Hnamed. auto.
  - rewrite Hnone. apply insert_conversation_inv in Hconv.
    destruct Hconv as (Hc & Hms & _). rewrite Hmsgs, Hconvs, Hms, Hc. auto.
Qed.

Lemma post_chat_success_rows_witness :
  exists msg,
    message ask_a = Some msg
    /\ messages (db (snd (post_chat env_with_keys answering_network fresh "u1"
                            ask_a {| db := store 3; log := [] |})))
       = (messages (store 3)
          ++ [user_row fresh "conv_a" msg; assistant_row fresh hello_reply])%list
    /\ "conv_a" = "conv_a"
    /\ conversations (db (snd (post_chat env_with_keys answering_network fresh
                                 "u1" ask_a {| db := store 3; log := [] |})))
       = conversations (store 3).
Proof.
  apply (post_chat_success_rows env_with_keys answering_network fresh "u1"
           ask_a {| db := store 3; log := [] |}
           (snd (post_chat env_with_keys answering_network fresh "u1" ask_a
                   {| db := store 3; log := [] |})) hello_reply).
  vm_compute. reflexivity.
Defined.

(** ** A new conversation, written and read back *)

(** [substring(0, n)] keeps [n] code units, or the whole text when it
    has fewer. *)
Lemma substring0_length (s : string) : forall n,
  utf16_length (substring0 n s) = Nat.min n (utf16_length s).
Proof.
  induction s as [|c s IH]; intros n; simpl.
  - now rewrite Nat.min_0_r.
  - unfold utf16_units.
    destruct (Nat.ltb (nat_of_ascii c) 128) eqn:E1.
    { destruct n as [|n]; simpl; [reflexivity|].
      unfold utf16_units. rewrite E1. simpl. now rewrite IH. }
    destruct (Nat.ltb (nat_of_ascii c) 192) eqn:E2.
    { simpl. unfold utf16_units. rewrite E1, E2. simpl. apply IH. }
    destruct (Nat.ltb (nat_of_ascii c) 240) eqn:E3.
    { destruct n as [|n]; simpl; [reflexivity|].
      unfold utf16_units. rewrite E1, E2, E3. simpl. now rewrite IH. }
    destruct n as [|[|n]]; simpl; [reflexivity|reflexivity|].
    unfold utf16_units. rewrite E1, E2, E3. simpl. now rewrite IH.
Qed.

(** A text of at most [n] code units is kept whole. *)
Lemma substring0_short (s : string) : forall n,
  utf16_length s <= n -> substring0 n s = s.
Proof.
  induction s as [|c s IH]; intros n; simpl; [reflexivity|].
  unfold utf16_units.
  destruct (Nat.ltb (nat_of_ascii c) 128).
  { destruct n as [|n]; simpl; [lia|]. intros H. rewrite IH; [reflexivity|lia]. }
  destruct (Nat.ltb (nat_of_ascii c) 192).
  { simpl. intros H. now rewrite IH. }
  destruct (Nat.ltb (nat_of_ascii c) 240).
  { destruct n as [|n]; simpl; [lia|]. intros H. rewrite IH; [reflexivity|lia]. }
  destruct n as [|[|n]]; simpl; try lia.
  intros H. rewrite IH; [reflexivity|lia].
Qed.

(** What is kept is the beginning of the text; a cut inside a surrogate
    pair leaves U+FFFD behind it. *)
Lemma substring0_prefix (s : string) : forall n,
  exists kept rest,
    s = kept ++ rest
    /\ (substring0 n s = kept
        \/ substring0 n s = kept ++ replacement_character).
Proof.
  induction s as [|c s IH]; intros n; simpl.
  - exists EmptyString, EmptyString. auto.
  - assert (Hstop : exists kept rest,
               String c s = kept ++ rest
               /\ (EmptyString = kept
                   \/ EmptyString = kept ++ replacement_character)).
    { exists EmptyString, (String c s). auto. }
    assert (Hcut : exists kept rest,
               String c s = kept ++ rest
               /\ (replacement_character = kept
                   \/ replacement_character = kept ++ replacement_character)).
    { exists EmptyString, (String c s). auto. }
    assert (Hkeep : forall m, exists kept rest,
               String c s = kept ++ rest
               /\ (String c (substring0 m s) = kept
                   \/ String c (substring0 m s) = kept ++ replacement_character)).
    { intros m. destruct (IH m) as (kept & rest & Hs & [Hk|Hk]);
        exists (String c kept), rest; simpl; rewrite <- Hs, Hk; auto. }
    destruct (utf16_units c) as [|[|u]]; [apply Hkeep| |].
    + destruct n as [|n]; [exact Hstop|apply Hkeep].
    + destruct n as [|[|n]]; [exact Hstop|exact Hcut|apply Hkeep].
Qed.

(** On ASCII text a code unit is a byte. *)
Lemma substring0_ascii (s : string) : forall n,
  Forall (fun c => nat_of_ascii c < 128) (list_ascii_of_string s) ->
  substring0 n s = substring 0 n s.
Proof.
  induction s as [|c s IH]; intros n H; simpl.
  - now destruct n.
  - simpl in H. inversion H as [|? ? Hc Hs]; subst.
    unfold utf16_units. apply Nat.ltb_lt in Hc. rewrite Hc.
    destruct n as [|n]; [reflexivity|]. now rewrite IH.
Qed.

(** Sixty Cyrillic letters are cut to fifty letters, which are a hundred
    bytes; forty-nine letters and an emoji are cut inside the emoji. *)
Lemma title_of_cyrillic_message :
  substring0 50 (times 60 cyrillic_de) = times 50 cyrillic_de
  /\ String.length (times 50 cyrillic_de) = 100
  /\ utf16_length (times 60 cyrillic_de) = 60
  /\ substring0 50 (times 49 "a" ++ grinning_face ++ "!")
     = times 49 "a" ++ replacement_character.
Proof. repeat split; vm_compute; reflexivity. Qed.

Lemma find_appended {A : Type} (f : A -> bool) (l : list A) (x : A) :
  (forall y, In y l -> f y = false) ->
  find f (l ++ [x]) = if f x then Some x else None.
Proof.
  induction l as [|y l IH]; simpl; intros H; [reflexivity|].
  rewrite (H y (or_introl eq_refl)). apply IH. intros z Hz. apply H. now right.
Qed.

Lemma no_row_under_fresh_id (d : Database) (id : string) :
  conversation_exists d id = false ->
  forall c, In c (conversations d) -> String.eqb (c_id c) id = false.
Proof.
  unfold conversation_exists. intros H c Hin.
  destruct (String.eqb (c_id c) id) eqn:E; [|reflexivity].
  assert (existsb (fun c0 => String.eqb (c_id c0) id) (conversations d) = true) as Ht.
  { apply existsb_exists. now exists c. }
  congruence.
Qed.

Lemma no_message_under_fresh_id (d : Database) (id : string) :
  references_hold d ->
  conversation_exists d id = false ->
  filter (in_conversation id) (messages d) = [].
Proof.
  intros (Hrefs & _) Hnone. rewrite Forall_forall in Hrefs.
  induction (messages d) as [|m l IH]; simpl; [reflexivity|].
  unfold in_conversation at 1.
  destruct (String.eqb (m_conversation_id m) id) eqn:E.
  - apply String.eqb_eq in E. specialize (Hrefs m (or_introl eq_refl)).
    rewrite E in Hrefs. congruence.
  - apply IH. intros x Hx. apply Hrefs. now right.
Qed.

(** X14.  Round trip through the two endpoints.  A request without
    conversation identifier that is answered with the 200 has created a
    conversation owned by the caller whose title is the first 50 UTF-16
    code units of the message, as JavaScript counts them: the whole
    message when it has at most 50, else the beginning of the message
    (followed by U+FFFD when the cut falls inside a surrogate pair).
    Reading the conversation the answer names then returns this
    conversation with exactly two messages, the user's and the
    assistant's, in this order; any other caller gets the 404.  (The
    store is one whose references are intact, and the second insert is
    not stamped earlier than the first.) *)
Theorem new_conversation_read_back
    (env : ProcessEnv) (net : Network) (gen : Generated) (userId : string)
    (req : ChatRequest) (w w' : World) (reply : ChatReply) :
  names_conversation req = None ->
  references_hold (db w) ->
  (at_user_message gen <= at_assistant_message gen)%Z ->
  post_chat env net gen userId req w = (inr (json (ChatBody reply)), w') ->
  exists msg title,
    message req = Some msg
    /\ utf16_length title = Nat.min 50 (utf16_length msg)
    /\ (utf16_length msg <= 50 -> title = msg)
    /\ (exists kept rest,
          msg = kept ++ rest
          /\ (title = kept \/ title = kept ++ replacement_character))
    /\ getFullConversation (reply_conversationId reply) userId (db w')
       = inr (json (ConversationBody
                      {| c_id := new_convId gen; c_user_id := userId;
                         c_title := Some title;
                         c_created_at := at_conversation gen;
                         c_updated_at := at_conversation gen |}
                      [ {| v_id := new_userMsgId gen; v_role := "user";
                           v_content := msg; v_model := None;
                           v_created_at := at_user_message gen |};
                        {| v_id := new_assistantMsgId gen;
                           v_role := "assistant";
                           v_content := reply_message reply;
                           v_model := Some (reply_model reply);
                           v_created_at := at_assistant_message gen |} ]))
    /\ (forall other, other <> userId ->
        getFullConversation (reply_conversationId reply) other (db w')
        = inr not_found).
Proof.
  intros Hnone Hrefs Hclock H.
  pose proof (post_chat_success_inv _ _ _ _ _ _ _ _ H)
    as (msg & w0 & d1 & response & w2 & Hm & Hne & Hres & _ & _ & _
        & Hmsgs & Hconvs & _ & _ & Hlite).
  apply resolve_conversation_inv in Hres. destruct Hres as (_ & Hres).
  destruct Hres as [(Hnamed & _)|(_ & Hid & Hconv & _)]; [congruence|].
  apply insert_conversation_inv in Hconv.
  destruct Hconv as (Hc & Hms & _ & _ & Hfresh & _).
  exists msg, (substring0 50 msg).
  split; [exact Hm|]. split; [apply substring0_length|].
  split; [apply substring0_short|]. split; [apply substring0_prefix|].
  assert (Hrows : messages_of (reply_conversationId reply) (db w')
                  = [user_row gen (new_convId gen) msg; assistant_row gen reply]).
  { unfold messages_of. rewrite Hmsgs, Hms, filter_app, Hid.
    rewrite (no_message_under_fresh_id _ _ Hrefs Hfresh). simpl.
    unfold in_conversation. simpl. rewrite Hid, String.eqb_refl. simpl.
    unfold asc. simpl. apply Z.leb_le in Hclock. now rewrite Hclock. }
  assert (Hfind : forall who,
             select_conversation (reply_conversationId reply) who (db w')
             = if String.eqb userId who
               then Some (conversation_row gen userId msg) else None).
  { intros who. unfold select_conversation. rewrite Hconvs, Hc, Hid.
    rewrite find_appended.
    - simpl. now rewrite String.eqb_refl.
    - intros y Hy. now rewrite (no_row_under_fresh_id _ _ Hfresh y Hy). }
  split.
  - unfold getFullConversation. rewrite RoutesFacts.get_conversation_run. simpl.
    rewrite Hlite, Hfind, String.eqb_refl. unfold select_messages.
    now rewrite Hrows.
  - intros other Hother. unfold getFullConversation.
    rewrite RoutesFacts.get_conversation_run. simpl. rewrite Hlite, Hfind.
    destruct (String.eqb userId other) eqn:E; [|reflexivity].
    apply String.eqb_eq in E. congruence.
Qed.

Lemma new_conversation_read_back_witness :
  exists msg title,
    message ask_cyrillic = Some msg
    /\ utf16_length title = Nat.min 50 (utf16_length msg)
    /\ (utf16_length msg <= 50 -> title = msg)
    /\ (exists kept rest,
          msg = kept ++ rest
          /\ (title = kept \/ title = kept ++ replacement_character))
    /\ getFullConversation "msg_conv" "u1"
         (db (snd (post_chat env_with_keys answering_network fresh "u1"
                     ask_cyrillic {| db := store 3; log := [] |})))
       = inr (json (ConversationBody
                      {| c_id := "msg_conv"; c_user_id := "u1";
                         c_title := Some title;
                         c_created_at := 300; c_updated_at := 300 |}
                      [ {| v_id := "msg_user"; v_role := "user";
                           v_content := msg; v_model := None;
                           v_created_at := 300 |};
                        {| v_id := "msg_assistant"; v_role := "assistant";
                           v_content := "hello";
                           v_model := Some "claude-3-5-sonnet-20241022";
                           v_created_at := 301 |} ]))
    /\ (forall other, other <> "u1" ->
        getFullConversation "msg_conv" other
          (db (snd (post_chat env_with_keys answering_network fresh "u1"
                      ask_cyrillic {| db := store 3; log := [] |})))
        = inr not_found).
Proof.
  apply (new_conversation_read_back env_with_keys answering_network fresh "u1"
           ask_cyrillic {| db := store 3; log := [] |}
           (snd (post_chat env_with_keys answering_network fresh "u1"
                   ask_cyrillic {| db := store 3; log := [] |})) new_reply).
  - reflexivity.
  - unfold references_hold. simpl. split; repeat constructor.
  - simpl. lia.
  - vm_compute. reflexivity.
Defined.

(** The conversation the sixty Cyrillic letters leave behind carries the
    first fifty of them as its title. *)
Lemma cyrillic_title_stored :
  map c_title
      (conversations
         (db (snd (post_chat env_with_keys answering_network fresh "u1"
                     ask_cyrillic {| db := store 3; log := [] |}))))
  = [ Some "a thread"; Some "a thread"; Some "a thread";
      Some (times 50 cyrillic_de) ].
Proof. vm_compute. reflexivity. Qed.



End ChatHandlerFacts.

(* ================================================================== *)
(** * More on the two read routes *)
(* ================================================================== *)

Module ReadFacts.
Import Db Effects AiRouter Routes Store Integrity Scenario DbFacts.

Section Descending.
Context {A : Type}.
Variable key : A -> Z.

Lemma insert_row_newest_first x l :
  StronglySorted (no_earlier key) l ->
  StronglySorted (no_earlier key) (insert_row (desc key) x l).
Proof.
  induction 1 as [|y l Hl IH Hy]; simpl.
  - repeat constructor.
  - unfold desc at 1. destruct (key y <=? key x)%Z eqn:E.
    + apply Z.leb_le in E. constructor; [now constructor|].
      constructor; [exact E|].
      eapply Forall_impl; [|exact Hy]. unfold no_earlier. intros; lia.
    + apply Z.leb_gt in E. constructor; [exact IH|].
      eapply Permutation_Forall; [symmetry; apply insert_row_perm|].
      constructor; [unfold no_earlier; lia | exact Hy].
Qed.

(** [ORDER BY key DESC] yields the rows newest first. *)
Lemma order_by_newest_first (l : list A) :
  StronglySorted (no_earlier key) (order_by (desc key) l).
Proof.
  induction l as [|x l IH]; simpl; [constructor|].
  now apply insert_row_newest_first.
Qed.

End Descending.

Lemma StronglySorted_firstn_any {A : Type} (R : A -> A -> Prop) n (l : list A) :
  StronglySorted R l -> StronglySorted R (firstn n l).
Proof.
  intros H. revert n. induction H as [|x l Hl IH Hx]; intros [|n]; simpl;
    try constructor.
  - apply IH.
  - rewrite Forall_forall in *. intros y Hy. apply Hx.
    rewrite <- (firstn_skipn n l). apply in_or_app. now left.
Qed.

Lemma StronglySorted_map {A B : Type} (R : A -> A -> Prop) (S : B -> B -> Prop)
    (f : A -> B) (l : list A) :
  (forall a b, R a b -> S (f a) (f b)) ->
  StronglySorted R l -> StronglySorted S (map f l).
Proof.
  intros Hf. induction 1 as [|x l Hl IH Hx]; simpl; constructor; [exact IH|].
  rewrite Forall_forall in *. intros y Hy. apply in_map_iff in Hy.
  destruct Hy as (a & <- & Ha). auto.
Qed.

Lemma get_conversations_run userId w :
  get_conversations userId w =
    if use_postgres (db w) then (inr list_failed, w)
    else (inr (json (ConversationsBody (select_conversations userId (db w)))), w).
Proof.
  unfold get_conversations, try_catch, bind, query, ret, prepare_all.
  destruct (use_postgres (db w)); reflexivity.
Qed.

(** X16.  [GET /api/chat/conversations] leaves the store and the log as
    they were.  On the SQLite branch of the driver it answers 200 with at
    most 50 summaries, each of a conversation the caller owns, newest
    [updated_at] first; when the caller owns at most 50 conversations the
    list holds every one of them, once.  On the PostgreSQL branch its
    statement is rejected and it answers the 500 body
    [Failed to fetch conversations]. *)
Theorem get_conversations_lists_own (userId : string) (w : World) :
  (use_postgres (db w) = true ->
   get_conversations userId w
   = (inr (status_json 500 (ErrorBody "Failed to fetch conversations")), w))
  /\ (use_postgres (db w) = false ->
      exists l,
        get_conversations userId w = (inr (json (ConversationsBody l)), w)
        /\ List.length l <= 50
        /\ (forall s, In s l ->
            exists c, In c (conversations (db w))
                      /\ c_user_id c = userId /\ s = summary c)
        /\ StronglySorted (no_earlier s_updated_at) l
        /\ (List.length (filter (owned_by userId) (conversations (db w))) <= 50 ->
            Permutation l
              (map summary (filter (owned_by userId) (conversations (db w)))))).
Proof.
  rewrite get_conversations_run. split; intros Hdriver; rewrite Hdriver.
  { reflexivity. }
  exists (select_conversations userId (db w)).
  split; [reflexivity|].
  unfold select_conversations.
  change (fun c : ConversationRow => String.eqb (c_user_id c) userId)
    with (owned_by userId).
  change (fun c : ConversationRow =>
            {| s_id := c_id c; s_title := c_title c;
               s_created_at := c_created_at c;
               s_updated_at := c_updated_at c |}) with summary.
  set (mine := filter (owned_by userId) (conversations (db w))).
  split; [rewrite length_map, length_firstn; lia|]. split; [|split].
  - intros s Hs. apply in_map_iff in Hs. destruct Hs as (c & <- & Hc).
    assert (In c (order_by (desc c_updated_at) mine)) as Hin.
    { rewrite <- (firstn_skipn 50 (order_by (desc c_updated_at) mine)).
      apply in_or_app. now left. }
    apply order_by_In in Hin. apply filter_In in Hin. destruct Hin as (Hin & Ho).
    exists c. split; [exact Hin|]. split; [|reflexivity].
    now apply String.eqb_eq in Ho.
  - apply (StronglySorted_map (no_earlier c_updated_at)); [auto|].
    apply StronglySorted_firstn_any, order_by_newest_first.
  - intros Hfew. rewrite firstn_all2 by (rewrite order_by_length; exact Hfew).
    apply Permutation_map, order_by_perm.
Qed.

Lemma get_conversations_lists_own_witness :
  get_conversations "u1" {| db := on_postgres (store 3); log := [] |}
  = (inr (status_json 500 (ErrorBody "Failed to fetch conversations")),
     {| db := on_postgres (store 3); log := [] |})
  /\ exists l,
       get_conversations "u1" {| db := store 3; log := [] |}
       = (inr (json (ConversationsBody l)), {| db := store 3; log := [] |})
       /\ List.length l <= 50
       /\ (forall s, In s l ->
           exists c, In c (conversations (store 3))
                     /\ c_user_id c = "u1" /\ s = summary c)
       /\ StronglySorted (no_earlier s_updated_at) l
       /\ (List.length (filter (owned_by "u1") (conversations (store 3))) <= 50 ->
           Permutation l
             (map summary (filter (owned_by "u1") (conversations (store 3))))).
Proof.
  split.
  - apply (proj1 (get_conversations_lists_own "u1"
                    {| db := on_postgres (store 3); log := [] |})).
    reflexivity.
  - apply (proj2 (get_conversations_lists_own "u1"
                    {| db := store 3; log := [] |})).
    reflexivity.
Defined.

(** The list [u1] gets, written out: [conv_b] before [conv_a], and
    nothing of [u2]. *)
Lemma conversations_of_u1 :
  get_conversations "u1" {| db := store 3; log := [] |}
  = (inr {| status := 200;
            body := ConversationsBody
              [ {| s_id := "conv_b"; s_title := Some "a thread";
                   s_created_at := 200; s_updated_at := 200 |};
                {| s_id := "conv_a"; s_title := Some "a thread";
                   s_created_at := 100; s_updated_at := 100 |} ] |},
     {| db := store 3; log := [] |}).
Proof. reflexivity. Qed.




End ReadFacts.

(* ================================================================== *)
(** * The auth routes: registering and reading a user *)
(* ================================================================== *)

Module RegisterFacts.
Import Db Integrity Scenario AuthRoutes.

Lemma update_user_inv now email name id d d' :
  update_user now email name id d = inr d' ->
  users d' = map (fun u => if String.eqb (u_id u) id
                           then updated now email name u else u) (users d)
  /\ conversations d' = conversations d
  /\ messages d' = messages d
  /\ foreign_keys d' = foreign_keys d
  /\ (user_exists d id = true ->
      forall u, In u (users d) -> u_id u <> id -> u_email u <> email).
Proof.
  unfold update_user, user_exists.
  destruct (existsb (fun u => String.eqb (u_id u) id) (users d)) eqn:Eid; simpl.
  - destruct (existsb (fun u => negb _ && _) (users d)) eqn:Eother;
      [discriminate|].
    intros [= <-]. simpl. repeat split; auto.
    intros _ u Hin Hid Hmail.
    assert (existsb (fun u0 => negb (String.eqb (u_id u0) id)
                               && String.eqb (u_email u0) email) (users d) = true)
      as Ht.
    { apply existsb_exists. exists u. split; [exact Hin|].
      apply andb_true_intro. split.
      - apply negb_true_iff. now apply String.eqb_neq.
      - now apply String.eqb_eq. }
    congruence.
  - intros [= <-]. simpl. repeat split; auto. discriminate.
Qed.

Lemma insert_user_inv now id email name d d' :
  insert_user now id email name d = inr d' ->
  users d' =
    (users d ++ [ {| u_id := id; u_email := email; u_name := name;
                     u_plan := "free"; u_stripe_customer_id := None;
                     u_created_at := now; u_updated_at := now |} ])%list
  /\ conversations d' = conversations d
  /\ messages d' = messages d
  /\ foreign_keys d' = foreign_keys d
  /\ ~ In id (map u_id (users d))
  /\ ~ In email (map u_email (users d)).
Proof.
  unfold insert_user.
  destruct (existsb (fun u => String.eqb (u_id u) id) (users d)) eqn:Eid;
    [discriminate|].
  destruct (existsb (fun u => String.eqb (u_email u) email) (users d)) eqn:Email;
    [discriminate|].
  intros [= <-]. simpl. repeat split; auto.
  - exact (ChatHandlerFacts.not_exists_not_In u_id _ _ Eid).
  - exact (ChatHandlerFacts.not_exists_not_In u_email _ _ Email).
Qed.

Lemma update_user_driver now email name id d d' :
  update_user now email name id d = inr d' -> use_postgres d' = use_postgres d.
Proof.
  unfold update_user.
  destruct (existsb _ (users d) && existsb _ (users d)); [discriminate|].
  now intros [= <-].
Qed.

Lemma insert_user_driver now id email name d d' :
  insert_user now id email name d = inr d' -> use_postgres d' = use_postgres d.
Proof.
  unfold insert_user.
  destruct (existsb (fun u => String.eqb (u_id u) id) (users d));
    [discriminate|].
  destruct (existsb (fun u => String.eqb (u_email u) email) (users d));
    [discriminate|].
  now intros [= <-].
Qed.

(** What a registration that is answered with the 200 did. *)
Lemma post_register_success_inv now req d r d' :
  post_register now req d = (r, d') -> status r = 200 ->
  exists id email,
    present (reg_id req) = Some id /\ present (reg_email req) = Some email
    /\ use_postgres d = false /\ use_postgres d' = false
    /\ ((exists u, select_user id d = Some u
                   /\ update_user now email (reg_name req) id d = inr d')
        \/ (select_user id d = None
            /\ insert_user now id email (reg_name req) d = inr d')).
Proof.
  unfold post_register, present, prepare_all, prepare_run.
  destruct (reg_id req) as [[|a i]|]; try (intros [= <- _]; discriminate).
  destruct (reg_email req) as [[|b e]|]; try (intros [= <- _]; discriminate).
  destruct (use_postgres d) eqn:Hlite; [intros [= <- _]; discriminate|].
  destruct (select_user (String a i) d) as [u|] eqn:Hsel.
  - destruct (update_user now (String b e) (reg_name req) (String a i) d)
      as [v|d1] eqn:Hupd; [intros [= <- _]; discriminate|].
    intros [= <- <-] _. exists (String a i), (String b e).
    pose proof (update_user_driver _ _ _ _ _ _ Hupd) as Hd1.
    rewrite Hlite in Hd1. repeat split; auto. left. now exists u.
  - destruct (insert_user now (String a i) (String b e) (reg_name req) d)
      as [v|d1] eqn:Hins; [intros [= <- _]; discriminate|].
    intros [= <- <-] _. exists (String a i), (String b e).
    pose proof (insert_user_driver _ _ _ _ _ _ Hins) as Hd1.
    rewrite Hlite in Hd1. repeat split; auto.
Qed.

Lemma post_register_answers_frame now req d :
  status (fst (post_register now req d)) <> 200 ->
  snd (post_register now req d) = d.
Proof.
  unfold post_register, prepare_all, prepare_run.
  destruct (reg_id req) as [[|a i]|]; try reflexivity.
  destruct (reg_email req) as [[|b e]|]; try reflexivity.
  destruct (use_postgres d); [reflexivity|].
  destruct (select_user (String a i) d).
  - destruct (update_user now (String b e) (reg_name req) (String a i) d);
      simpl; [reflexivity|congruence].
  - destruct (insert_user now (String a i) (String b e) (reg_name req) d);
      simpl; [reflexivity|congruence].
Qed.

(** X18.  [POST /api/auth/register] answers 400 exactly when the body has
    no [id] or no [email] (missing or empty), and otherwise 200 or 500.
    Unless the answer is the 200 the store is left exactly as it was. *)
Theorem post_register_answers
    (now : Timestamp) (req : RegisterRequest) (d : Database) :
  let r := fst (post_register now req d) in
  let d' := snd (post_register now req d) in
  (status r = 400 <->
   present (reg_id req) = None \/ present (reg_email req) = None)
  /\ (status r = 200 \/ status r = 400 \/ status r = 500)
  /\ (status r <> 200 -> d' = d).
Proof.
  cbv zeta. unfold post_register, present, prepare_all, prepare_run.
  destruct (reg_id req) as [[|a i]|]; simpl;
    try (repeat split; auto; intros; discriminate).
  destruct (reg_email req) as [[|b e]|]; simpl;
    try (repeat split; auto; intros; discriminate).
  destruct (use_postgres d).
  { simpl. split; [split; [discriminate|intros [H|H]; discriminate]|].
    split; auto. }
  destruct (select_user (String a i) d) as [u|].
  - destruct (update_user now (String b e) (reg_name req) (String a i) d);
      simpl;
      (split; [split; [discriminate|intros [H|H]; discriminate]|]);
      split; auto; congruence.
  - destruct (insert_user now (String a i) (String b e) (reg_name req) d);
      simpl;
      (split; [split; [discriminate|intros [H|H]; discriminate]|]);
      split; auto; congruence.
Qed.

Lemma find_over_app {A : Type} (f : A -> bool) (l1 l2 : list A) :
  find f (l1 ++ l2)
  = match find f l1 with
    | Some x => Some x
    | None => find f l2
    end.
Proof.
  induction l1 as [|x l1 IH]; simpl; [reflexivity|]. now destruct (f x).
Qed.

Lemma find_updated now email name id (l : list UserRow) (who : string) :
  find (fun u => String.eqb (u_id u) who)
       (map (fun u => if String.eqb (u_id u) id
                      then updated now email name u else u) l)
  = match find (fun u => String.eqb (u_id u) who) l with
    | Some u => Some (if String.eqb (u_id u) id
                      then updated now email name u else u)
    | None => None
    end.
Proof.
  induction l as [|u l IH]; simpl; [reflexivity|].
  destruct (String.eqb (u_id u) id) eqn:Eid; unfold updated at 1; simpl;
    destruct (String.eqb (u_id u) who) eqn:Ewho; simpl;
    rewrite ?Eid; auto.
Qed.

Lemma get_me_sqlite userId d :
  use_postgres d = false ->
  get_me userId d
  = match select_user userId d with
    | Some u => json (ProfileBody (profile u))
    | None => status_json 404 (ErrorBody "User not found")
    end.
Proof. unfold get_me, prepare_all. now intros ->. Qed.

(** X19.  Registering and reading back.  After a registration answered
    with the 200, [GET /api/auth/me] for the registered identifier
    answers 200 with the [email] and [name] of the request; the plan is
    ['free'] and the creation time the time of the request for a new user,
    and both are what they were for a user who was already stored.  For
    every other identifier [GET /api/auth/me] answers as before. *)
Theorem register_then_me
    (now : Timestamp) (req : RegisterRequest) (d d' : Database) (r : Response) :
  post_register now req d = (r, d') -> status r = 200 ->
  exists id email,
    present (reg_id req) = Some id /\ present (reg_email req) = Some email
    /\ get_me id d'
       = json (ProfileBody
                 {| p_id := id; p_email := email; p_name := reg_name req;
                    p_plan := match select_user id d with
                              | Some u => u_plan u
                              | None => "free"
                              end;
                    p_created_at := match select_user id d with
                                    | Some u => u_created_at u
                                    | None => now
                                    end |})
    /\ (forall other, other <> id -> get_me other d' = get_me other d).
Proof.
  intros H Hok. apply post_register_success_inv in H; [|exact Hok].
  destruct H as (id & email & Hid & Hemail & Hlite & Hlite' & Hdone).
  exists id, email. split; [exact Hid|]. split; [exact Hemail|].
  rewrite (get_me_sqlite _ _ Hlite').
  destruct Hdone as [(u & Hsel & Hupd)|(Hsel & Hins)].
  - apply update_user_inv in Hupd. destruct Hupd as (Hu & _).
    unfold select_user in *. rewrite Hu. split.
    + rewrite find_updated, Hsel. apply find_some in Hsel.
      destruct Hsel as (_ & Heq). rewrite Heq. apply String.eqb_eq in Heq.
      unfold profile, updated. simpl. now rewrite Heq.
    + intros other Hother.
      rewrite (get_me_sqlite _ _ Hlite'), (get_me_sqlite _ _ Hlite).
      unfold select_user. rewrite Hu, find_updated.
      destruct (find (fun u0 => String.eqb (u_id u0) other) (users d))
        as [v|] eqn:Hv; [|reflexivity].
      apply find_some in Hv. destruct Hv as (_ & Heq).
      apply String.eqb_eq in Heq.
      destruct (String.eqb (u_id v) id) eqn:E; [|reflexivity].
      apply String.eqb_eq in E. congruence.
  - apply insert_user_inv in Hins. destruct Hins as (Hu & _).
    unfold select_user in *. rewrite Hu. split.
    + rewrite ChatHandlerFacts.find_appended.
      * simpl. rewrite String.eqb_refl, Hsel. reflexivity.
      * intros y Hy. exact (find_none _ _ Hsel y Hy).
    + intros other Hother.
      rewrite (get_me_sqlite _ _ Hlite'), (get_me_sqlite _ _ Hlite).
      unfold select_user. rewrite Hu, find_over_app.
      destruct (find (fun u0 => String.eqb (u_id u0) other) (users d));
        [reflexivity|]. simpl.
      destruct (String.eqb id other) eqn:E; [|reflexivity].
      apply String.eqb_eq in E. congruence.
Qed.

Lemma register_then_me_witness :
  exists id email,
    present (reg_id {| reg_id := Some "u1"; reg_email := Some "new@example.org";
                       reg_name := Some "Ann" |}) = Some id
    /\ present (reg_email {| reg_id := Some "u1";
                             reg_email := Some "new@example.org";
                             reg_name := Some "Ann" |}) = Some email
    /\ get_me id (snd (post_register 400
                         {| reg_id := Some "u1";
                            reg_email := Some "new@example.org";
                            reg_name := Some "Ann" |} (store 0)))
       = json (ProfileBody
                 {| p_id := id; p_email := email; p_name := Some "Ann";
                    p_plan := match select_user id (store 0) with
                              | Some u => u_plan u
                              | None => "free"
                              end;
                    p_created_at := match select_user id (store 0) with
                                    | Some u => u_created_at u
                                    | None => 400%Z
                                    end |})
    /\ (forall other, other <> id ->
        get_me other (snd (post_register 400
                             {| reg_id := Some "u1";
                                reg_email := Some "new@example.org";
                                reg_name := Some "Ann" |} (store 0)))
        = get_me other (store 0)).
Proof.
  apply (register_then_me 400
           {| reg_id := Some "u1"; reg_email := Some "new@example.org";
              reg_name := Some "Ann" |}
           (store 0)
           (snd (post_register 400
                   {| reg_id := Some "u1"; reg_email := Some "new@example.org";
                      reg_name := Some "Ann" |} (store 0)))
           (json SuccessBody)).
  - reflexivity.
  - reflexivity.
Defined.

(** ** The constraints of the users table *)

Lemma updated_ids now email name id (l : list UserRow) :
  map u_id (map (fun u => if String.eqb (u_id u) id
                          then updated now email name u else u) l)
  = map u_id l.
Proof.
  induction l as [|u l IH]; simpl; [reflexivity|]. rewrite IH.
  now destruct (String.eqb (u_id u) id).
Qed.

Lemma updated_email_In now email name id (l : list UserRow) e :
  In e (map u_email
          (map (fun u => if String.eqb (u_id u) id
                         then updated now email name u else u) l)) ->
  exists v, In v l
            /\ e = if String.eqb (u_id v) id then email else u_email v.
Proof.
  rewrite map_map. intros H. apply in_map_iff in H.
  destruct H as (v & <- & Hv). exists v. split; [exact Hv|].
  now destruct (String.eqb (u_id v) id).
Qed.

Lemma updated_emails_unique now email name id (l : list UserRow) :
  NoDup (map u_id l) ->
  NoDup (map u_email l) ->
  (forall u, In u l -> u_id u <> id -> u_email u <> email) ->
  NoDup (map u_email
           (map (fun u => if String.eqb (u_id u) id
                          then updated now email name u else u) l)).
Proof.
  induction l as [|u l IH]; simpl; intros Hids Hmails Hother; [constructor|].
  inversion Hids as [|? ? Hid_new Hids']; subst.
  inversion Hmails as [|? ? Hmail_new Hmails']; subst.
  constructor.
  - intros Hin. apply updated_email_In in Hin. destruct Hin as (v & Hv & He).
    destruct (String.eqb (u_id u) id) eqn:Eu; simpl in He.
    + apply String.eqb_eq in Eu.
      destruct (String.eqb (u_id v) id) eqn:Ev.
      * apply String.eqb_eq in Ev. apply Hid_new. rewrite Eu, <- Ev.
        now apply in_map.
      * apply String.eqb_neq in Ev.
        exact (Hother v (or_intror Hv) Ev (eq_sym He)).
    + apply String.eqb_neq in Eu.
      destruct (String.eqb (u_id v) id) eqn:Ev.
      * exact (Hother u (or_introl eq_refl) Eu He).
      * apply Hmail_new. rewrite He. now apply in_map.
  - apply IH; auto.
Qed.

(** X20.  A registration keeps the constraints of the users table: in a
    store where identifiers are unique and no two users share an email,
    both still hold afterwards, whether the request inserted a user,
    updated one, or was refused.  The conversations and the messages are
    not touched. *)
Theorem post_register_keeps_constraints
    (now : Timestamp) (req : RegisterRequest) (d : Database) :
  unique_ids d -> unique_emails d ->
  let d' := snd (post_register now req d) in
  unique_ids d' /\ unique_emails d'
  /\ conversations d' = conversations d
  /\ messages d' = messages d.
Proof.
  intros (Hu & Hc & Hm) He. cbv zeta.
  destruct (post_register now req d) as [r d'] eqn:Hrun. simpl.
  destruct (Nat.eq_dec (status r) 200) as [Hok|Hno].
  - apply post_register_success_inv in Hrun; [|exact Hok].
    destruct Hrun as (id & email & _ & _ & _ & _ & Hdone).
    destruct Hdone as [(u & Hsel & Hupd)|(Hsel & Hins)].
    + apply update_user_inv in Hupd.
      destruct Hupd as (Hus & Hcs & Hms & _ & Hother).
      unfold unique_ids, unique_emails. rewrite Hus, Hcs, Hms, updated_ids.
      repeat split; auto. apply updated_emails_unique; auto.
      apply Hother. unfold user_exists. apply existsb_exists.
      unfold select_user in Hsel. apply find_some in Hsel. now exists u.
    + apply insert_user_inv in Hins.
      destruct Hins as (Hus & Hcs & Hms & _ & Hid & Hmail).
      unfold unique_ids, unique_emails. rewrite Hus, Hcs, Hms, !map_app.
      repeat split; auto.
      * apply NoDup_app; [exact Hu|repeat constructor; auto|].
        intros x Hx [<-|[]]. exact (Hid Hx).
      * apply NoDup_app; [exact He|repeat constructor; auto|].
        intros x Hx [<-|[]]. exact (Hmail Hx).
  - pose proof (post_register_answers_frame now req d) as Hframe.
    rewrite Hrun in Hframe. simpl in Hframe. rewrite (Hframe Hno).
    repeat split; auto.
Qed.

Lemma post_register_keeps_constraints_witness :
  let d' := snd (post_register 400
                   {| reg_id := Some "u3"; reg_email := Some "u3@example.org";
                      reg_name := None |} (store 0)) in
  unique_ids d' /\ unique_emails d'
  /\ conversations d' = conversations (store 0)
  /\ messages d' = messages (store 0).
Proof.
  apply (post_register_keeps_constraints 400
           {| reg_id := Some "u3"; reg_email := Some "u3@example.org";
              reg_name := None |} (store 0)).
  - unfold unique_ids. simpl.
    repeat split; repeat constructor; simpl; intuition discriminate.
  - unfold unique_emails. simpl.
    repeat constructor; simpl; intuition discriminate.
Defined.

End RegisterFacts.

(* ================================================================== *)
(** * The Stripe routes: checkout and portal *)
(* ================================================================== *)

Module StripeFacts.
Import Db Integrity Scenario StripeRoutes.

Lemma valid_price_plan env plan pid :
  valid_price env plan = Some pid ->
  exists p cfg, plan = Some p /\ In p plan_names
                /\ get_prop p (PLANS env) = Some cfg
                /\ priceId cfg = Some pid /\ pid <> EmptyString.
Proof.
  unfold valid_price. destruct plan as [p|]; [|discriminate].
  destruct (get_prop p (PLANS env)) as [cfg|] eqn:Hcfg; [|discriminate].
  destruct (priceId cfg) as [[|a r]|] eqn:Hp; try discriminate.
  intros [= <-]. exists p, cfg. repeat split; auto; [|discriminate].
  apply AiRouterFacts.get_prop_In in Hcfg. unfold PLANS in Hcfg. simpl in Hcfg.
  unfold plan_names. simpl.
  destruct Hcfg as [H|[H|[H|[]]]]; inversion H; auto.
Qed.

Lemma create_session_calls env api userId cust pid plan d made :
  calls (create_session env api userId cust pid plan d made)
    = (made ++ [CreateCheckout (checkout_request env userId cust pid plan)])%list
  /\ store_after (create_session env api userId cust pid plan d made) = d.
Proof.
  unfold create_session. destruct (checkout_sessions_create api _); auto.
Qed.

(** ** The two handlers on each branch of the driver *)

Lemma post_create_checkout_sqlite env api userId plan d :
  use_postgres d = false ->
  post_create_checkout env api userId plan d
  = if negb (stripe env) then
      {| answer := status_json 500 (ErrorBody "Stripe not configured");
         store_after := d; calls := [] |}
    else
      match valid_price env plan, plan with
      | Some priceId, Some planName =>
          match known_customer userId d with
          | Some customerId =>
              create_session env api userId customerId priceId planName d []
          | None =>
              let request :=
                {| customer_email := option_map u_email (select_user userId d);
                   customer_userId := userId |} in
              match customers_create api request with
              | inr customerId =>
                  create_session env api userId customerId priceId planName
                    (set_customer customerId userId d) [CreateCustomer request]
              | inl _ =>
                  {| answer := checkout_failed; store_after := d;
                     calls := [CreateCustomer request] |}
              end
          end
      | _, _ =>
          {| answer := status_json 400 (ErrorBody "Invalid plan");
             store_after := d; calls := [] |}
      end.
Proof.
  intros Hlite.
  unfold post_create_checkout, known_customer, prepare_all, prepare_run.
  rewrite Hlite. reflexivity.
Qed.

Lemma post_create_checkout_postgres env api userId plan d pid :
  use_postgres d = true ->
  stripe env = true ->
  valid_price env plan = Some pid ->
  post_create_checkout env api userId plan d
  = {| answer := checkout_failed; store_after := d; calls := [] |}.
Proof.
  intros Hpg Hkey Hvalid. unfold post_create_checkout, prepare_all.
  rewrite Hkey, Hvalid, Hpg. simpl.
  destruct (valid_price_plan _ _ _ Hvalid) as (p & cfg & -> & _). reflexivity.
Qed.


Lemma post_create_portal_postgres env api userId d :
  use_postgres d = true ->
  stripe env = true ->
  post_create_portal env api userId d
  = {| answer := portal_failed; store_after := d; calls := [] |}.
Proof.
  intros Hpg Hkey. unfold post_create_portal, prepare_all.
  rewrite Hkey, Hpg. reflexivity.
Qed.


(** X22.  A caller whose row holds a customer identifier is not
    registered with Stripe again, and the store is left as it was.  On the
    SQLite branch of the driver the checkout makes exactly one call, the
    checkout session for that customer at the plan's price.  On the
    PostgreSQL branch the row cannot be read: the answer is the 500 body
    [Failed to create checkout session] and nothing is sent. *)
Theorem checkout_reuses_customer
    (env : StripeEnv) (api : StripeApi) (userId : string)
    (plan : option string) (d : Database) (pid cust : string) :
  stripe env = true ->
  valid_price env plan = Some pid ->
  known_customer userId d = Some cust ->
  let o := post_create_checkout env api userId plan d in
  store_after o = d
  /\ (use_postgres d = false ->
      exists r, calls o = [CreateCheckout r]
                /\ checkout_customer r = cust /\ checkout_price r = pid)
  /\ (use_postgres d = true ->
      answer o = status_json 500 (ErrorBody "Failed to create checkout session")
      /\ calls o = []).
Proof.
  intros Hkey Hvalid Hcust. cbv zeta.
  destruct (use_postgres d) eqn:Hdriver.
  { rewrite (post_create_checkout_postgres _ _ _ _ _ _ Hdriver Hkey Hvalid).
    simpl. repeat split; auto. discriminate. }
  rewrite (post_create_checkout_sqlite _ _ _ _ _ Hdriver).
  rewrite Hkey, Hvalid, Hcust. simpl.
  destruct (valid_price_plan _ _ _ Hvalid) as (p & cfg & -> & _).
  destruct (create_session_calls env api userId cust pid p d []) as (Hc & Hs).
  rewrite Hc, Hs. split; [reflexivity|]. split; [|discriminate].
  intros _. eexists. split; [reflexivity|]. auto.
Qed.

Lemma known_customer_set cust userId d u :
  select_user userId d = Some u -> cust <> EmptyString ->
  known_customer userId (set_customer cust userId d) = Some cust.
Proof.
  unfold known_customer, select_user, set_customer. simpl. intros Hsel Hne.
  induction (users d) as [|v l IH]; simpl in *; [discriminate|].
  destruct (String.eqb (u_id v) userId) eqn:E; simpl.
  - rewrite E. simpl. destruct cust; [congruence|reflexivity].
  - rewrite E. now apply IH.
Qed.

Lemma select_user_set cust userId d who :
  option_map AuthRoutes.profile (select_user who (set_customer cust userId d))
  = option_map AuthRoutes.profile (select_user who d).
Proof.
  unfold select_user, set_customer. simpl.
  induction (users d) as [|v l IH]; simpl; [reflexivity|].
  destruct (String.eqb (u_id v) userId); simpl;
    destruct (String.eqb (u_id v) who); auto.
Qed.

(** X23.  On the SQLite branch of the driver the first checkout of a
    registered caller without customer identifier registers the caller
    with Stripe, passing the stored email, and stores the identifier
    Stripe returns, also when the checkout session then fails.  From then
    on the caller's checkouts make no further registration, and
    [GET /api/auth/me] answers for every user as it did before.  On the
    PostgreSQL branch the checkout is answered with the 500 body
    [Failed to create checkout session]: nobody is registered and nothing
    is stored. *)
Theorem first_checkout_stores_customer
    (env : StripeEnv) (api : StripeApi) (userId : string)
    (plan : option string) (d : Database) (pid cust : string) (u : UserRow) :
  stripe env = true ->
  valid_price env plan = Some pid ->
  select_user userId d = Some u ->
  known_customer userId d = None ->
  customers_create api {| customer_email := Some (u_email u);
                          customer_userId := userId |} = inr cust ->
  cust <> EmptyString ->
  let o := post_create_checkout env api userId plan d in
  (use_postgres d = false ->
   known_customer userId (store_after o) = Some cust
   /\ filter is_customer_call (calls o)
      = [ CreateCustomer {| customer_email := Some (u_email u);
                            customer_userId := userId |} ]
   /\ (forall api' plan',
         filter is_customer_call
           (calls (post_create_checkout env api' userId plan' (store_after o)))
         = [])
   /\ (forall who, AuthRoutes.get_me who (store_after o)
                   = AuthRoutes.get_me who d))
  /\ (use_postgres d = true ->
      o = {| answer := status_json 500
                         (ErrorBody "Failed to create checkout session");
             store_after := d; calls := [] |}).
Proof.
  intros Hkey Hvalid Hsel Hnone Hcreate Hne. cbv zeta.
  split; intros Hdriver;
    [|exact (post_create_checkout_postgres _ _ _ _ _ _ Hdriver Hkey Hvalid)].
  assert (Hrun : store_after (post_create_checkout env api userId plan d)
                 = set_customer cust userId d
                 /\ filter is_customer_call
                      (calls (post_create_checkout env api userId plan d))
                    = [ CreateCustomer {| customer_email := Some (u_email u);
                                          customer_userId := userId |} ]).
  { rewrite (post_create_checkout_sqlite _ _ _ _ _ Hdriver).
    rewrite Hkey, Hvalid, Hnone, Hsel. simpl.
    destruct (valid_price_plan _ _ _ Hvalid) as (p & cfg & -> & _).
    rewrite Hcreate.
    destruct (create_session_calls env api userId cust pid p
                (set_customer cust userId d)
                [CreateCustomer {| customer_email := Some (u_email u);
                                   customer_userId := userId |}]) as (Hc & Hs).
    rewrite Hc, Hs. split; reflexivity. }
  destruct Hrun as (Hstore & Hcalls). rewrite Hstore.
  pose proof (known_customer_set cust userId d u Hsel Hne) as Hknown.
  assert (Hdriver' : use_postgres (set_customer cust userId d) = false)
    by exact Hdriver.
  split; [exact Hknown|]. split; [exact Hcalls|]. split.
  - intros api' plan'.
    rewrite (post_create_checkout_sqlite _ _ _ _ _ Hdriver'), Hkey, Hknown.
    simpl.
    destruct (valid_price env plan') as [pid'|]; [|now destruct plan'].
    destruct plan' as [p'|]; [|reflexivity].
    destruct (create_session_calls env api' userId cust pid' p'
                (set_customer cust userId d) []) as (Hc & _).
    rewrite Hc. reflexivity.
  - intros who.
    rewrite (RegisterFacts.get_me_sqlite _ _ Hdriver').
    rewrite (RegisterFacts.get_me_sqlite _ _ Hdriver).
    pose proof (select_user_set cust userId d who) as H.
    destruct (select_user who (set_customer cust userId d)) as [a|];
      destruct (select_user who d) as [b|]; cbn [option_map] in H;
      try discriminate; [|reflexivity].
    congruence.
Qed.

(** X24.  On the SQLite branch of the driver a caller without a row in
    the users table is registered with Stripe at every checkout: the
    registration is sent without an email, and since the update that would
    store the new customer identifier matches no row, the store is left as
    it was.  On the PostgreSQL branch the checkout is answered with the
    500 body [Failed to create checkout session] and nothing is sent. *)
Theorem checkout_of_unknown_user_stores_nothing
    (env : StripeEnv) (api : StripeApi) (userId : string)
    (plan : option string) (d : Database) (pid : string) :
  stripe env = true ->
  valid_price env plan = Some pid ->
  select_user userId d = None ->
  let o := post_create_checkout env api userId plan d in
  store_after o = d
  /\ (use_postgres d = false ->
      filter is_customer_call (calls o)
      = [ CreateCustomer {| customer_email := None;
                            customer_userId := userId |} ])
  /\ (use_postgres d = true ->
      answer o = status_json 500 (ErrorBody "Failed to create checkout session")
      /\ calls o = []).
Proof.
  intros Hkey Hvalid Hsel. cbv zeta.
  destruct (use_postgres d) eqn:Hdriver.
  { rewrite (post_create_checkout_postgres _ _ _ _ _ _ Hdriver Hkey Hvalid).
    simpl. repeat split; auto. discriminate. }
  assert (Hset : forall cust, set_customer cust userId d = d).
  { intros cust. unfold set_customer. destruct d as [pg fk us cs ms]. simpl.
    f_equal. unfold select_user in Hsel. simpl in Hsel.
    induction us as [|v l IH]; simpl in *; [reflexivity|].
    destruct (String.eqb (u_id v) userId); [discriminate|].
    now rewrite IH. }
  rewrite (post_create_checkout_sqlite _ _ _ _ _ Hdriver).
  unfold known_customer. rewrite Hkey, Hvalid, Hsel. simpl.
  destruct (valid_price_plan _ _ _ Hvalid) as (p & cfg & -> & _).
  destruct (customers_create api _) as [e|cust]; simpl.
  { repeat split; auto; discriminate. }
  destruct (create_session_calls env api userId cust pid p
              (set_customer cust userId d)
              [CreateCustomer {| customer_email := None;
                                 customer_userId := userId |}]) as (Hc & Hs).
  rewrite Hc, Hs, Hset. repeat split; auto; discriminate.
Qed.


Lemma checkout_reuses_customer_witness :
  let o := post_create_checkout billing_env billing_api "u1" (Some "pro")
             store_with_customer in
  let o' := post_create_checkout billing_env billing_api "u1" (Some "pro")
              (on_postgres store_with_customer) in
  (store_after o = store_with_customer
   /\ exists r, calls o = [CreateCheckout r]
                /\ checkout_customer r = "cus_9"
                /\ checkout_price r = "price_pro")
  /\ (store_after o' = on_postgres store_with_customer
      /\ answer o'
         = status_json 500 (ErrorBody "Failed to create checkout session")
      /\ calls o' = []).
Proof.
  cbv zeta. split.
  - destruct (checkout_reuses_customer billing_env billing_api "u1"
                (Some "pro") store_with_customer "price_pro" "cus_9"
                eq_refl eq_refl eq_refl) as (Hs & Hlite & _).
    split; [exact Hs | exact (Hlite eq_refl)].
  - destruct (checkout_reuses_customer billing_env billing_api "u1"
                (Some "pro") (on_postgres store_with_customer)
                "price_pro" "cus_9" eq_refl eq_refl eq_refl) as (Hs & _ & Hpg).
    split; [exact Hs | exact (Hpg eq_refl)].
Defined.

Lemma first_checkout_stores_customer_witness :
  let o := post_create_checkout billing_env billing_api "u1" (Some "starter")
             (store 0) in
  let o' := post_create_checkout billing_env billing_api "u1" (Some "starter")
              (on_postgres (store 0)) in
  (known_customer "u1" (store_after o) = Some "cus_1"
   /\ filter is_customer_call (calls o)
      = [ CreateCustomer {| customer_email := Some "u1@example.org";
                            customer_userId := "u1" |} ]
   /\ (forall api' plan',
         filter is_customer_call
           (calls (post_create_checkout billing_env api' "u1" plan'
                     (store_after o)))
         = [])
   /\ (forall who, AuthRoutes.get_me who (store_after o)
                   = AuthRoutes.get_me who (store 0)))
  /\ o' = {| answer := status_json 500
                         (ErrorBody "Failed to create checkout session");
             store_after := on_postgres (store 0); calls := [] |}.
Proof.
  cbv zeta. split.
  - apply (proj1 (first_checkout_stores_customer billing_env billing_api "u1"
                    (Some "starter") (store 0) "price_starter" "cus_1"
                    (user "u1") eq_refl eq_refl eq_refl eq_refl eq_refl
                    ltac:(discriminate))).
    reflexivity.
  - apply (proj2 (first_checkout_stores_customer billing_env billing_api "u1"
                    (Some "starter") (on_postgres (store 0)) "price_starter"
                    "cus_1" (user "u1") eq_refl eq_refl eq_refl eq_refl eq_refl
                    ltac:(discriminate))).
    reflexivity.
Defined.

Lemma checkout_of_unknown_user_stores_nothing_witness :
  let o := post_create_checkout billing_env billing_api "u9" (Some "starter")
             (store 0) in
  let o' := post_create_checkout billing_env billing_api "u9" (Some "starter")
              (on_postgres (store 0)) in
  (store_after o = store 0
   /\ filter is_customer_call (calls o)
      = [ CreateCustomer {| customer_email := None; customer_userId := "u9" |} ])
  /\ (store_after o' = on_postgres (store 0)
      /\ answer o'
         = status_json 500 (ErrorBody "Failed to create checkout session")
      /\ calls o' = []).
Proof.
  cbv zeta. split.
  - destruct (checkout_of_unknown_user_stores_nothing billing_env billing_api
                "u9" (Some "starter") (store 0) "price_starter"
                eq_refl eq_refl eq_refl) as (Hs & Hlite & _).
    split; [exact Hs | exact (Hlite eq_refl)].
  - destruct (checkout_of_unknown_user_stores_nothing billing_env billing_api
                "u9" (Some "starter") (on_postgres (store 0)) "price_starter"
                eq_refl eq_refl eq_refl) as (Hs & _ & Hpg).
    split; [exact Hs | exact (Hpg eq_refl)].
Defined.


(** The portal of a caller who never checked out, written out. *)
Lemma portal_without_customer :
  post_create_portal billing_env billing_api "u2" store_with_customer
  = {| answer := {| status := 400; body := ErrorBody "No subscription found" |};
       store_after := store_with_customer; calls := [] |}.
Proof. reflexivity. Qed.

End StripeFacts.

(* ================================================================== *)
(** * db/database.js: the PostgreSQL branch *)
(* ================================================================== *)

Module DriverFacts.
Import Db Effects Routes Store Integrity Scenario.

(** X26.  When the process runs on the PostgreSQL branch of the driver,
    every route that prepares a statement fails at its first statement
    and answers the 500 of its [catch] block: the chat route for a body
    with a message, the two reading routes, [GET /api/auth/me], the
    registration for a body with id and email, and, with a Stripe key,
    the checkout for a priced plan and the portal.  Nothing is stored, no
    adapter is entered and nothing is sent to a vendor or to Stripe. *)
Theorem postgres_branch_answers_500 (d : Database) :
  use_postgres d = true ->
  (forall env net gen userId req l,
     no_message req = false ->
     post_chat env net gen userId req {| db := d; log := l |}
     = (inr (status_json 500 (ErrorBody "Failed to get AI response")),
        {| db := d; log := l |}))
  /\ (forall userId l,
        get_conversations userId {| db := d; log := l |}
        = (inr (status_json 500 (ErrorBody "Failed to fetch conversations")),
           {| db := d; log := l |}))
  /\ (forall userId id l,
        get_conversation userId id {| db := d; log := l |}
        = (inr (status_json 500 (ErrorBody "Failed to fetch conversation")),
           {| db := d; log := l |}))
  /\ (forall userId,
        AuthRoutes.get_me userId d
        = AuthRoutes.status_json 500 (AuthRoutes.ErrorBody "Failed to fetch user"))
  /\ (forall now req,
        AuthRoutes.present (AuthRoutes.reg_id req) <> None ->
        AuthRoutes.present (AuthRoutes.reg_email req) <> None ->
        AuthRoutes.post_register now req d
        = (AuthRoutes.status_json 500
             (AuthRoutes.ErrorBody "Failed to register user"), d))
  /\ (forall env api userId plan pid,
        StripeRoutes.stripe env = true ->
        StripeRoutes.valid_price env plan = Some pid ->
        StripeRoutes.post_create_checkout env api userId plan d
        = {| StripeRoutes.answer :=
               StripeRoutes.status_json 500
                 (StripeRoutes.ErrorBody "Failed to create checkout session");
             StripeRoutes.store_after := d; StripeRoutes.calls := [] |})
  /\ (forall env api userId,
        StripeRoutes.stripe env = true ->
        StripeRoutes.post_create_portal env api userId d
        = {| StripeRoutes.answer :=
               StripeRoutes.status_json 500
                 (StripeRoutes.ErrorBody "Failed to create portal session");
             StripeRoutes.store_after := d; StripeRoutes.calls := [] |}).
Proof.
  intros Hpg. split; [|split; [|split; [|split; [|split; [|split]]]]].
  - intros env net gen userId req l Hno.
    destruct (ChatHandlerFacts.has_message _ Hno) as (msg & Hm & Hne).
    destruct msg as [|a r]; [congruence|].
    unfold post_chat, resolve_conversation, try_catch, bind, run, query,
           prepare_run, prepare_all, ret.
    rewrite Hm.
    destruct (conversationId req) as [[|b t]|]; cbn [db log];
      rewrite ?Hpg; reflexivity.
  - intros userId l. rewrite ReadFacts.get_conversations_run. simpl.
    now rewrite Hpg.
  - intros userId id l. rewrite RoutesFacts.get_conversation_run. simpl.
    now rewrite Hpg.
  - intros userId. unfold AuthRoutes.get_me, prepare_all. now rewrite Hpg.
  - intros now req Hid Hemail.
    unfold AuthRoutes.post_register, AuthRoutes.present, prepare_all in *.
    destruct (AuthRoutes.reg_id req) as [[|a i]|]; try congruence.
    destruct (AuthRoutes.reg_email req) as [[|b e]|]; try congruence.
    now rewrite Hpg.
  - intros env api userId plan pid Hkey Hvalid.
    exact (StripeFacts.post_create_checkout_postgres _ _ _ _ _ _ Hpg Hkey Hvalid).
  - intros env api userId Hkey.
    exact (StripeFacts.post_create_portal_postgres _ _ _ _ Hpg Hkey).
Qed.

Lemma postgres_branch_answers_500_witness :
  post_chat env_with_keys answering_network fresh "u1" ask_a
    {| db := on_postgres (store 3); log := [] |}
  = (inr (status_json 500 (ErrorBody "Failed to get AI response")),
     {| db := on_postgres (store 3); log := [] |})
  /\ post_chat env_with_keys answering_network fresh "u1" ask_new
       {| db := on_postgres (store 3); log := [] |}
     = (inr (status_json 500 (ErrorBody "Failed to get AI response")),
        {| db := on_postgres (store 3); log := [] |})
  /\ AuthRoutes.get_me "u1" (on_postgres (store 3))
     = AuthRoutes.status_json 500 (AuthRoutes.ErrorBody "Failed to fetch user")
  /\ AuthRoutes.post_register 400
       {| AuthRoutes.reg_id := Some "u3";
          AuthRoutes.reg_email := Some "u3@example.org";
          AuthRoutes.reg_name := None |} (on_postgres (store 3))
     = (AuthRoutes.status_json 500
          (AuthRoutes.ErrorBody "Failed to register user"),
        on_postgres (store 3)).
Proof.
  destruct (postgres_branch_answers_500 (on_postgres (store 3)) eq_refl)
    as (Hchat & _ & _ & Hme & Hreg & _).
  split; [apply Hchat; reflexivity|].
  split; [apply Hchat; reflexivity|].
  split; [apply Hme|].
  apply Hreg; discriminate.
Defined.

End DriverFacts.
